(** * IELTS writing controller: scoring rules of [writing_controller.py]

    A shallow embedding of [src/backend/controllers/writing_controller.py]
    and the proofs of its specified properties.

    Numbers are Python numbers: [int] is [Z], [float] is IEEE-754 binary64
    (the kernel's primitive floats, which compute).  Text is [string], one
    character per code point, for the code points below 256.  The answer
    of the language model is untyped JSON, as the controller receives it
    from [json.loads]; the request body is a JSON object with typed,
    optional fields; the persistence layer is a session holding a
    committed and a working copy of the tables. *)

From Stdlib Require Import ZArith QArith Qminmax Qabs List String Ascii Bool Lia Floats.
From Stdlib Require Import Sorted.
From stdpp Require Import base option list gmap strings.
From Equations Require Import Equations.

Set Warnings "-inexact-float,-register-all".
#[local] Open Scope Z_scope.

(* ===================================================================== *)
(** ** Python arithmetic *)
(* ===================================================================== *)

Module Py.

(** An [int] as an unrounded binary number [±m·2^0]. *)
Definition SF_of_int (z : Z) : spec_float :=
  match z with
  | Z0 => S754_zero false
  | Zpos p => S754_finite false p 0
  | Zneg p => S754_finite true p 0
  end.

(** The least magnitude that rounding to nearest even takes beyond the
    largest double, [2^1024 - 2^971]: half way from it to [2^1024]. *)
Definition DBL_OVERFLOW : Z := 2 ^ 1024 - 2 ^ 970.

(** The quotient [a / b] rounds beyond the double range: there CPython's
    [long_true_divide] raises [OverflowError]. *)
Definition truediv_overflows (a b : Z) : bool :=
  DBL_OVERFLOW * Z.abs b <=? Z.abs a.

(** The [int] [z] rounds beyond the double range: there CPython's
    conversion to [float] raises [OverflowError]. *)
Definition int_overflows (z : Z) : bool :=
  DBL_OVERFLOW <=? Z.abs z.

(** The double nearest to the quotient of two integers, ties to even:
    the value of [a / b] on two [int]s where it has one, that is for
    [b <> 0] and [truediv_overflows a b = false].  The operator with its
    errors is [py_int_truediv] below. *)
Definition int_truediv (a b : Z) : float :=
  SF2Prim (SFdiv prec emax (SF_of_int a) (SF_of_int b)).

(** The double nearest to an integer, ties to even: the value of
    [float(z)] where it has one, that is for [int_overflows z = false].
    The conversion with its error is [py_float] below. *)
Definition float_of_int (z : Z) : float :=
  SF2Prim (binary_normalize prec emax z 0 false).

(** [min(a, b)] and [max(a, b)] on floats: the first argument is kept
    unless the second is strictly smaller (larger). *)
Definition py_min (a b : float) : float := if (b <? a)%float then b else a.
Definition py_max (a b : float) : float := if (a <? b)%float then b else a.

(** The integer nearest to [n / d] for [0 <= n] and [0 < d], ties to even. *)
Definition round_half_even_div (n d : Z) : Z :=
  let q := n / d in
  match 2 * (n mod d) ?= d with
  | Lt => q
  | Gt => q + 1
  | Eq => if Z.even q then q else q + 1
  end.

(** [round(x, ndigits)] on a float, for [0 <= ndigits]: the exact binary
    value of [x] is rounded to [ndigits] decimals, ties to even, and the
    decimal is read back as the nearest double; zeros, infinities and NaN
    round to themselves. *)
Definition py_round (x : float) (ndigits : nat) : float :=
  match Prim2SF x with
  | S754_finite s m e =>
      let p := 10 ^ Z.of_nat ndigits in
      let n := if 0 <=? e then Zpos m * 2 ^ e * p
               else round_half_even_div (Zpos m * p) (2 ^ (- e)) in
      let r := int_truediv n p in
      if s then (- r)%float else r
  | _ => x
  end.

(** The rational a finite float stands for. *)
Definition float_val (x : float) : option Q :=
  match Prim2SF x with
  | S754_zero _ => Some 0%Q
  | S754_finite s m e =>
      let v := if 0 <=? e then inject_Z (Zpos m * 2 ^ e)
               else Qmake (Zpos m) (Z.to_pos (2 ^ (- e))) in
      Some (if s then Qopp v else v)
  | _ => None
  end.

(** The double nearest to a rational (ties to even). *)
Definition nearest_float (q : Q) : float :=
  int_truediv (Qnum q) (Zpos (Qden q)).

End Py.
Import Py.

(* ===================================================================== *)
(** ** JSON values, exceptions and the dynamic operations on them *)
(* ===================================================================== *)

(** What [json.loads] returns: [None], [bool], [int], [float], [str],
    [list] or [dict] with string keys. *)
Inductive json :=
| JNull
| JBool (b : bool)
| JInt (z : Z)
| JFloat (f : float)
| JStr (s : string)
| JArr (l : list json)
| JObj (m : gmap string json).

(** The exception classes the controller tells apart.  [JSONDecodeError]
    is a subclass of [ValueError]; [PlainException] is the class
    [Exception] itself; [OtherError] is any other subclass of
    [Exception] that is not a [ValueError], by name. *)
Inductive exn_class :=
| ValueError
| JSONDecodeError
| TypeError
| KeyError
| AttributeError
| ZeroDivisionError
| OverflowError
| PlainException
| OtherError (name : string).

(** An exception: its class and [str(e)]. *)
Record exn := Exn { exn_class_of : exn_class; exn_str : string }.

(** [isinstance(e, ValueError)]. *)
Definition is_ValueError (e : exn) : bool :=
  match exn_class_of e with
  | ValueError | JSONDecodeError => true
  | _ => false
  end.

(** [isinstance(e, json.JSONDecodeError)]. *)
Definition is_JSONDecodeError (e : exn) : bool :=
  match exn_class_of e with
  | JSONDecodeError => true
  | _ => false
  end.

Inductive result (A : Type) :=
| Ok (a : A)
| Raise (e : exn).
Arguments Ok {A} a.
Arguments Raise {A} e.

#[global] Instance result_ret : MRet result := fun A a => Ok a.
#[global] Instance result_bind : MBind result := fun A B f r =>
  match r with
  | Ok a => f a
  | Raise e => Raise e
  end.

(** [try: body except Exception as e: handler(e)]. *)
Definition try_except {A} (body : result A) (handler : exn -> result A) : result A :=
  match body with
  | Ok a => Ok a
  | Raise e => handler e
  end.

(** The errors the interpreter itself raises on an ill-typed operand. *)
Inductive fault :=
| NotContainer (v : json)                (* [key in v] *)
| NotSubscriptable (v : json)            (* [v[key]] with a string key *)
| MissingKey (key : string)              (* [d[key]] on a dict without it *)
| NotIterable (v : json)                 (* [for x in v] *)
| NoAttribute (v : json) (attr : string) (* [v.attr] *)
| BadArgument (fn : string) (v : json)   (* [essay_text.find(v, ...)] *)
| BadOperand (op : string) (a b : json)  (* [a op b] *)
| DivisionByZero
| DivisionTooLarge                       (* [a / b] beyond the double range *)
| IntTooLarge (z : Z).                   (* [float(z)] beyond the double range *)

Definition fault_class (f : fault) : exn_class :=
  match f with
  | MissingKey _ => KeyError
  | NoAttribute _ _ => AttributeError
  | DivisionByZero => ZeroDivisionError
  | DivisionTooLarge | IntTooLarge _ => OverflowError
  | _ => TypeError
  end.

(** What lies outside the controller: the text of the interpreter's own
    error messages, the chat-completion service answering the prompt that
    lines 86-168 build from the task type and the essay (it returns the
    message content or raises), and [json.loads]. *)
Record Env := {
  fault_str : fault -> string;
  chat_completion : string -> string -> result string;
  json_loads : string -> result json
}.

Definition raise_fault {A} (env : Env) (f : fault) : result A :=
  Raise (Exn (fault_class f) (fault_str env f)).

(** [a / b] on two [int]s. *)
Definition py_int_truediv (env : Env) (a b : Z) : result float :=
  if b =? 0 then raise_fault env DivisionByZero
  else if truediv_overflows a b then raise_fault env DivisionTooLarge
  else Ok (int_truediv a b).

(** [float(z)], as mixed [int]/[float] arithmetic converts its [int]
    operand. *)
Definition py_float (env : Env) (z : Z) : result float :=
  if int_overflows z then raise_fault env (IntTooLarge z)
  else Ok (float_of_int z).

(** Truth value of a JSON value ([if v:], [not v]). *)
Definition truthy (v : json) : bool :=
  match v with
  | JNull => false
  | JBool b => b
  | JInt z => negb (z =? 0)
  | JFloat f => negb (f =? 0)%float
  | JStr s => negb (String.eqb s "")
  | JArr l => negb (bool_decide (l = []))
  | JObj m => negb (bool_decide (m = ∅))
  end.

(** [s.find(sub, start)] for [0 <= start]: the least index from [start]
    on at which [sub] occurs in [s], or -1. *)
Definition str_find (s sub : string) (start : Z) : Z :=
  match String.index (Z.to_nat start) sub s with
  | Some p => Z.of_nat p
  | None => -1
  end.

(** [key in v] for a string [key]. *)
Definition py_contains (env : Env) (key : string) (v : json) : result bool :=
  match v with
  | JObj m => Ok (bool_decide (is_Some (m !! key)))
  | JArr l => Ok (existsb (fun x => match x with
                                    | JStr s => String.eqb s key
                                    | _ => false
                                    end) l)
  | JStr s => Ok (negb (str_find s key 0 =? -1))
  | _ => raise_fault env (NotContainer v)
  end.

(** [v[key]] for a string [key]. *)
Definition py_getitem (env : Env) (v : json) (key : string) : result json :=
  match v with
  | JObj m => match m !! key with
              | Some x => Ok x
              | None => raise_fault env (MissingKey key)
              end
  | _ => raise_fault env (NotSubscriptable v)
  end.

(** [v[key] = x] for a string [key]. *)
Definition py_setitem (env : Env) (v : json) (key : string) (x : json) : result json :=
  match v with
  | JObj m => Ok (JObj (<[key := x]> m))
  | _ => raise_fault env (NotSubscriptable v)
  end.

Fixpoint chars (s : string) : list json :=
  match s with
  | EmptyString => []
  | String c s' => JStr (String c EmptyString) :: chars s'
  end.

(** The items [for x in v] visits: the elements of a list, the keys of a
    dict, the characters of a string. *)
Definition py_iter (env : Env) (v : json) : result (list json) :=
  match v with
  | JArr l => Ok l
  | JObj m => Ok (JStr <$> (map_to_list m).*1)
  | JStr s => Ok (chars s)
  | _ => raise_fault env (NotIterable v)
  end.

(** [all(key in v for key in keys)]: stops at the first key that is
    missing. *)
Fixpoint all_in (env : Env) (keys : list string) (v : json) : result bool :=
  match keys with
  | [] => Ok true
  | key :: keys' =>
      b ← py_contains env key v;
      if b : bool then all_in env keys' v else Ok false
  end.

(** Python numbers, and [json] values used as numbers ([bool] is a
    subclass of [int]). *)
Inductive num :=
| NInt (z : Z)
| NFloat (f : float).

Definition as_num (v : json) : option num :=
  match v with
  | JBool b => Some (NInt (Z.b2z b))
  | JInt z => Some (NInt z)
  | JFloat f => Some (NFloat f)
  | _ => None
  end.

Definition num_json (a : num) : json :=
  match a with
  | NInt z => JInt z
  | NFloat f => JFloat f
  end.

Definition to_float (env : Env) (a : num) : result float :=
  match a with
  | NInt z => py_float env z
  | NFloat f => Ok f
  end.

(** [a + v]. *)
Definition py_add (env : Env) (a : num) (v : json) : result num :=
  match as_num v with
  | Some b =>
      match a, b with
      | NInt x, NInt y => Ok (NInt (x + y))
      | _, _ =>
          x ← to_float env a;
          y ← to_float env b;
          Ok (NFloat (x + y))
      end
  | None => raise_fault env (BadOperand "+" (num_json a) v)
  end.

(** [sum(values)]: the left fold of [+] from the [int] 0.  (CPython
    from 3.12 on adds floats with a compensated sum; the two agree
    whenever the partial sums are exact, as they are on the assessment
    scale.) *)
Fixpoint py_sum_from (env : Env) (acc : num) (values : list json) : result num :=
  match values with
  | [] => Ok acc
  | v :: values' => acc' ← py_add env acc v; py_sum_from env acc' values'
  end.

Definition py_sum (env : Env) (values : list json) : result num :=
  py_sum_from env (NInt 0) values.

(** [a / n] for an [int] [n]. *)
Definition py_truediv (env : Env) (a : num) (n : Z) : result float :=
  match a with
  | NInt z => py_int_truediv env z n
  | NFloat f =>
      d ← py_float env n;
      if n =? 0 then raise_fault env DivisionByZero else Ok (f / d)%float
  end.

(* ===================================================================== *)
(** ** Overall score (lines 14-16) *)
(* ===================================================================== *)

Definition calculate_overall_score (env : Env) (scores : list json) : result float :=
  total ← py_sum env scores;
  mean ← py_truediv env total (Z.of_nat (length scores));
  Ok (py_round mean 1).

(* ===================================================================== *)
(** ** PenaltyCalculator (lines 18-44) *)
(* ===================================================================== *)

(** Line 20: [150 if task_type == 'task1' else 250]. *)
Definition min_words (task_type : string) : Z :=
  if String.eqb task_type "task1" then 150 else 250.

(** Line 35: [20 if task_type == 'task1' else 40], in minutes. *)
Definition time_limit (task_type : string) : Z :=
  if String.eqb task_type "task1" then 20 else 40.

(** [word_count] is a length (line 227), so [words_short] is at most
    [min_words] and the quotient of line 26 has a value. *)
Definition calculate_word_count_penalty (word_count : Z) (task_type : string) : float :=
  if min_words task_type <=? word_count then 0%float
  else
    let words_short := min_words task_type - word_count in
    let penalty := (int_truediv words_short 25 * 0.5)%float in
    py_min penalty 2%float.

(** [time_spent] is [data.get('time_spent')]: [None] when the field is
    absent or null, else a number of seconds, of any size.  The division
    of line 42 raises [OverflowError] on a quotient beyond the double
    range. *)
Definition calculate_time_penalty (env : Env) (time_spent : option Z)
    (task_type : string) : result float :=
  match time_spent with
  | None => Ok 0%float
  | Some t =>
      if t =? 0 then Ok 0%float
      else
        let time_limit_seconds := time_limit task_type * 60 in
        if t <=? time_limit_seconds then Ok 0%float
        else
          minutes_over ← py_int_truediv env (t - time_limit_seconds) 60;
          let penalty := (minutes_over * 0.1)%float in
          Ok (py_min penalty 1%float)
  end.

(* ===================================================================== *)
(** ** TextPositionResolver (lines 46-82) *)
(* ===================================================================== *)

Definition inspect {A} (a : A) : {b : A | a = b} := exist _ a eq_refl.

(** Lines 66-70: the dict appended for a match at [pos]. *)
Definition position (pos : Z) (original_text : string) : json :=
  JObj (<["start" := JInt pos]>
       (<["end" := JInt (pos + Z.of_nat (String.length original_text))]>
       (<["text" := JStr original_text]> ∅))).

(** Lines 62-71: the [while True] loop, entered with [start] and the
    [positions] found so far.  Each round moves [start] past the match it
    found, so the loop ends within [len(essay_text) + 1] rounds. *)
Equations? find_all (essay_text original_text : string) (start : Z)
    (positions : list json) : list json
  by wf (Z.to_nat (Z.of_nat (String.length essay_text) + 1 - start)) lt :=
  find_all essay_text original_text start positions
    with inspect (str_find essay_text original_text start) => {
    | exist _ pos _ with inspect (pos =? -1) => {
      | exist _ true _ := positions;
      | exist _ false _ :=
          find_all essay_text original_text (pos + 1)
                   (positions ++ [position pos original_text]) } }.
Proof.
  assert (Hb : forall s2 n s1 m,
             String.index n s1 s2 = Some m -> (n <= m <= String.length s2)%nat).
  { induction s2 as [|c s2 IH]; intros [|n] s1 m; simpl.
    - destruct s1; [intros [= <-]; simpl; lia | discriminate].
    - discriminate.
    - match goal with
      | |- (if ?b then _ else _) = _ -> _ => destruct b
      end; [intros [= <-]; lia|].
      destruct (String.index 0 s1 s2) eqn:E; [|discriminate].
      intros [= <-]. apply IH in E. lia.
    - destruct (String.index n s1 s2) eqn:E; [|discriminate].
      intros [= <-]. apply IH in E. lia. }
  unfold str_find in *.
  destruct (String.index (Z.to_nat start) original_text essay_text) eqn:E.
  - apply Hb in E. lia.
  - discriminate.
Qed.

(** Lines 57-80: the body of the inner [for], on one [correction] of
    [category]; its value is what is appended to the category's list. *)
Definition highlight_correction (env : Env) (essay_text category : string)
    (correction : json) : result json :=
  match correction with
  | JObj m =>
      let original_text := default (JStr "") (m !! "original") in
      if truthy original_text && negb (String.eqb category "structure") then
        match original_text with
        | JStr original =>
            let positions := find_all essay_text original 0 [] in
            if truthy (JArr positions)
            then Ok (JObj (<["positions" := JArr positions]> m))
            else Ok correction
        | _ => raise_fault env (BadArgument "find" original_text)
        end
      else Ok correction
  | _ => raise_fault env (NoAttribute correction "get")
  end.

(** Lines 55-80: one round of the outer [for]; its value is the list
    [highlighted_corrections[category]] ends with. *)
Definition highlight_category (env : Env) (essay_text : string) (corrections : json)
    (category : string) : result (list json) :=
  present ← py_contains env category corrections;
  if present : bool then
    entries ← py_getitem env corrections category;
    items ← py_iter env entries;
    mapM (highlight_correction env essay_text category) items
  else Ok [].

Definition find_text_positions (env : Env) (essay_text : string) (corrections : json)
    : result json :=
  grammar ← highlight_category env essay_text corrections "grammar";
  vocabulary ← highlight_category env essay_text corrections "vocabulary";
  structure ← highlight_category env essay_text corrections "structure";
  Ok (JObj (<["grammar" := JArr grammar]>
           (<["vocabulary" := JArr vocabulary]>
           (<["structure" := JArr structure]> ∅)))).

(* ===================================================================== *)
(** ** EssayAnalyzer (lines 84-200) *)
(* ===================================================================== *)

Definition required_keys : list string := ["scores"; "feedback"; "corrections"].

Definition score_keys : list string :=
  ["task_achievement"; "coherence_cohesion"; "lexical_resource"; "grammatical_range"].

Definition raise_ValueError {A} (msg : string) : result A := Raise (Exn ValueError msg).

(** Lines 172-192: the body of the inner [try], on the message content
    the service returned. *)
Definition parse_and_validate (env : Env) (essay_text content : string) : result json :=
  result ← json_loads env content;
  has_required ← all_in env required_keys result;
  if negb has_required
  then raise_ValueError "Invalid response format: missing required keys"
  else
    scores ← py_getitem env result "scores";
    has_scores ← all_in env score_keys scores;
    if negb has_scores
    then raise_ValueError "Invalid response format: missing score keys"
    else
      feedback ← py_getitem env result "feedback";
      has_feedback ← all_in env score_keys feedback;
      if negb has_feedback
      then raise_ValueError "Invalid response format: missing feedback keys"
      else
        has_corrections ← py_contains env "corrections" result;
        if negb has_corrections
        then raise_ValueError "Invalid response format: missing corrections"
        else
          corrections ← py_getitem env result "corrections";
          highlighted ← find_text_positions env essay_text corrections;
          py_setitem env result "corrections" highlighted.

(** Lines 193-196: the handlers of the inner [try]. *)
Definition inner_handler {A} (e : exn) : result A :=
  if is_JSONDecodeError e
  then raise_ValueError "Failed to parse GPT response as JSON"
  else raise_ValueError ("Invalid response format: " ++ exn_str e).

(** Lines 198-200: the handler of the outer [try]. *)
Definition outer_handler {A} (e : exn) : result A :=
  Raise (Exn PlainException ("Failed to analyze essay: " ++ exn_str e)).

Definition analyze_essay (env : Env) (essay_text task_type : string) : result json :=
  try_except
    (content ← chat_completion env task_type essay_text;
     try_except (parse_and_validate env essay_text content) inner_handler)
    outer_handler.

(* ===================================================================== *)
(** ** Persistence: tables and the session *)
(* ===================================================================== *)

(** Modelled from the spec: the [WritingScore] table of [models.py]
    (a ScoredEssay: submission, assessment, word count, penalties and
    adjusted score), with the fields the controller sets at lines 252-271,
    a primary key and a creation timestamp. *)
Record WritingScore := {
  ws_id : Z;
  ws_user_id : Z;
  ws_task_type : string;
  ws_essay_text : string;
  ws_word_count : Z;
  ws_time_spent : option Z;
  ws_task_achievement : json;
  ws_coherence_cohesion : json;
  ws_lexical_resource : json;
  ws_grammatical_range : json;
  ws_overall_score : float;
  ws_word_count_penalty : float;
  ws_time_penalty : float;
  ws_adjusted_score : float;
  ws_task_achievement_feedback : json;
  ws_coherence_cohesion_feedback : json;
  ws_lexical_resource_feedback : json;
  ws_grammatical_range_feedback : json;
  (* the value whose JSON text line 270 stores and line 282 reads back *)
  ws_corrections : json;
  ws_created_at : Z
}.

(** Modelled from the spec: the [CombinedWritingScore] table of
    [models.py] (a CombinedScore: the ids of a task1 and a task2 record
    of one user and their weighted score). *)
Record CombinedWritingScore := {
  cw_id : Z;
  cw_user_id : Z;
  cw_task1_score_id : Z;
  cw_task2_score_id : Z;
  cw_combined_score : float;
  cw_created_at : Z
}.

(** Modelled from the spec: the database, with the credit ledger
    ([UserCredits], one balance per user) and the two tables in insertion
    order. *)
Record Tables := {
  user_credits : gmap Z Z;
  writing_scores : list WritingScore;
  combined_writing_scores : list CombinedWritingScore
}.

(** [db.session]: what is committed, the working copy that queries read
    and changes go to until [commit], the clock new rows are stamped
    with, and the primary key the database gives a new row of a table
    whose keys in use are given. *)
Record Session := {
  committed : Tables;
  working : Tables;
  now : Z;
  new_id : list Z -> Z
}.

Definition session_commit (s : Session) : Session :=
  {| committed := working s; working := working s; now := now s; new_id := new_id s |}.

Definition session_rollback (s : Session) : Session :=
  {| committed := committed s; working := committed s; now := now s;
     new_id := new_id s |}.

Definition with_working (s : Session) (t : Tables) : Session :=
  {| committed := committed s; working := t; now := now s; new_id := new_id s |}.

(** [db.session.add(row)] for a [WritingScore] built without key and
    timestamp. *)
Definition session_add_writing_score (row : Z -> Z -> WritingScore) (s : Session)
    : WritingScore * Session :=
  let t := working s in
  let r := row (new_id s (ws_id <$> writing_scores t)) (now s) in
  (r, with_working s {| user_credits := user_credits t;
                        writing_scores := writing_scores t ++ [r];
                        combined_writing_scores := combined_writing_scores t |}).

Definition session_add_combined_score (row : Z -> Z -> CombinedWritingScore) (s : Session)
    : Session :=
  let t := working s in
  let r := row (new_id s (cw_id <$> combined_writing_scores t)) (now s) in
  with_working s {| user_credits := user_credits t;
                    writing_scores := writing_scores t;
                    combined_writing_scores := combined_writing_scores t ++ [r] |}.

Definition set_credits (user_id credits : Z) (s : Session) : Session :=
  let t := working s in
  with_working s {| user_credits := <[user_id := credits]> (user_credits t);
                    writing_scores := writing_scores t;
                    combined_writing_scores := combined_writing_scores t |}.

(** Code that reads and writes the session and may raise: the session
    it leaves behind is kept when it raises. *)
Definition M (A : Type) : Type := Session -> result A * Session.

#[global] Instance M_ret : MRet M := fun A a s => (Ok a, s).
#[global] Instance M_bind : MBind M := fun A B f c s =>
  match c s with
  | (Ok a, s') => f a s'
  | (Raise e, s') => (Raise e, s')
  end.

Definition lift {A} (r : result A) : M A := fun s => (r, s).

(* ===================================================================== *)
(** ** Credits (lines 12, 202-213) *)
(* ===================================================================== *)

Definition CREDITS_PER_ANALYSIS : Z := 1.

Definition check_and_deduct_credits (user_id : Z) : M unit := fun s =>
  match user_credits (working s) !! user_id with
  | None => (raise_ValueError "User credits not found", s)
  | Some available_credits =>
      if available_credits <? CREDITS_PER_ANALYSIS
      then (raise_ValueError "Insufficient credits", s)
      else (Ok tt,
            session_commit
              (set_credits user_id (available_credits - CREDITS_PER_ANALYSIS) s))
  end.

(* ===================================================================== *)
(** ** CombinedScoreAggregator (lines 291-333) *)
(* ===================================================================== *)

(** [WritingScore.query.filter_by(user_id=..., task_type=...)]. *)
Definition filter_scores (rows : list WritingScore) (user_id : Z) (task_type : string)
    : list WritingScore :=
  List.filter (fun r => (ws_user_id r =? user_id) && String.eqb (ws_task_type r) task_type)
              rows.

(** [.order_by(WritingScore.created_at.desc()).first()]: a row with the
    greatest timestamp, the earliest inserted of them. *)
Fixpoint first_by_created_at_desc (rows : list WritingScore) : option WritingScore :=
  match rows with
  | [] => None
  | r :: rows' =>
      match first_by_created_at_desc rows' with
      | Some b => if ws_created_at r <? ws_created_at b then Some b else Some r
      | None => Some r
      end
  end.

Definition latest_score (s : Session) (user_id : Z) (task_type : string)
    : option WritingScore :=
  first_by_created_at_desc (filter_scores (writing_scores (working s)) user_id task_type).

(** [CombinedWritingScore.query.filter_by(...).first()]. *)
Definition existing_combined (s : Session) (user_id task1_score_id task2_score_id : Z)
    : option CombinedWritingScore :=
  List.find (fun c => (cw_user_id c =? user_id)
                      && (cw_task1_score_id c =? task1_score_id)
                      && (cw_task2_score_id c =? task2_score_id))
            (combined_writing_scores (working s)).

(** Lines 307-310. *)
Definition combined_score_of (task1_adjusted task2_adjusted : float) : float :=
  py_round (task1_adjusted * 1 / 3 + task2_adjusted * 2 / 3)%float 1.

(** No statement of the [try] body raises on these tables, so the
    handler of lines 331-333 is never entered. *)
Definition calculate_combined_score (user_id : Z) (new_score : WritingScore)
    (s : Session) : Session :=
  match latest_score s user_id "task1", latest_score s user_id "task2" with
  | Some task1_score, Some task2_score =>
      let combined_score :=
        combined_score_of (ws_adjusted_score task1_score) (ws_adjusted_score task2_score) in
      match existing_combined s user_id (ws_id task1_score) (ws_id task2_score) with
      | Some _ => s
      | None =>
          session_commit
            (session_add_combined_score
               (fun id created_at =>
                  {| cw_id := id;
                     cw_user_id := user_id;
                     cw_task1_score_id := ws_id task1_score;
                     cw_task2_score_id := ws_id task2_score;
                     cw_combined_score := combined_score;
                     cw_created_at := created_at |})
               s)
      end
  | _, _ => s
  end.

(* ===================================================================== *)
(** ** ScoringPipeline (lines 215-289) *)
(* ===================================================================== *)

(** The request body [data]: a JSON object whose fields, when present,
    are a string, a string and a whole number of seconds, of any size.
    [None] for a field is a missing key (for [time_spent] also a
    null). *)
Record Submission := {
  sub_essay_text : option string;
  sub_task_type : option string;
  sub_time_spent : option Z
}.

(** Whitespace as [str.strip] and [str.split] see it, among the code
    points below 256. *)
Definition is_space (c : ascii) : bool :=
  let n := Z.of_N (N_of_ascii c) in
  ((9 <=? n) && (n <=? 13)) || ((28 <=? n) && (n <=? 32)) || (n =? 133) || (n =? 160).

Fixpoint str_lstrip (s : string) : string :=
  match s with
  | String c s' => if is_space c then str_lstrip s' else s
  | EmptyString => EmptyString
  end.

(** [s.strip()]. *)
Definition str_strip (s : string) : string :=
  String.rev (str_lstrip (String.rev (str_lstrip s))).

(** [s.split()], with [word] the characters of the word being read. *)
Fixpoint str_split_from (s word : string) : list string :=
  match s with
  | EmptyString => if String.eqb word "" then [] else [word]
  | String c s' =>
      if is_space c
      then (if String.eqb word "" then str_split_from s' ""
            else word :: str_split_from s' "")
      else str_split_from s' (word ++ String c EmptyString)
  end.

Definition str_split (s : string) : list string := str_split_from s "".

(** Line 227. *)
Definition count_words (essay_text : string) : Z :=
  Z.of_nat (length (str_split (str_strip essay_text))).

(** Lines 273-283: the new row is added and committed, the combined
    score is looked at, and the row is returned. *)
Definition save_and_combine (user_id : Z) (row : Z -> Z -> WritingScore)
    : M WritingScore := fun s =>
  let (writing_score, s1) := session_add_writing_score row s in
  let s2 := session_commit s1 in
  let s3 := calculate_combined_score user_id writing_score s2 in
  (Ok writing_score, s3).

(** Lines 219-283: the body of the [try]. *)
Definition score_essay_body (env : Env) (user_id : Z) (data : option Submission)
    : M WritingScore :=
  match data with
  | Some {| sub_essay_text := Some essay_text;
            sub_task_type := Some task_type;
            sub_time_spent := time_spent |} =>
      let word_count := count_words essay_text in
      _ ← check_and_deduct_credits user_id;
      analysis ← lift (analyze_essay env essay_text task_type);
      scores ← lift (py_getitem env analysis "scores");
      task_achievement ← lift (py_getitem env scores "task_achievement");
      coherence_cohesion ← lift (py_getitem env scores "coherence_cohesion");
      lexical_resource ← lift (py_getitem env scores "lexical_resource");
      grammatical_range ← lift (py_getitem env scores "grammatical_range");
      let base_scores :=
        [task_achievement; coherence_cohesion; lexical_resource; grammatical_range] in
      overall_score ← lift (calculate_overall_score env base_scores);
      let word_count_penalty := calculate_word_count_penalty word_count task_type in
      time_penalty ← lift (calculate_time_penalty env time_spent task_type);
      let adjusted_score :=
        py_max 0 (overall_score - word_count_penalty - time_penalty)%float in
      feedback ← lift (py_getitem env analysis "feedback");
      task_achievement_feedback ← lift (py_getitem env feedback "task_achievement");
      coherence_cohesion_feedback ← lift (py_getitem env feedback "coherence_cohesion");
      lexical_resource_feedback ← lift (py_getitem env feedback "lexical_resource");
      grammatical_range_feedback ← lift (py_getitem env feedback "grammatical_range");
      corrections ← lift (py_getitem env analysis "corrections");
      save_and_combine user_id
        (fun id created_at =>
           {| ws_id := id;
              ws_user_id := user_id;
              ws_task_type := task_type;
              ws_essay_text := essay_text;
              ws_word_count := word_count;
              ws_time_spent := time_spent;
              ws_task_achievement := task_achievement;
              ws_coherence_cohesion := coherence_cohesion;
              ws_lexical_resource := lexical_resource;
              ws_grammatical_range := grammatical_range;
              ws_overall_score := overall_score;
              ws_word_count_penalty := word_count_penalty;
              ws_time_penalty := time_penalty;
              ws_adjusted_score := adjusted_score;
              ws_task_achievement_feedback := task_achievement_feedback;
              ws_coherence_cohesion_feedback := coherence_cohesion_feedback;
              ws_lexical_resource_feedback := lexical_resource_feedback;
              ws_grammatical_range_feedback := grammatical_range_feedback;
              ws_corrections := corrections;
              ws_created_at := created_at |})
  | _ => lift (raise_ValueError "Missing required fields")
  end.

(** Lines 285-289: the handler.  A [ValueError] is raised again as it
    is; anything else is replaced by a plain [Exception]. *)
Definition score_essay (env : Env) (user_id : Z) (data : option Submission)
    : M WritingScore := fun s =>
  match score_essay_body env user_id data s with
  | (Ok writing_score, s') => (Ok writing_score, s')
  | (Raise e, s') =>
      let s'' := session_rollback s' in
      if is_ValueError e then (Raise e, s'')
      else (Raise (Exn PlainException ("Failed to score essay: " ++ exn_str e)), s'')
  end.

(* ===================================================================== *)
(** ** The specification's reading of the rules *)
(* ===================================================================== *)

(** The two task variants of the specification and their names. *)
Inductive TaskVariant := Task1 | Task2.

Definition variant_name (v : TaskVariant) : string :=
  match v with
  | Task1 => "task1"
  | Task2 => "task2"
  end.

(** "minimum required words is 150 for task1, 250 for task2". *)
Definition minimum_words (v : TaskVariant) : Z :=
  match v with
  | Task1 => 150
  | Task2 => 250
  end.

(** "Limit is 20 minutes for task1, 40 for task2", in seconds. *)
Definition limit_seconds (v : TaskVariant) : Z :=
  match v with
  | Task1 => 20 * 60
  | Task2 => 40 * 60
  end.

(** "If wordCount >= minimum, penalty is 0.  Otherwise penalty =
    (minimum - wordCount) / 25 * 0.5, capped at 2.0", as a rational. *)
Definition wordCountPenalty (wordCount : Z) (v : TaskVariant) : Q :=
  if minimum_words v <=? wordCount then 0%Q
  else Qmin (inject_Z (minimum_words v - wordCount) / 25 * 0.5)%Q 2%Q.

(** "penalty = minutesOver * 0.1, capped at 1.0", as a rational, for a
    time over the limit. *)
Definition timePenaltyOver (timeSpent : Z) (v : TaskVariant) : Q :=
  Qmin (inject_Z (timeSpent - limit_seconds v) / 60 * 0.1)%Q 1%Q.

(** "returns 0 if time is absent/unset.  If timeSpent <= limit, penalty
    0; else penalty = minutesOver * 0.1, capped at 1.0", in the doubles
    the program computes with. *)
Definition timePenalty (timeSpent : option Z) (v : TaskVariant) : float :=
  match timeSpent with
  | None => 0%float
  | Some t =>
      if t <=? limit_seconds v then 0%float
      else
        let minutesOver := int_truediv (t - limit_seconds v) 60 in
        py_min (minutesOver * 0.1)%float 1%float
  end.

(** [q] is within [2^-52] (one unit in the last place of a double
    in [1, 2)) of the value of the float [x]. *)
Definition close_to (x : float) (q : Q) : Prop :=
  exists v : Q, float_val x = Some v /\ (Qabs (v - q) <= 1 # (2 ^ 52))%Q.

Definition close_to_b (x : float) (q : Q) : bool :=
  match float_val x with
  | Some v => Qle_bool (Qabs (v - q)) (1 # (2 ^ 52))
  | None => false
  end.

(** *** The overall score on the assessment scale *)

(** "four sub-scores (0-9, 0.5 increments)": the JSON value [v] is the
    sub-score of [k] halves, written as a float or, when whole, as an
    int. *)
Definition on_scale (v : json) (k : Z) : Prop :=
  0 <= k <= 18 /\
  (v = JFloat (int_truediv k 2) \/ (Z.even k = true /\ v = JInt (k / 2))).

(** A non-negative rational rounded to one decimal place, ties to
    even. *)
Definition round_1_decimal (q : Q) : Q :=
  Qmake (round_half_even_div (Qnum q * 10) (Zpos (Qden q))) 10.

(** "arithmetic mean of the four sub-scores, rounded to one decimal
    place", for sub-scores of [k1], [k2], [k3] and [k4] halves: their
    mean is [(k1 + k2 + k3 + k4) / 8]. *)
Definition overallScore (k1 k2 k3 k4 : Z) : Q :=
  round_1_decimal (Qmake (k1 + k2 + k3 + k4) 8).

(** The running total of [sum]: [K] halves, as a float or, when whole,
    as an int. *)
Definition halves (a : num) (K : Z) : Prop :=
  a = NFloat (int_truediv K 2) \/ (Z.even K = true /\ a = NInt (K / 2)).

(** *** Occurrences and spans *)

(** [original] occurs in [essay] at offset [i]. *)
Definition occurs_at (essay original : string) (i : nat) : bool :=
  String.eqb (substring i (String.length original) essay) original.

(** The offsets from [start] on at which [original] occurs in [essay],
    in increasing order. *)
Definition occurrences_from (essay original : string) (start : nat) : list nat :=
  List.filter (occurs_at essay original) (seq start (S (String.length essay) - start)).

(** "Each occurrence yields a span: start offset, end offset (start +
    length of matched text), and the matched text itself". *)
Definition spans (essay original : string) : list json :=
  List.map (fun i => position (Z.of_nat i) original) (occurrences_from essay original 0).

(** What the resolver is to return for a grammar or vocabulary entry
    [m], given the spans [found] for it: "if one or more found, a copy of
    the entry gains a positions field holding the ordered list of spans";
    "if zero occurrences are found, the entry is passed through
    unchanged". *)
Definition with_positions (m : gmap string json) (found : list json) : json :=
  match found with
  | [] => JObj m
  | _ :: _ => JObj (<["positions" := JArr found]> m)
  end.

(** *** The pipeline's vocabulary *)

(** A submission with both required fields. *)
Definition submission (essay_text task_type : string) (time_spent : option Z)
    : option Submission :=
  Some {| sub_essay_text := Some essay_text;
          sub_task_type := Some task_type;
          sub_time_spent := time_spent |}.

(** The session once the cost has been taken off the balance
    [available_credits] of [user_id] and committed (lines 212-213). *)
Definition deducted (user_id available_credits : Z) (s : Session) : Session :=
  session_commit (set_credits user_id (available_credits - CREDITS_PER_ANALYSIS) s).

(** Every key of [keys] is in the object [m]. *)
Definition has_all (m : gmap string json) (keys : list string) : bool :=
  forallb (fun key => bool_decide (is_Some (m !! key))) keys.

(** *** The aggregator's vocabulary *)

(** [r] is a scored essay of [user_id] for [task_type]. *)
Definition scored_for (user_id : Z) (task_type : string) (r : WritingScore) : Prop :=
  ws_user_id r = user_id /\ ws_task_type r = task_type.

(** "the most recently created ScoredEssay of each task variant for the
    user": a row of the user and variant that no other such row is more
    recent than. *)
Definition most_recent (rows : list WritingScore) (user_id : Z) (task_type : string)
    (t : WritingScore) : Prop :=
  In t rows /\ scored_for user_id task_type t /\
  forall r, In r rows -> scored_for user_id task_type r ->
            ws_created_at r <= ws_created_at t.

(** The CombinedScore rows of [user_id] for the pair of record ids. *)
Definition rows_for_pair (rows : list CombinedWritingScore)
    (user_id task1_score_id task2_score_id : Z) : list CombinedWritingScore :=
  List.filter (fun c => (cw_user_id c =? user_id)
                        && (cw_task1_score_id c =? task1_score_id)
                        && (cw_task2_score_id c =? task2_score_id))
              rows.

(** The row lines 321-326 build for the pair [task1_score], [task2_score]
    in session [s]. *)
Definition new_combined_row (s : Session) (user_id : Z)
    (task1_score task2_score : WritingScore) : CombinedWritingScore :=
  {| cw_id := new_id s (cw_id <$> combined_writing_scores (working s));
     cw_user_id := user_id;
     cw_task1_score_id := ws_id task1_score;
     cw_task2_score_id := ws_id task2_score;
     cw_combined_score :=
       py_round (ws_adjusted_score task1_score * 1 / 3
                 + ws_adjusted_score task2_score * 2 / 3)%float 1;
     cw_created_at := now s |}.

(** *** Three claims as the specification words them *)

(** The resolver as the specification words it, for the entry [m] of
    [category] whose [original] is the string [original]: the spans are
    those of the repeated forward search (the loop of lines 62-71, run
    from offset 0). *)
Definition resolver_as_stated (env : Env) (essay category : string)
    (m : gmap string json) (original : string) : Prop :=
  (category = "grammar" \/ category = "vocabulary") ->
  m !! "original" = Some (JStr original) ->
  highlight_correction env essay category (JObj m)
  = Ok (with_positions m (find_all essay original 0 [])).

Definition recognized (task_type : string) : bool :=
  String.eqb task_type "task1" || String.eqb task_type "task2".

(** "lacks non-empty essay text or has an unrecognized task variant". *)
Definition lacks_valid_input (data : option Submission) : Prop :=
  match data with
  | Some {| sub_essay_text := Some essay_text; sub_task_type := Some task_type |} =>
      essay_text = "" \/ recognized task_type = false
  | _ => True
  end.

(** "fails with InvalidInputError ... before any credits are deducted or
    analysis is performed": the call raises the error of line 220 and
    leaves nothing behind. *)
Definition invalid_input_as_stated (env : Env) (user_id : Z) (data : option Submission)
    (s : Session) : Prop :=
  lacks_valid_input data ->
  score_essay env user_id data s
  = (Raise (Exn ValueError "Missing required fields"), session_rollback s).

(** "the scoring pipeline propagates these analyzer failures unchanged":
    what the analyzer raises is what [score_essay] raises. *)
Definition analyzer_failure_as_stated (env : Env) (user_id : Z)
    (essay_text task_type : string) (time_spent : option Z) (s : Session) : Prop :=
  forall e, analyze_essay env essay_text task_type = Raise e ->
            (score_essay env user_id (submission essay_text task_type time_spent) s).1
            = Raise e.

(* ===================================================================== *)
(** ** Sample inputs *)
(* ===================================================================== *)

(** A JSON object from its items. *)
Definition obj (items : list (string * json)) : json := JObj (list_to_map items).

(** An environment whose service call and parser have fixed outcomes. *)
Definition fixed_env (reply : result string) (parsed : result json) : Env :=
  {| fault_str := fun _ => "fault";
     chat_completion := fun _ _ => reply;
     json_loads := fun _ => parsed |}.

(** A well-formed answer of the analyzer's service. *)
Definition sample_analysis : json :=
  obj [("scores", obj [("task_achievement", JInt 6);
                       ("coherence_cohesion", JInt 7);
                       ("lexical_resource", JInt 6);
                       ("grammatical_range", JFloat 6.5)]);
       ("feedback", obj [("task_achievement", JStr "Covers the task.");
                         ("coherence_cohesion", JStr "Clear paragraphs.");
                         ("lexical_resource", JStr "Adequate range.");
                         ("grammatical_range", JStr "Mostly accurate.")]);
       ("corrections", obj [("grammar", JArr [obj [("original", JStr "the");
                                                   ("correction", JStr "a")]]);
                            ("vocabulary", JArr []);
                            ("structure", JArr [])])].

(** The service answers with [sample_analysis]. *)
Definition sample_env : Env := fixed_env (Ok "{...}") (Ok sample_analysis).

(** The service is unreachable. *)
Definition failing_env : Env :=
  fixed_env (Raise (Exn (OtherError "APIConnectionError") "Connection error."))
            (Ok sample_analysis).

(** An auto-incremented key: one above the largest in use. *)
Definition next_id (ids : list Z) : Z := 1 + foldr Z.max 0 ids.

Definition session_with_credits (credits : gmap Z Z) : Session :=
  let t := {| user_credits := credits;
              writing_scores := [];
              combined_writing_scores := [] |} in
  {| committed := t; working := t; now := 100; new_id := next_id |}.

(** User 1 holds two credits. *)
Definition sample_session : Session := session_with_credits {[ 1 := 2 ]}.

(** A six-word task1 essay written in 1300 seconds. *)
Definition sample_submission : option Submission :=
  submission "the cat sat on the mat" "task1" (Some 1300).

(** The row [score_essay] returns for [sample_submission] in
    [sample_session] when the service answers with [sample_analysis]. *)
Definition sample_row : WritingScore :=
  {| ws_id := 1;
     ws_user_id := 1;
     ws_task_type := "task1";
     ws_essay_text := "the cat sat on the mat";
     ws_word_count := 6;
     ws_time_spent := Some 1300;
     ws_task_achievement := JInt 6;
     ws_coherence_cohesion := JInt 7;
     ws_lexical_resource := JInt 6;
     ws_grammatical_range := JFloat 6.5;
     ws_overall_score := 6.4;
     ws_word_count_penalty := 2;
     ws_time_penalty := py_min (int_truediv 100 60 * 0.1) 1;
     ws_adjusted_score := py_max 0 (6.4 - 2 - py_min (int_truediv 100 60 * 0.1) 1);
     ws_task_achievement_feedback := JStr "Covers the task.";
     ws_coherence_cohesion_feedback := JStr "Clear paragraphs.";
     ws_lexical_resource_feedback := JStr "Adequate range.";
     ws_grammatical_range_feedback := JStr "Mostly accurate.";
     ws_corrections :=
       obj [("grammar",
             JArr [obj [("original", JStr "the");
                        ("correction", JStr "a");
                        ("positions",
                         JArr [position 0 "the"; position 15 "the"])]]);
            ("vocabulary", JArr []);
            ("structure", JArr [])];
     ws_created_at := 100 |}.

(** A stored essay of [user_id] with the given key, variant, adjusted
    score and timestamp. *)
Definition stored_essay (id user_id : Z) (task_type : string) (adjusted : float)
    (created_at : Z) : WritingScore :=
  {| ws_id := id;
     ws_user_id := user_id;
     ws_task_type := task_type;
     ws_essay_text := "";
     ws_word_count := 0;
     ws_time_spent := None;
     ws_task_achievement := JInt 9;
     ws_coherence_cohesion := JInt 9;
     ws_lexical_resource := JInt 9;
     ws_grammatical_range := JInt 9;
     ws_overall_score := 9;
     ws_word_count_penalty := 2;
     ws_time_penalty := 0;
     ws_adjusted_score := adjusted;
     ws_task_achievement_feedback := JNull;
     ws_coherence_cohesion_feedback := JNull;
     ws_lexical_resource_feedback := JNull;
     ws_grammatical_range_feedback := JNull;
     ws_corrections := obj [];
     ws_created_at := created_at |}.

(** User 1 has a task1 essay adjusted to 6.5 and two task2 essays, the
    later one adjusted to 7.0; nothing is combined yet. *)
Definition paired_session : Session :=
  let t := {| user_credits := ∅;
              writing_scores := [stored_essay 1 1 "task1" 6.5 10;
                                 stored_essay 2 1 "task2" 5 20;
                                 stored_essay 3 1 "task2" 7 30];
              combined_writing_scores := [] |} in
  {| committed := t; working := t; now := 40; new_id := next_id |}.


(* ===================================================================== *)
(** ** Lookup of one score (lines 343-351) *)
(* ===================================================================== *)

(** Lines 343-351.  The schema's dump is left out: the value is the row
    it serializes.  The handler raises again what it caught. *)
Definition get_score (score_id user_id : Z) (s : Session) : result WritingScore :=
  match List.find (fun r => (ws_id r =? score_id) && (ws_user_id r =? user_id))
                  (writing_scores (working s)) with
  | Some score => Ok score
  | None => raise_ValueError "Score not found"
  end.

(* ===================================================================== *)
(** ** Vocabulary of the further properties *)
(* ===================================================================== *)

(** Line 54: the categories the resolver walks through. *)
Definition categories : list string := ["grammar"; "vocabulary"; "structure"].

(** [y] is the object [x] but for its key [positions]. *)
Definition same_but_positions (x y : json) : Prop :=
  exists m m' : gmap string json,
    x = JObj m /\ y = JObj m' /\ forall key, key <> "positions" -> m' !! key = m !! key.

(** An entry the resolver can handle: an object whose [original], if it
    has one, is a string. *)
Definition well_formed_entry (x : json) : Prop :=
  exists m : gmap string json,
    x = JObj m /\ (m !! "original" = None \/ exists o, m !! "original" = Some (JStr o)).

(** The three lists of the resolver's answer. *)
Definition highlighted (grammar vocabulary structure : list json) : json :=
  JObj (<["grammar" := JArr grammar]>
       (<["vocabulary" := JArr vocabulary]>
       (<["structure" := JArr structure]> ∅))).

(** Corrections with one grammar entry and a key that is no category,
    and what the resolver makes of them in "the cat sat on the mat". *)
Definition sample_corrections : json :=
  obj [("grammar", JArr [obj [("original", JStr "the"); ("type", JStr "article")]]);
       ("style", JArr [])].

Definition sample_highlighted : json :=
  highlighted
    [JObj (<["positions" := JArr [position 0 "the"; position 15 "the"]]>
             (<["original" := JStr "the"]> (<["type" := JStr "article"]> ∅)))]
    [] [].

(** [f] comes of arithmetic, not of an operand of the wrong shape. *)
Definition arithmetic (f : fault) : bool :=
  match f with
  | DivisionByZero | DivisionTooLarge | IntTooLarge _ => true
  | _ => false
  end.

(** [e] is an error of the interpreter itself on an operand of the wrong
    shape: a [TypeError], a [KeyError] or an [AttributeError]. *)
Definition is_fault (env : Env) (e : exn) : Prop :=
  exists f : fault, arithmetic f = false /\ e = Exn (fault_class f) (fault_str env f).

(** [rel] holds between every element of [l] and itself and every later
    element. *)
Fixpoint pairwise {A} (rel : A -> A -> bool) (l : list A) : bool :=
  match l with
  | [] => true
  | x :: l' => forallb (rel x) l && pairwise rel l'
  end.

(** A text of whitespace only. *)
Fixpoint blank (s : string) : bool :=
  match s with
  | EmptyString => true
  | String c s' => is_space c && blank s'
  end.

(** The number of words [str_split_from] is to report for [s], read
    while inside a word ([in_word]) or between words. *)
Fixpoint words_from (s : string) (in_word : bool) : nat :=
  match s with
  | EmptyString => if in_word then 1 else 0
  | String c s' =>
      if is_space c then (if in_word then 1 else 0) + words_from s' false
      else words_from s' true
  end.

(* ===================================================================== *)
(** * Proofs *)
(* ===================================================================== *)

(** ** Checking a property on every integer of a range *)

Lemma forallb_range (check : Z -> bool) (lo : Z) (n : nat) :
  forallb check (List.map (fun k => lo + Z.of_nat k) (seq 0 n)) = true ->
  forall z, lo <= z < lo + Z.of_nat n -> check z = true.
Proof.
  intros Hall z Hz.
  rewrite forallb_forall in Hall. apply Hall.
  apply in_map_iff. exists (Z.to_nat (z - lo)). split; [lia|].
  apply in_seq. lia.
Qed.

Lemma float_eqb_eq (x y : float) : Leibniz.eqb x y = true -> x = y.
Proof. apply Leibniz.eqb_spec. Qed.

Lemma close_to_b_sound (x : float) (q : Q) : close_to_b x q = true -> close_to x q.
Proof.
  unfold close_to_b, close_to. destruct (float_val x) as [v|]; [|discriminate].
  intros H. exists v. split; [reflexivity|]. now apply Qle_bool_iff.
Qed.

(** ** PenaltyCalculator *)

Lemma variant_name_min_words v : min_words (variant_name v) = minimum_words v.
Proof. destruct v; reflexivity. Qed.

Lemma variant_name_time_limit v : time_limit (variant_name v) * 60 = limit_seconds v.
Proof. destruct v; reflexivity. Qed.

Lemma word_count_penalty_enough word_count task_type :
  min_words task_type <= word_count ->
  calculate_word_count_penalty word_count task_type = 0%float.
Proof.
  intros H. unfold calculate_word_count_penalty.
  destruct (Z.leb_spec (min_words task_type) word_count); [reflexivity | lia].
Qed.

Lemma word_count_penalty_short_checked v :
  forallb (fun wc => Leibniz.eqb (calculate_word_count_penalty wc (variant_name v))
                                (nearest_float (wordCountPenalty wc v)))
          (List.map (fun k => 0 + Z.of_nat k) (seq 0 250)) = true.
Proof. destruct v; vm_compute; reflexivity. Qed.

Lemma py_min_capped (penalty cap : float) :
  (cap <? cap)%float = false -> (cap <? py_min penalty cap)%float = false.
Proof.
  intros Hcap. unfold py_min.
  destruct (cap <? penalty)%float eqn:E; [exact Hcap | exact E].
Qed.

(** C1.  For a word count and a task variant, the penalty is 0 when the
    count reaches the variant's minimum (150 for task1, 250 for task2);
    for a count below it (a count is not negative) the penalty the
    program returns is the double nearest to the specified rational,
    (minimum - count) / 25 * 0.5 capped at 2.0, and whatever the count it
    never exceeds 2.0.  For task1 it is exactly 1.0 at 100 words and
    exactly 2.0 at 0 words. *)
Theorem word_count_penalty_spec (wordCount : Z) (v : TaskVariant) :
  (minimum_words v <= wordCount ->
   calculate_word_count_penalty wordCount (variant_name v) = 0%float)
  /\ (0 <= wordCount ->
      calculate_word_count_penalty wordCount (variant_name v)
      = nearest_float (wordCountPenalty wordCount v))
  /\ (2 <? calculate_word_count_penalty wordCount (variant_name v))%float = false
  /\ calculate_word_count_penalty 100 (variant_name Task1) = 1%float
  /\ calculate_word_count_penalty 0 (variant_name Task1) = 2%float.
Proof.
  split; [|split; [|split; [|split; reflexivity]]].
  - intros Hge. apply word_count_penalty_enough.
    rewrite variant_name_min_words. lia.
  - intros Hpos.
    destruct (Z.le_gt_cases (minimum_words v) wordCount) as [Hge|Hlt].
    + rewrite word_count_penalty_enough by (rewrite variant_name_min_words; lia).
      unfold wordCountPenalty.
      destruct (Z.leb_spec (minimum_words v) wordCount); [reflexivity | lia].
    + apply float_eqb_eq.
      apply (forallb_range _ 0 250 (word_count_penalty_short_checked v)).
      destruct v; simpl in Hlt; lia.
  - unfold calculate_word_count_penalty.
    destruct (_ <=? _); [reflexivity|]. apply py_min_capped. reflexivity.
Qed.

Lemma word_count_penalty_spec_witness :
  calculate_word_count_penalty 300 (variant_name Task2) = 0%float
  /\ calculate_word_count_penalty 120 (variant_name Task2)
     = nearest_float (wordCountPenalty 120 Task2).
Proof.
  split.
  - apply (proj1 (word_count_penalty_spec 300 Task2)). simpl. lia.
  - apply (proj1 (proj2 (word_count_penalty_spec 120 Task2))). lia.
Defined.

(** The criterion for [OverflowError] is where rounding leaves the
    double range. *)
Lemma overflow_threshold :
  is_infinity (float_of_int (DBL_OVERFLOW - 1)) = false
  /\ is_infinity (float_of_int DBL_OVERFLOW) = true
  /\ is_infinity (int_truediv (DBL_OVERFLOW * 60 - 1) 60) = false
  /\ is_infinity (int_truediv (DBL_OVERFLOW * 60) 60) = true.
Proof. vm_compute. repeat split. Qed.

Lemma DBL_OVERFLOW_lower : 2 ^ 1000 <= DBL_OVERFLOW.
Proof. apply Z.leb_le. vm_compute. reflexivity. Qed.

Lemma py_int_truediv_in_range env a b :
  b <> 0 -> Z.abs a < DBL_OVERFLOW * Z.abs b ->
  py_int_truediv env a b = Ok (int_truediv a b).
Proof.
  intros Hb Ha. unfold py_int_truediv, truediv_overflows.
  destruct (Z.eqb_spec b 0); [contradiction|].
  destruct (Z.leb_spec (DBL_OVERFLOW * Z.abs b) (Z.abs a)); [lia | reflexivity].
Qed.

Lemma py_int_truediv_overflow env a b :
  b <> 0 -> DBL_OVERFLOW * Z.abs b <= Z.abs a ->
  py_int_truediv env a b = raise_fault env DivisionTooLarge.
Proof.
  intros Hb Ha. unfold py_int_truediv, truediv_overflows.
  destruct (Z.eqb_spec b 0); [contradiction|].
  destruct (Z.leb_spec (DBL_OVERFLOW * Z.abs b) (Z.abs a)); [reflexivity | lia].
Qed.

Lemma py_float_in_range env z :
  Z.abs z < DBL_OVERFLOW -> py_float env z = Ok (float_of_int z).
Proof.
  intros Hz. unfold py_float, int_overflows.
  destruct (Z.leb_spec DBL_OVERFLOW (Z.abs z)); [lia | reflexivity].
Qed.

Lemma small_in_range z : Z.abs z < 1000000 -> Z.abs z < DBL_OVERFLOW.
Proof.
  intros Hz. apply (Z.lt_trans _ 1000000); [exact Hz|].
  apply Z.ltb_lt. vm_compute. reflexivity.
Qed.

(** Up to the limit the penalty is 0, whatever the time. *)
Lemma time_penalty_in_time env task_type t :
  t <= time_limit task_type * 60 ->
  calculate_time_penalty env (Some t) task_type = Ok 0%float.
Proof.
  intros Ht. unfold calculate_time_penalty.
  destruct (t =? 0); [reflexivity|].
  destruct (Z.leb_spec t (time_limit task_type * 60)); [reflexivity | lia].
Qed.

(** Over the limit, with minutes-over in the double range, the penalty
    is the capped product. *)
Lemma time_penalty_over env task_type t :
  time_limit task_type * 60 < t ->
  t - time_limit task_type * 60 < DBL_OVERFLOW * 60 ->
  calculate_time_penalty env (Some t) task_type
  = Ok (py_min (int_truediv (t - time_limit task_type * 60) 60 * 0.1) 1).
Proof.
  intros Hlt Hr. unfold calculate_time_penalty.
  assert (L : 0 < time_limit task_type)
    by (unfold time_limit; destruct (String.eqb _ _); lia).
  destruct (Z.eqb_spec t 0); [lia|].
  destruct (Z.leb_spec t (time_limit task_type * 60)); [lia|].
  rewrite py_int_truediv_in_range by lia. reflexivity.
Qed.

(** Over the limit, with minutes-over beyond the double range, line 42
    raises. *)
Lemma time_penalty_overflow env task_type t :
  DBL_OVERFLOW * 60 <= t - time_limit task_type * 60 ->
  calculate_time_penalty env (Some t) task_type
  = Raise (Exn OverflowError (fault_str env DivisionTooLarge)).
Proof.
  intros Hr. pose proof DBL_OVERFLOW_lower. unfold calculate_time_penalty.
  assert (L : 0 < time_limit task_type)
    by (unfold time_limit; destruct (String.eqb _ _); lia).
  destruct (Z.eqb_spec t 0); [lia|].
  destruct (Z.leb_spec t (time_limit task_type * 60)); [lia|].
  rewrite py_int_truediv_overflow by lia. reflexivity.
Qed.

Lemma time_penalty_returns env time_spent task_type :
  (forall t, time_spent = Some t -> t - time_limit task_type * 60 < DBL_OVERFLOW * 60) ->
  exists p, calculate_time_penalty env time_spent task_type = Ok p.
Proof.
  intros Hr. destruct time_spent as [t|]; [|now eexists].
  specialize (Hr t eq_refl).
  destruct (Z.le_gt_cases t (time_limit task_type * 60)).
  - rewrite time_penalty_in_time by assumption. now eexists.
  - rewrite time_penalty_over by assumption. now eexists.
Qed.

Lemma time_penalty_is_timePenalty env time_spent v :
  (forall t, time_spent = Some t -> t - limit_seconds v < DBL_OVERFLOW * 60) ->
  calculate_time_penalty env time_spent (variant_name v) = Ok (timePenalty time_spent v).
Proof.
  intros Hr. destruct time_spent as [t|]; [|reflexivity].
  specialize (Hr t eq_refl). unfold timePenalty.
  rewrite <- variant_name_time_limit in *.
  destruct (Z.leb_spec t (time_limit (variant_name v) * 60)).
  - now apply time_penalty_in_time.
  - now apply time_penalty_over.
Qed.

Lemma time_penalty_over_checked v :
  forallb (fun t => close_to_b (timePenalty (Some t) v) (timePenaltyOver t v)
                    && (0 <? timePenalty (Some t) v)%float)
          (List.map (fun k => (limit_seconds v + 1) + Z.of_nat k) (seq 0 600)) = true.
Proof. destruct v; vm_compute; reflexivity. Qed.

Lemma limit_seconds_bounds v : 1200 <= limit_seconds v <= 2400.
Proof. destruct v; simpl; lia. Qed.

(** C2.  The claim holds for every time whose minutes-over is within
    the range of a double: the penalty is 0 when the time is absent and
    when it is at most the variant's limit (20 minutes for task1, 40 for
    task2); over the limit it is minutes-over * 0.1 capped at 1.0,
    computed in doubles, so it never exceeds 1.0 and, up to ten minutes
    over, lies within 2^-52 of the exact quotient; for task2 at 3000
    seconds it is exactly 1.0.  Beyond that range the division of line 42
    raises [OverflowError] where the claim has the penalty 1.0: so at
    [10^400] seconds. *)
Theorem time_penalty_overflows (env : Env) (v : TaskVariant) :
  calculate_time_penalty env (Some (10 ^ 400)) (variant_name v)
  = Raise (Exn OverflowError (fault_str env DivisionTooLarge))
  /\ (timePenaltyOver (10 ^ 400) v == 1)%Q
  /\ (forall t, DBL_OVERFLOW * 60 <= t - limit_seconds v ->
        calculate_time_penalty env (Some t) (variant_name v)
        = Raise (Exn OverflowError (fault_str env DivisionTooLarge)))
  /\ (forall timeSpent,
        (forall t, timeSpent = Some t -> t - limit_seconds v < DBL_OVERFLOW * 60) ->
        calculate_time_penalty env timeSpent (variant_name v)
        = Ok (timePenalty timeSpent v)
        /\ (1 <? timePenalty timeSpent v)%float = false)
  /\ calculate_time_penalty env None (variant_name v) = Ok 0%float
  /\ (forall t, t <= limit_seconds v ->
        calculate_time_penalty env (Some t) (variant_name v) = Ok 0%float)
  /\ (forall t, limit_seconds v < t <= limit_seconds v + 600 ->
        exists p, calculate_time_penalty env (Some t) (variant_name v) = Ok p
                  /\ close_to p (timePenaltyOver t v))
  /\ calculate_time_penalty env (Some 3000) (variant_name Task2) = Ok 1%float.
Proof.
  pose proof (limit_seconds_bounds v) as Hv. pose proof DBL_OVERFLOW_lower as Hd.
  assert (Hbig : DBL_OVERFLOW * 60 <= 10 ^ 400 - limit_seconds v).
  { apply Z.leb_le. destruct v; vm_compute; reflexivity. }
  split.
  { apply time_penalty_overflow. now rewrite variant_name_time_limit. }
  split.
  { destruct v; vm_compute; reflexivity. }
  split.
  { intros t Ht. apply time_penalty_overflow. now rewrite variant_name_time_limit. }
  split.
  { intros timeSpent Hr. split; [now apply time_penalty_is_timePenalty|].
    unfold timePenalty. destruct timeSpent as [t|]; [|reflexivity].
    destruct (t <=? limit_seconds v); [reflexivity|].
    apply py_min_capped. reflexivity. }
  split; [reflexivity|].
  split.
  { intros t Ht. apply time_penalty_in_time. rewrite variant_name_time_limit. exact Ht. }
  split; [|reflexivity].
  intros t Ht. exists (timePenalty (Some t) v). split.
  - apply time_penalty_is_timePenalty. intros t0 [= <-]. lia.
  - apply close_to_b_sound.
    pose proof (forallb_range _ (limit_seconds v + 1) 600 (time_penalty_over_checked v) t
                  ltac:(lia)) as H.
    cbv beta in H. now apply andb_true_iff in H as [H _].
Qed.

Lemma time_penalty_overflows_witness :
  calculate_time_penalty (fixed_env (Ok "") (Ok JNull)) (Some 1000) (variant_name Task1)
  = Ok 0%float
  /\ calculate_time_penalty (fixed_env (Ok "") (Ok JNull)) (Some 2700) (variant_name Task2)
     = Ok (timePenalty (Some 2700) Task2)
  /\ calculate_time_penalty (fixed_env (Ok "") (Ok JNull)) (Some (10 ^ 400))
       (variant_name Task1)
     = Raise (Exn OverflowError "fault").
Proof.
  split; [|split].
  - apply (proj1 (proj2 (proj2 (proj2 (proj2 (proj2
             (time_penalty_overflows (fixed_env (Ok "") (Ok JNull)) Task1)))))) 1000).
    simpl. lia.
  - apply (proj1 (proj2 (proj2 (proj2
             (time_penalty_overflows (fixed_env (Ok "") (Ok JNull)) Task2))))
             (Some 2700)).
    intros t [= <-]. apply Z.ltb_lt. vm_compute. reflexivity.
  - apply (proj1 (time_penalty_overflows (fixed_env (Ok "") (Ok JNull)) Task1)).
Defined.

Lemma word_count_penalty_positive_checked :
  forallb (fun wc => (0 <? calculate_word_count_penalty wc "task2")%float)
          (List.map (fun k => 0 + Z.of_nat k) (seq 0 250)) = true.
Proof. vm_compute. reflexivity. Qed.

Lemma other_variant_thresholds task_type :
  task_type <> "task1" -> min_words task_type = 250 /\ time_limit task_type = 40.
Proof.
  intros Hne. unfold min_words, time_limit.
  destruct (String.eqb_spec task_type "task1"); [contradiction | split; reflexivity].
Qed.

(** C10.  Any task-variant string other than exactly "task1" gets the
    task2 thresholds.  With it [calculate_word_count_penalty] returns 0
    from 250 words on and, below, the double nearest to
    (250 - count) / 25 * 0.5 capped at 2.0, which is positive;
    [calculate_time_penalty] returns 0 up to 2400 seconds and, over that,
    what it returns for task2: up to ten minutes over a positive penalty
    within 2^-52 of (seconds - 2400) / 60 * 0.1.  So 200 words cost 1.0
    for "task3" and nothing for "task1", and 1500 seconds cost nothing
    for "task3" and 0.5 for "task1". *)
Theorem other_variants_are_task2 (env : Env) (task_type : string) :
  task_type <> "task1" ->
  (forall word_count, 250 <= word_count ->
     calculate_word_count_penalty word_count task_type = 0%float)
  /\ (forall word_count, 0 <= word_count < 250 ->
        calculate_word_count_penalty word_count task_type
        = nearest_float (wordCountPenalty word_count Task2)
        /\ (0 <? calculate_word_count_penalty word_count task_type)%float = true)
  /\ (forall t, t <= 2400 ->
        calculate_time_penalty env (Some t) task_type = Ok 0%float)
  /\ (forall t, 2400 < t <= 3000 ->
        exists p, calculate_time_penalty env (Some t) task_type = Ok p
                  /\ close_to p (timePenaltyOver t Task2)
                  /\ (0 <? p)%float = true)
  /\ (forall time_spent,
        calculate_time_penalty env time_spent task_type
        = calculate_time_penalty env time_spent "task2")
  /\ calculate_word_count_penalty 200 "task3" = 1%float
  /\ calculate_word_count_penalty 200 "task1" = 0%float
  /\ calculate_time_penalty env (Some 1500) "task3" = Ok 0%float
  /\ calculate_time_penalty env (Some 1500) "task1" = Ok 0.5%float.
Proof.
  intros Hne. destruct (other_variant_thresholds task_type Hne) as [Hw Ht].
  assert (Hwc : forall wc, calculate_word_count_penalty wc task_type
                           = calculate_word_count_penalty wc "task2")
    by (intros wc; unfold calculate_word_count_penalty; rewrite Hw; reflexivity).
  assert (Htp : forall ts, calculate_time_penalty env ts task_type
                           = calculate_time_penalty env ts "task2")
    by (intros ts; unfold calculate_time_penalty; rewrite Ht; reflexivity).
  split.
  { intros wc Hge. apply word_count_penalty_enough. lia. }
  split.
  { intros wc Hwcr. rewrite Hwc. split.
    - apply float_eqb_eq.
      apply (forallb_range _ 0 250 (word_count_penalty_short_checked Task2)). lia.
    - apply (forallb_range _ 0 250 word_count_penalty_positive_checked). lia. }
  split.
  { intros t Hle. apply time_penalty_in_time. lia. }
  split.
  { intros t Hr. exists (timePenalty (Some t) Task2). rewrite Htp.
    pose proof (forallb_range _ (limit_seconds Task2 + 1) 600
                  (time_penalty_over_checked Task2) t ltac:(simpl; lia)) as H.
    cbv beta in H. apply andb_true_iff in H as [Hclose Hpos].
    split; [|split; [now apply close_to_b_sound | exact Hpos]].
    apply (time_penalty_is_timePenalty env (Some t) Task2).
    intros t0 [= <-]. pose proof DBL_OVERFLOW_lower. simpl. lia. }
  split; [exact Htp|].
  repeat split; reflexivity.
Qed.

Lemma other_variants_are_task2_witness :
  calculate_word_count_penalty 300 "task3" = 0%float
  /\ calculate_word_count_penalty 100 "task3"
     = nearest_float (wordCountPenalty 100 Task2)
  /\ calculate_time_penalty (fixed_env (Ok "") (Ok JNull)) (Some 2400) "task3" = Ok 0%float.
Proof.
  pose proof (other_variants_are_task2 (fixed_env (Ok "") (Ok JNull)) "task3"
                ltac:(discriminate)) as (H1 & H2 & H3 & _).
  split; [apply H1; lia|]. split; [apply H2; lia | apply H3; lia].
Defined.

(** ** TextPositionResolver *)

Lemma index_bounds s2 : forall n s1 m,
  String.index n s1 s2 = Some m -> (n <= m <= String.length s2)%nat.
Proof.
  induction s2 as [|c s2 IH]; intros [|n] s1 m; simpl.
  - destruct s1; [intros [= <-]; simpl; lia | discriminate].
  - discriminate.
  - match goal with
    | |- (if ?b then _ else _) = _ -> _ => destruct b
    end; [intros [= <-]; lia|].
    destruct (String.index 0 s1 s2) eqn:E; [|discriminate].
    intros [= <-]. apply IH in E. lia.
  - destruct (String.index n s1 s2) eqn:E; [|discriminate].
    intros [= <-]. apply IH in E. lia.
Qed.

Lemma filter_none {A} (f : A -> bool) (l : list A) :
  (forall x, In x l -> f x = false) -> List.filter f l = [].
Proof.
  induction l as [|a l IH]; simpl; intros H; [reflexivity|].
  rewrite (H a) by now left. apply IH. intros x Hx. apply H. now right.
Qed.

Section Occurrences.

Context (essay original : string).

Lemma occurs_at_true i :
  occurs_at essay original i = true <-> substring i (String.length original) essay = original.
Proof. unfold occurs_at. apply String.eqb_eq. Qed.

(** No occurrence from [n] on when the search from [n] fails. *)
Lemma occurrences_from_None n :
  String.index n original essay = None -> occurrences_from essay original n = [].
Proof.
  intros Hidx. unfold occurrences_from.
  destruct (string_dec original "") as [->|Hne].
  - apply index_correct4 in Hidx.
    replace (S (String.length essay) - n)%nat with 0%nat by lia. reflexivity.
  - apply filter_none. intros p Hp. apply in_seq in Hp.
    destruct (occurs_at essay original p) eqn:E; [|reflexivity].
    apply occurs_at_true in E.
    exfalso. apply (index_correct3 n p original essay Hidx Hne); [lia | exact E].
Qed.

(** The first occurrence from [n] on is where the search from [n] stops. *)
Lemma occurrences_from_Some n m :
  String.index n original essay = Some m ->
  occurrences_from essay original n = m :: occurrences_from essay original (S m).
Proof.
  intros Hidx. pose proof (index_bounds _ _ _ _ Hidx) as Hb.
  unfold occurrences_from.
  replace (S (String.length essay) - n)%nat
    with ((m - n) + (1 + (S (String.length essay) - S m)))%nat by lia.
  rewrite List.seq_app, List.filter_app. replace (n + (m - n))%nat with m by lia.
  rewrite filter_none.
  - rewrite List.seq_app, List.filter_app. simpl.
    replace (occurs_at essay original m) with true.
    + replace (m + 1)%nat with (S m) by lia. reflexivity.
    + symmetry. apply occurs_at_true. apply (index_correct1 _ _ _ _ Hidx).
  - intros p Hp. apply in_seq in Hp.
    destruct (occurs_at essay original p) eqn:E; [|reflexivity].
    apply occurs_at_true in E.
    exfalso. apply (index_correct2 n m original essay Hidx p); [lia | lia | exact E].
Qed.

End Occurrences.

(** The loop of lines 62-71 appends, in order, a span for every offset
    from [start] on at which [original_text] occurs. *)
Lemma find_all_occurrences essay_text original_text start positions :
  0 <= start ->
  find_all essay_text original_text start positions
  = positions ++ List.map (fun i => position (Z.of_nat i) original_text)
                          (occurrences_from essay_text original_text (Z.to_nat start)).
Proof.
  funelim (find_all essay_text original_text start positions); intros Hstart;
    clear Heqcall; unfold str_find in *;
    destruct (String.index (Z.to_nat start) original_text essay_text) as [m|] eqn:E;
    cbn beta iota in *.
  - (* the search failed, yet found [m] *)
    match goal with
    | Hcmp : (_ =? -1) = true |- _ => pose proof (proj1 (Z.eqb_eq _ _) Hcmp); lia
    end.
  - (* the search failed *)
    rewrite occurrences_from_None by exact E. simpl. now rewrite app_nil_r.
  - (* a match at [m] *)
    match goal with
    | IH : 0 <= _ -> find_all _ _ _ _ = _ |- _ => rewrite IH by lia
    end.
    rewrite (occurrences_from_Some _ _ _ _ E). simpl.
    replace (Z.to_nat (Z.of_nat m + 1)) with (S m) by lia.
    now rewrite <- app_assoc.
  - (* a match, yet the search failed *)
    discriminate.
Qed.

Lemma find_all_spans essay_text original_text :
  find_all essay_text original_text 0 [] = spans essay_text original_text.
Proof. rewrite find_all_occurrences by lia. reflexivity. Qed.

Lemma highlight_structure env essay (m : gmap string json) :
  highlight_correction env essay "structure" (JObj m) = Ok (JObj m).
Proof.
  unfold highlight_correction. simpl. now rewrite andb_false_r.
Qed.

Lemma highlight_original env essay category (m : gmap string json) original :
  category <> "structure" -> original <> "" ->
  m !! "original" = Some (JStr original) ->
  highlight_correction env essay category (JObj m)
  = Ok (with_positions m (spans essay original)).
Proof.
  intros Hcat Hne Hm. unfold highlight_correction. rewrite Hm. simpl.
  destruct (String.eqb_spec original "") as [->|_]; [contradiction|].
  destruct (String.eqb_spec category "structure") as [->|_]; [contradiction|].
  simpl. rewrite find_all_spans.
  destruct (spans essay original) as [|sp found]; [reflexivity|].
  reflexivity.
Qed.

Lemma highlight_no_original env essay category (m : gmap string json) :
  m !! "original" = None \/ m !! "original" = Some (JStr "") ->
  highlight_correction env essay category (JObj m) = Ok (JObj m).
Proof.
  intros [Hm|Hm]; unfold highlight_correction; rewrite Hm; reflexivity.
Qed.

(** C3, as stated, fails on an entry whose [original] is the empty
    string: the forward search finds it at offsets 0, 1 and 2 of "ab"
    ([find] returns its start offset for an empty needle), so the entry
    should gain three spans, but line 58 sends it through unchanged. *)
Lemma resolver_as_stated_fails_on_empty_original :
  ~ resolver_as_stated (fixed_env (Ok "") (Ok JNull)) "ab" "grammar"
      {["original" := JStr ""]} "".
Proof.
  unfold resolver_as_stated. intros H.
  specialize (H (or_introl eq_refl) eq_refl).
  vm_compute in H. discriminate H.
Qed.

(** C3 (amended).  For every essay and every grammar or vocabulary
    entry whose [original] is a non-empty string, the repeated forward
    search (resuming one character after each match start) finds exactly
    the offsets at which [original] occurs, in increasing order; with at
    least one occurrence the entry is replaced by a copy carrying
    [positions], the spans (start, start + length, text) in that order,
    with none it is passed through unchanged.  An entry whose [original]
    is missing or empty is passed through unchanged, and so is every
    structure entry.  On "the cat sat on the mat" with original "the" the
    spans are (0,3) and (15,18). *)
Theorem resolver_spec (env : Env) (essay category : string) (m : gmap string json) :
  (forall original,
      category = "grammar" \/ category = "vocabulary" ->
      original <> "" ->
      m !! "original" = Some (JStr original) ->
      find_all essay original 0 [] = spans essay original
      /\ highlight_correction env essay category (JObj m)
         = Ok (with_positions m (spans essay original)))
  /\ (m !! "original" = None \/ m !! "original" = Some (JStr "") ->
      highlight_correction env essay category (JObj m) = Ok (JObj m))
  /\ highlight_correction env essay "structure" (JObj m) = Ok (JObj m)
  /\ find_text_positions env "the cat sat on the mat"
       (obj [("grammar", JArr [obj [("original", JStr "the")]]);
             ("structure", JArr [obj [("original", JStr "the")]])])
     = Ok (obj [("grammar",
                 JArr [obj [("original", JStr "the");
                            ("positions",
                             JArr [obj [("start", JInt 0); ("end", JInt 3);
                                        ("text", JStr "the")];
                                   obj [("start", JInt 15); ("end", JInt 18);
                                        ("text", JStr "the")]])]]);
                ("vocabulary", JArr []);
                ("structure", JArr [obj [("original", JStr "the")]])]).
Proof.
  split; [|split; [|split]].
  - intros original Hcat Hne Hm. split; [apply find_all_spans|].
    apply highlight_original; [destruct Hcat; subst; discriminate | exact Hne | exact Hm].
  - apply highlight_no_original.
  - apply highlight_structure.
  - vm_compute. reflexivity.
Qed.

Lemma resolver_spec_witness :
  highlight_correction sample_env "the cat sat on the mat" "grammar"
    (obj [("original", JStr "the")])
  = Ok (with_positions {["original" := JStr "the"]}
                       [position 0 "the"; position 15 "the"])
  /\ highlight_correction sample_env "the cat sat on the mat" "vocabulary"
       (obj [("original", JStr "")])
     = Ok (obj [("original", JStr "")]).
Proof.
  split.
  - exact (proj2 (proj1 (resolver_spec sample_env "the cat sat on the mat" "grammar"
                           {["original" := JStr "the"]})
                    "the" (or_introl eq_refl) ltac:(discriminate) eq_refl)).
  - exact (proj1 (proj2 (resolver_spec sample_env "the cat sat on the mat" "vocabulary"
                           {["original" := JStr ""]}))
                 (or_intror eq_refl)).
Defined.

(** ** ScoringPipeline: the paths through [score_essay] *)

Lemma rollback_deducted user_id c s :
  session_rollback (deducted user_id c s) = deducted user_id c s.
Proof. reflexivity. Qed.

Lemma score_essay_missing env user_id data s :
  data = None \/
  (exists d, data = Some d /\ (sub_essay_text d = None \/ sub_task_type d = None)) ->
  score_essay env user_id data s
  = (Raise (Exn ValueError "Missing required fields"), session_rollback s).
Proof.
  intros [->|(d & -> & Hd)]; [reflexivity|].
  destruct d as [[e|] [t|] ts]; simpl in Hd; destruct Hd as [Hd|Hd];
    try discriminate; reflexivity.
Qed.

Lemma score_essay_no_ledger env user_id essay task ts s :
  user_credits (working s) !! user_id = None ->
  score_essay env user_id (submission essay task ts) s
  = (Raise (Exn ValueError "User credits not found"), session_rollback s).
Proof.
  intros Hc. unfold score_essay, score_essay_body, submission, mbind, M_bind,
    check_and_deduct_credits.
  rewrite Hc. reflexivity.
Qed.

Lemma score_essay_insufficient env user_id essay task ts s c :
  user_credits (working s) !! user_id = Some c ->
  c < CREDITS_PER_ANALYSIS ->
  score_essay env user_id (submission essay task ts) s
  = (Raise (Exn ValueError "Insufficient credits"), session_rollback s).
Proof.
  intros Hc Hlt. unfold score_essay, score_essay_body, submission, mbind, M_bind,
    check_and_deduct_credits.
  rewrite Hc. destruct (Z.ltb_spec c CREDITS_PER_ANALYSIS); [reflexivity | lia].
Qed.

(** Every failure of the analyzer is a plain [Exception] whose message
    is that of the underlying error behind a fixed prefix. *)
Lemma analyze_essay_Raise env essay task e :
  analyze_essay env essay task = Raise e ->
  exists msg, e = Exn PlainException ("Failed to analyze essay: " ++ msg).
Proof.
  unfold analyze_essay, try_except, outer_handler.
  destruct (mbind _ _) as [r|e0]; [discriminate|].
  intros [= <-]. now exists (exn_str e0).
Qed.

(** Steps through the [try] body of [score_essay] after the credits
    were taken: each step either raises, or goes on. *)
Ltac step_body :=
  match goal with
  | |- context [match ?r with Ok _ => _ | Raise _ => _ end] =>
      let E := fresh "E" in destruct r eqn:E; simpl
  end.

Lemma score_essay_fails_after_deduction env user_id essay task ts s c e' s' :
  user_credits (working s) !! user_id = Some c ->
  CREDITS_PER_ANALYSIS <= c ->
  score_essay env user_id (submission essay task ts) s = (Raise e', s') ->
  s' = deducted user_id c s.
Proof.
  intros Hc Hle. unfold score_essay, score_essay_body, submission, mbind, M_bind,
    check_and_deduct_credits, lift, save_and_combine.
  rewrite Hc. destruct (Z.ltb_spec c CREDITS_PER_ANALYSIS); [lia|].
  fold (deducted user_id c s). simpl.
  repeat step_body;
    try (destruct (is_ValueError _); intros [= _ <-]; reflexivity).
  discriminate.
Qed.

Lemma score_essay_analyzer_failure env user_id essay task ts s c ex :
  user_credits (working s) !! user_id = Some c ->
  CREDITS_PER_ANALYSIS <= c ->
  analyze_essay env essay task = Raise ex ->
  score_essay env user_id (submission essay task ts) s
  = (Raise (Exn PlainException ("Failed to score essay: " ++ exn_str ex)),
     deducted user_id c s).
Proof.
  intros Hc Hle Han. destruct (analyze_essay_Raise _ _ _ _ Han) as [msg ->].
  unfold score_essay, score_essay_body, submission, mbind, M_bind,
    check_and_deduct_credits, lift.
  rewrite Hc. destruct (Z.ltb_spec c CREDITS_PER_ANALYSIS); [lia|].
  rewrite Han. reflexivity.
Qed.

(** What a successful run has computed, read off the row it returns. *)
Lemma score_essay_Ok env user_id data s w s' :
  score_essay env user_id data s = (Ok w, s') ->
  data = submission (ws_essay_text w) (ws_task_type w) (ws_time_spent w)
  /\ (exists analysis scores,
        analyze_essay env (ws_essay_text w) (ws_task_type w) = Ok analysis
        /\ py_getitem env analysis "scores" = Ok scores
        /\ py_getitem env scores "task_achievement" = Ok (ws_task_achievement w)
        /\ py_getitem env scores "coherence_cohesion" = Ok (ws_coherence_cohesion w)
        /\ py_getitem env scores "lexical_resource" = Ok (ws_lexical_resource w)
        /\ py_getitem env scores "grammatical_range" = Ok (ws_grammatical_range w))
  /\ calculate_overall_score env
       [ws_task_achievement w; ws_coherence_cohesion w;
        ws_lexical_resource w; ws_grammatical_range w] = Ok (ws_overall_score w)
  /\ ws_word_count w = count_words (ws_essay_text w)
  /\ ws_word_count_penalty w
     = calculate_word_count_penalty (ws_word_count w) (ws_task_type w)
  /\ calculate_time_penalty env (ws_time_spent w) (ws_task_type w)
     = Ok (ws_time_penalty w)
  /\ ws_adjusted_score w
     = py_max 0 (ws_overall_score w - ws_word_count_penalty w - ws_time_penalty w)%float.
Proof.
  unfold score_essay.
  destruct (score_essay_body env user_id data s) as [[w0|e] s0] eqn:Hbody;
    [|destruct (is_ValueError e); discriminate].
  intros [= -> ->]. revert Hbody.
  destruct data as [[[essay|] [task|] ts]|]; try discriminate.
  unfold score_essay_body, mbind, M_bind, check_and_deduct_credits, lift,
    save_and_combine.
  destruct (user_credits (working s) !! user_id) as [c|]; [|discriminate].
  destruct (c <? CREDITS_PER_ANALYSIS); [discriminate|].
  simpl.
  repeat step_body; try discriminate.
  intros [= <- _]. simpl.
  split; [reflexivity|]. split; [eauto 10|]. repeat split; assumption || reflexivity.
Qed.

Lemma deducted_balance user_id c s :
  user_credits (committed (deducted user_id c s)) !! user_id
  = Some (c - CREDITS_PER_ANALYSIS).
Proof. simpl. apply lookup_insert_eq. Qed.

Lemma deducted_writing_scores user_id c s :
  writing_scores (committed (deducted user_id c s)) = writing_scores (working s).
Proof. reflexivity. Qed.

(** The aggregator touches neither the ledger nor the essays. *)
Lemma combined_score_keeps user_id new_score s :
  committed s = working s ->
  let s' := calculate_combined_score user_id new_score s in
  committed s' = working s'
  /\ user_credits (working s') = user_credits (working s)
  /\ writing_scores (working s') = writing_scores (working s).
Proof.
  intros Hclean. unfold calculate_combined_score.
  destruct (latest_score s user_id "task1"); [|easy].
  destruct (latest_score s user_id "task2"); [|easy].
  destruct (existing_combined _ _ _ _); easy.
Qed.

(** With both fields present and a sufficient balance, the cost is taken
    and stays taken, however the run ends. *)
Lemma score_essay_charges env user_id essay task ts s c :
  user_credits (working s) !! user_id = Some c ->
  CREDITS_PER_ANALYSIS <= c ->
  user_credits (committed (score_essay env user_id (submission essay task ts) s).2)
    !! user_id = Some (c - CREDITS_PER_ANALYSIS).
Proof.
  intros Hc Hle.
  destruct (score_essay env user_id (submission essay task ts) s) as [[w|e'] s'] eqn:Hrun.
  - revert Hrun.
    unfold score_essay, score_essay_body, submission, mbind, M_bind,
      check_and_deduct_credits, lift, save_and_combine.
    rewrite Hc. destruct (Z.ltb_spec c CREDITS_PER_ANALYSIS); [lia|].
    fold (deducted user_id c s). simpl.
    repeat step_body; try (destruct (is_ValueError _); discriminate).
    intros [= _ <-].
    match goal with
    | |- context [calculate_combined_score ?u ?n ?s0] =>
        destruct (combined_score_keeps u n s0 eq_refl) as (Hcl & Hcr & _)
    end.
    simpl. rewrite Hcl, Hcr. simpl. apply lookup_insert_eq.
  - rewrite (score_essay_fails_after_deduction _ _ _ _ _ _ _ _ _ Hc Hle Hrun).
    apply deducted_balance.
Qed.

(** ** Overall score on the assessment scale *)

Lemma forallb_range2 (check : Z -> Z -> bool) (n m : nat) :
  forallb (fun K => forallb (check K) (List.map (fun k => 0 + Z.of_nat k) (seq 0 m)))
          (List.map (fun k => 0 + Z.of_nat k) (seq 0 n)) = true ->
  forall K k, 0 <= K < Z.of_nat n -> 0 <= k < Z.of_nat m -> check K k = true.
Proof.
  intros Hall K k HK Hk.
  apply (forallb_range (check K) 0 m); [|lia].
  apply (forallb_range _ 0 n Hall). lia.
Qed.

Lemma halves_add_checked :
  forallb (fun K => forallb (fun k =>
      Leibniz.eqb (int_truediv K 2 + int_truediv k 2)%float (int_truediv (K + k) 2))
    (List.map (fun k => 0 + Z.of_nat k) (seq 0 19)))
    (List.map (fun k => 0 + Z.of_nat k) (seq 0 55)) = true.
Proof. vm_compute. reflexivity. Qed.

Lemma halves_add K k :
  0 <= K <= 54 -> 0 <= k <= 18 ->
  (int_truediv K 2 + int_truediv k 2)%float = int_truediv (K + k) 2.
Proof.
  intros HK Hk. apply float_eqb_eq.
  apply (forallb_range2 _ 55 19 halves_add_checked); lia.
Qed.

Lemma whole_float_checked :
  forallb (fun K => implb (Z.even K)
                          (Leibniz.eqb (float_of_int (K / 2)) (int_truediv K 2)))
          (List.map (fun k => 0 + Z.of_nat k) (seq 0 73)) = true.
Proof. vm_compute. reflexivity. Qed.

Lemma whole_float K :
  0 <= K <= 72 -> Z.even K = true -> float_of_int (K / 2) = int_truediv K 2.
Proof.
  intros HK Hev. apply float_eqb_eq.
  pose proof (forallb_range _ 0 73 whole_float_checked K ltac:(lia)) as H.
  cbv beta in H. rewrite Hev in H. exact H.
Qed.

Lemma even_add_div2 K k :
  Z.even K = true -> Z.even k = true ->
  Z.even (K + k) = true /\ (K + k) / 2 = K / 2 + k / 2.
Proof.
  intros HK Hk. apply Z.even_spec in HK as [a ->]. apply Z.even_spec in Hk as [b ->].
  split.
  - apply Z.even_spec. exists (a + b). lia.
  - replace (2 * a + 2 * b) with ((a + b) * 2) by lia.
    rewrite Z.div_mul by lia.
    rewrite !(Z.mul_comm 2), !Z.div_mul by lia. reflexivity.
Qed.

(** Half of a small number is small. *)
Ltac half_in_range :=
  apply small_in_range;
  match goal with
  | |- Z.abs (?k / 2) < _ =>
      pose proof (Z.div_pos k 2 ltac:(lia) ltac:(lia));
      pose proof (Z.div_le_upper_bound k 2 k ltac:(lia) ltac:(lia));
      lia
  end.

(** One round of [sum]: adding a sub-score keeps the total exact. *)
Lemma py_add_halves env a K v k :
  0 <= K <= 54 -> halves a K -> on_scale v k ->
  exists a', py_add env a v = Ok a' /\ halves a' (K + k).
Proof.
  intros HK Ha [Hk Hv]. unfold py_add.
  destruct Ha as [->|[HevK ->]]; destruct Hv as [->|[Hevk ->]]; simpl.
  - eexists; split; [reflexivity|]. left. now rewrite halves_add.
  - rewrite py_float_in_range by half_in_range.
    eexists; split; [reflexivity|]. left.
    rewrite whole_float by (lia || assumption). now rewrite halves_add.
  - rewrite py_float_in_range by half_in_range.
    eexists; split; [reflexivity|]. left.
    rewrite whole_float by (lia || assumption). now rewrite halves_add.
  - eexists; split; [reflexivity|]. right.
    destruct (even_add_div2 K k HevK Hevk) as [Hev Hdiv]. now rewrite Hdiv.
Qed.

Lemma mean_checked :
  forallb (fun K =>
      Leibniz.eqb (int_truediv K 2 / float_of_int 4)%float (int_truediv K 8)
      && implb (Z.even K) (Leibniz.eqb (int_truediv (K / 2) 4) (int_truediv K 8))
      && Leibniz.eqb (py_round (int_truediv K 8) 1)
                     (nearest_float (round_1_decimal (Qmake K 8))))
    (List.map (fun k => 0 + Z.of_nat k) (seq 0 73)) = true.
Proof. vm_compute. reflexivity. Qed.

Lemma mean_of_halves env a K :
  0 <= K <= 72 -> halves a K ->
  (mean ← py_truediv env a 4; Ok (py_round mean 1))
  = Ok (nearest_float (round_1_decimal (Qmake K 8))).
Proof.
  intros HK Ha.
  pose proof (forallb_range _ 0 73 mean_checked K ltac:(lia)) as H.
  cbv beta in H. apply andb_true_iff in H as [H H3]. apply andb_true_iff in H as [H1 H2].
  apply float_eqb_eq in H1, H3.
  destruct Ha as [->|[Hev ->]]; unfold py_truediv.
  - rewrite py_float_in_range by (apply small_in_range; lia). simpl.
    rewrite H1, H3. reflexivity.
  - rewrite py_int_truediv_in_range
      by first [discriminate
               | apply (Z.lt_le_trans _ (DBL_OVERFLOW * 1));
                 [rewrite Z.mul_1_r; half_in_range
                 |pose proof DBL_OVERFLOW_lower; lia]].
    simpl. rewrite Hev in H2. apply float_eqb_eq in H2. rewrite H2, H3. reflexivity.
Qed.

Lemma overall_score_on_scale env v1 v2 v3 v4 k1 k2 k3 k4 :
  on_scale v1 k1 -> on_scale v2 k2 -> on_scale v3 k3 -> on_scale v4 k4 ->
  calculate_overall_score env [v1; v2; v3; v4]
  = Ok (nearest_float (overallScore k1 k2 k3 k4)).
Proof.
  intros H1 H2 H3 H4.
  pose proof (proj1 H1) as B1. pose proof (proj1 H2) as B2.
  pose proof (proj1 H3) as B3. pose proof (proj1 H4) as B4.
  unfold calculate_overall_score, py_sum. simpl py_sum_from.
  assert (Hzero : halves (NInt 0) 0) by (right; split; reflexivity).
  destruct (py_add_halves env _ 0 v1 k1 ltac:(lia) Hzero H1) as (a1 & -> & Ha1). simpl.
  destruct (py_add_halves env _ (0 + k1) v2 k2 ltac:(lia) Ha1 H2) as (a2 & -> & Ha2). simpl.
  destruct (py_add_halves env _ (0 + k1 + k2) v3 k3 ltac:(lia) Ha2 H3) as (a3 & -> & Ha3). simpl.
  destruct (py_add_halves env _ (0 + k1 + k2 + k3) v4 k4 ltac:(lia) Ha3 H4) as (a4 & -> & Ha4). simpl.
  replace (0 + k1 + k2 + k3 + k4) with (k1 + k2 + k3 + k4) in Ha4 by lia.
  apply (mean_of_halves env a4 (k1 + k2 + k3 + k4) ltac:(lia) Ha4).
Qed.

(** ** ScoringPipeline: the claims *)





(** C7.  With both fields present, [score_essay] checks the balance and
    takes one credit before it calls the analyzer: without a ledger entry
    it fails with "User credits not found" (CreditsNotFoundError), with a
    balance below the cost with "Insufficient credits"
    (InsufficientCreditsError), in both cases whatever the analyzer would
    answer and with nothing taken.  Otherwise the cost is taken and
    committed at once: if any later step fails, the session left behind
    is the one committed after the deduction, with the balance one lower
    and no essay row added; a failing analyzer call is such a step. *)
Theorem credits_taken_before_analysis (env : Env) (user_id : Z)
    (essay_text task_type : string) (time_spent : option Z) (s : Session) :
  CREDITS_PER_ANALYSIS = 1
  /\ (user_credits (working s) !! user_id = None ->
      forall env',
        score_essay env' user_id (submission essay_text task_type time_spent) s
        = (Raise (Exn ValueError "User credits not found"), session_rollback s))
  /\ (forall c,
        user_credits (working s) !! user_id = Some c -> c < CREDITS_PER_ANALYSIS ->
        forall env',
          score_essay env' user_id (submission essay_text task_type time_spent) s
          = (Raise (Exn ValueError "Insufficient credits"), session_rollback s))
  /\ (forall c e' s',
        user_credits (working s) !! user_id = Some c -> CREDITS_PER_ANALYSIS <= c ->
        score_essay env user_id (submission essay_text task_type time_spent) s
        = (Raise e', s') ->
        s' = deducted user_id c s
        /\ user_credits (committed s') !! user_id = Some (c - 1)
        /\ writing_scores (committed s') = writing_scores (working s)
        /\ (committed s = working s ->
            writing_scores (committed s') = writing_scores (committed s)))
  /\ (forall c e,
        user_credits (working s) !! user_id = Some c -> CREDITS_PER_ANALYSIS <= c ->
        analyze_essay env essay_text task_type = Raise e ->
        exists e',
          score_essay env user_id (submission essay_text task_type time_spent) s
          = (Raise e', deducted user_id c s)).
Proof.
  split; [reflexivity|]. split; [|split; [|split]].
  - intros Hc env'. now apply score_essay_no_ledger.
  - intros c Hc Hlt env'. now apply score_essay_insufficient with (c := c).
  - intros c e' s' Hc Hle Hrun.
    rewrite (score_essay_fails_after_deduction _ _ _ _ _ _ _ _ _ Hc Hle Hrun).
    split; [reflexivity|]. split; [apply deducted_balance|].
    split; [apply deducted_writing_scores|].
    intros ->. apply deducted_writing_scores.
  - intros c e Hc Hle Han. eexists.
    apply (score_essay_analyzer_failure _ _ _ _ _ _ _ _ Hc Hle Han).
Qed.

Lemma credits_taken_before_analysis_witness :
  score_essay sample_env 1 sample_submission (session_with_credits ∅)
  = (Raise (Exn ValueError "User credits not found"),
     session_rollback (session_with_credits ∅))
  /\ score_essay sample_env 1 sample_submission (session_with_credits {[ 1 := 0 ]})
     = (Raise (Exn ValueError "Insufficient credits"),
        session_rollback (session_with_credits {[ 1 := 0 ]}))
  /\ (exists e',
        score_essay failing_env 1 sample_submission sample_session
        = (Raise e', deducted 1 2 sample_session))
  /\ user_credits (committed (deducted 1 2 sample_session)) !! 1 = Some 1
  /\ writing_scores (committed (deducted 1 2 sample_session)) = [].
Proof.
  split; [|split; [|split]].
  - apply (credits_taken_before_analysis sample_env 1 "the cat sat on the mat" "task1"
             (Some 1300) (session_with_credits ∅)).
    reflexivity.
  - apply (credits_taken_before_analysis sample_env 1 "the cat sat on the mat" "task1"
             (Some 1300) (session_with_credits {[ 1 := 0 ]})) with (c := 0);
      [reflexivity | reflexivity].
  - apply (credits_taken_before_analysis failing_env 1 "the cat sat on the mat" "task1"
             (Some 1300) sample_session)
      with (c := 2) (e := Exn PlainException "Failed to analyze essay: Connection error.");
      [reflexivity | discriminate | reflexivity].
  - split; reflexivity.
Defined.

(** C8, as stated, fails on a submission whose essay text is empty and
    whose task variant is "task3": both keys are present, so line 219
    lets it through, a credit is taken, the analyzer is called and a row
    is returned. *)
Lemma invalid_input_as_stated_fails :
  ~ invalid_input_as_stated sample_env 1 (submission "" "task3" None) sample_session.
Proof.
  unfold invalid_input_as_stated. intros H.
  assert (Hlacks : lacks_valid_input (submission "" "task3" None)) by (left; reflexivity).
  specialize (H Hlacks). vm_compute in H. discriminate H.
Qed.

(** C8 (amended).  [score_essay] fails with the error "Missing required
    fields" (InvalidInputError) whenever the submission is absent or
    lacks the essay-text field or the task-variant field, with no credit
    taken and whatever the analyzer would answer.  A submission that has
    both fields is not rejected for what they hold: whatever the essay
    text and the task variant are, a user with a sufficient balance is
    charged. *)
Theorem missing_fields_rejected (env : Env) (user_id : Z) (s : Session) :
  (forall data,
      data = None \/
      (exists d, data = Some d /\ (sub_essay_text d = None \/ sub_task_type d = None)) ->
      forall env',
        score_essay env' user_id data s
        = (Raise (Exn ValueError "Missing required fields"), session_rollback s)
        /\ committed (session_rollback s) = committed s)
  /\ (forall essay_text task_type time_spent c,
        user_credits (working s) !! user_id = Some c -> CREDITS_PER_ANALYSIS <= c ->
        user_credits
          (committed (score_essay env user_id
                        (submission essay_text task_type time_spent) s).2) !! user_id
        = Some (c - CREDITS_PER_ANALYSIS)).
Proof.
  split.
  - intros data Hdata env'. split; [now apply score_essay_missing | reflexivity].
  - intros essay_text task_type time_spent c Hc Hle. now apply score_essay_charges.
Qed.

Lemma missing_fields_rejected_witness :
  score_essay sample_env 1
    (Some {| sub_essay_text := Some "the cat sat on the mat";
             sub_task_type := None;
             sub_time_spent := None |}) sample_session
  = (Raise (Exn ValueError "Missing required fields"), session_rollback sample_session)
  /\ user_credits
       (committed (score_essay sample_env 1 (submission "" "task3" None) sample_session).2)
       !! 1 = Some 1.
Proof.
  split.
  - apply (proj1 (missing_fields_rejected sample_env 1 sample_session)).
    right. eexists. split; [reflexivity|]. right. reflexivity.
  - apply (proj2 (missing_fields_rejected sample_env 1 sample_session) "" "task3" None 2);
      [reflexivity | discriminate].
Defined.

(** ** EssayAnalyzer: how failures leave it *)

Lemma bind_Ok {A B} (a : A) (f : A -> result B) : mbind f (Ok a) = f a.
Proof. reflexivity. Qed.

Section Analyzer.

Context (env : Env) (essay task : string).

Lemma all_in_obj keys (m : gmap string json) :
  all_in env keys (JObj m) = Ok (has_all m keys).
Proof.
  induction keys as [|key keys IH]; [reflexivity|].
  simpl. destruct (bool_decide (is_Some (m !! key))); [exact IH | reflexivity].
Qed.

Lemma analyze_service_failure e0 :
  chat_completion env task essay = Raise e0 ->
  analyze_essay env essay task
  = Raise (Exn PlainException ("Failed to analyze essay: " ++ exn_str e0)).
Proof. intros H. unfold analyze_essay. rewrite H. reflexivity. Qed.

Lemma analyze_unparseable content e1 :
  chat_completion env task essay = Ok content ->
  json_loads env content = Raise e1 ->
  is_JSONDecodeError e1 = true ->
  analyze_essay env essay task
  = Raise (Exn PlainException
             "Failed to analyze essay: Failed to parse GPT response as JSON").
Proof.
  intros Hc Hj He. unfold analyze_essay, parse_and_validate. rewrite Hc, bind_Ok, Hj.
  simpl. unfold inner_handler. rewrite He. reflexivity.
Qed.

Lemma analyze_missing_required content (r : gmap string json) :
  chat_completion env task essay = Ok content ->
  json_loads env content = Ok (JObj r) ->
  has_all r required_keys = false ->
  analyze_essay env essay task
  = Raise (Exn PlainException
             ("Failed to analyze essay: "
              ++ "Invalid response format: Invalid response format: "
              ++ "missing required keys")).
Proof.
  intros Hc Hj Hm. unfold analyze_essay, parse_and_validate. rewrite Hc, bind_Ok, Hj, bind_Ok.
  rewrite all_in_obj, Hm, bind_Ok. reflexivity.
Qed.

Lemma analyze_missing_score_keys content (r sc : gmap string json) :
  chat_completion env task essay = Ok content ->
  json_loads env content = Ok (JObj r) ->
  has_all r required_keys = true ->
  r !! "scores" = Some (JObj sc) ->
  has_all sc score_keys = false ->
  analyze_essay env essay task
  = Raise (Exn PlainException
             ("Failed to analyze essay: "
              ++ "Invalid response format: Invalid response format: "
              ++ "missing score keys")).
Proof.
  intros Hc Hj Hr Hs Hm. unfold analyze_essay, parse_and_validate. rewrite Hc, bind_Ok, Hj, bind_Ok.
  rewrite all_in_obj, Hr, bind_Ok. cbn [negb py_getitem]. rewrite Hs, bind_Ok.
  rewrite all_in_obj, Hm, bind_Ok. reflexivity.
Qed.

Lemma analyze_missing_feedback_keys content (r sc fb : gmap string json) :
  chat_completion env task essay = Ok content ->
  json_loads env content = Ok (JObj r) ->
  has_all r required_keys = true ->
  r !! "scores" = Some (JObj sc) ->
  has_all sc score_keys = true ->
  r !! "feedback" = Some (JObj fb) ->
  has_all fb score_keys = false ->
  analyze_essay env essay task
  = Raise (Exn PlainException
             ("Failed to analyze essay: "
              ++ "Invalid response format: Invalid response format: "
              ++ "missing feedback keys")).
Proof.
  intros Hc Hj Hr Hs Hsk Hf Hm. unfold analyze_essay, parse_and_validate. rewrite Hc, bind_Ok, Hj, bind_Ok.
  rewrite all_in_obj, Hr, bind_Ok. cbn [negb py_getitem]. rewrite Hs, bind_Ok.
  rewrite all_in_obj, Hsk, bind_Ok. cbn [negb py_getitem]. rewrite Hf, bind_Ok.
  rewrite all_in_obj, Hm, bind_Ok. reflexivity.
Qed.

End Analyzer.

(** C9, as stated, fails when the service is unreachable: the analyzer
    raises "Failed to analyze essay: Connection error.", and
    [score_essay], not a [ValueError] in hand, raises a new exception
    "Failed to score essay: Failed to analyze essay: Connection error."
    in its place (lines 287-289). *)
Lemma analyzer_failure_as_stated_fails :
  ~ analyzer_failure_as_stated failing_env 1 "the cat sat on the mat" "task1"
      (Some 1300) sample_session.
Proof.
  unfold analyzer_failure_as_stated. intros H.
  specialize (H (Exn PlainException "Failed to analyze essay: Connection error.") eq_refl).
  vm_compute in H. discriminate H.
Qed.

(** C9 (amended).  Every failure leaves the analyzer as a plain
    exception whose message is "Failed to analyze essay: " followed by
    the message of the underlying error: the error of the service on a
    transport or service failure, "Failed to parse GPT response as JSON"
    on an unparseable answer, and on an answer lacking a required key, a
    score key or a feedback key a message that ends with the check that
    failed.  The scoring pipeline does not pass it on unchanged: it
    raises a plain exception whose message is "Failed to score essay: "
    followed by the analyzer's message, the credit staying taken. *)
Theorem analyzer_failures_wrapped (env : Env) (user_id : Z)
    (essay_text task_type : string) (time_spent : option Z) (s : Session) :
  (forall e, analyze_essay env essay_text task_type = Raise e ->
             exists msg, e = Exn PlainException ("Failed to analyze essay: " ++ msg))
  /\ (forall e0,
        chat_completion env task_type essay_text = Raise e0 ->
        analyze_essay env essay_text task_type
        = Raise (Exn PlainException ("Failed to analyze essay: " ++ exn_str e0)))
  /\ (forall content e1,
        chat_completion env task_type essay_text = Ok content ->
        json_loads env content = Raise e1 -> is_JSONDecodeError e1 = true ->
        analyze_essay env essay_text task_type
        = Raise (Exn PlainException
                   "Failed to analyze essay: Failed to parse GPT response as JSON"))
  /\ (forall content (r : gmap string json),
        chat_completion env task_type essay_text = Ok content ->
        json_loads env content = Ok (JObj r) ->
        (has_all r required_keys = false ->
         exists p, analyze_essay env essay_text task_type
                   = Raise (Exn PlainException
                              ("Failed to analyze essay: " ++ p ++ "missing required keys")))
        /\ (forall sc : gmap string json,
              has_all r required_keys = true -> r !! "scores" = Some (JObj sc) ->
              (has_all sc score_keys = false ->
               exists p, analyze_essay env essay_text task_type
                         = Raise (Exn PlainException
                                    ("Failed to analyze essay: " ++ p ++ "missing score keys")))
              /\ (forall fb : gmap string json,
                    has_all sc score_keys = true -> r !! "feedback" = Some (JObj fb) ->
                    has_all fb score_keys = false ->
                    exists p, analyze_essay env essay_text task_type
                              = Raise (Exn PlainException
                                         ("Failed to analyze essay: " ++ p
                                          ++ "missing feedback keys")))))
  /\ (forall c e,
        user_credits (working s) !! user_id = Some c -> CREDITS_PER_ANALYSIS <= c ->
        analyze_essay env essay_text task_type = Raise e ->
        score_essay env user_id (submission essay_text task_type time_spent) s
        = (Raise (Exn PlainException ("Failed to score essay: " ++ exn_str e)),
           deducted user_id c s)).
Proof.
  split; [apply analyze_essay_Raise|].
  split; [apply analyze_service_failure|].
  split; [apply analyze_unparseable|].
  split.
  - intros content r Hc Hj. split.
    + intros Hm. exists "Invalid response format: Invalid response format: ".
      now apply analyze_missing_required with (content := content) (r := r).
    + intros sc Hr Hs. split.
      * intros Hm. exists "Invalid response format: Invalid response format: ".
        now apply analyze_missing_score_keys with (content := content) (r := r) (sc := sc).
      * intros fb Hsk Hf Hm. exists "Invalid response format: Invalid response format: ".
        now apply analyze_missing_feedback_keys
          with (content := content) (r := r) (sc := sc) (fb := fb).
  - intros c e Hc Hle Han. now apply score_essay_analyzer_failure.
Qed.

Lemma analyzer_failures_wrapped_witness :
  analyze_essay failing_env "the cat sat on the mat" "task1"
  = Raise (Exn PlainException "Failed to analyze essay: Connection error.")
  /\ (exists p,
        analyze_essay (fixed_env (Ok "{}") (Ok (obj []))) "the cat sat on the mat" "task1"
        = Raise (Exn PlainException
                   ("Failed to analyze essay: " ++ p ++ "missing required keys")))
  /\ score_essay failing_env 1 sample_submission sample_session
     = (Raise (Exn PlainException
                 "Failed to score essay: Failed to analyze essay: Connection error."),
        deducted 1 2 sample_session).
Proof.
  split; [|split].
  - apply (proj1 (proj2 (analyzer_failures_wrapped failing_env 1 "the cat sat on the mat"
                           "task1" (Some 1300) sample_session))
             (Exn (OtherError "APIConnectionError") "Connection error.")).
    reflexivity.
  - apply (proj1 (proj2 (proj2 (proj2
             (analyzer_failures_wrapped (fixed_env (Ok "{}") (Ok (obj [])))
                1 "the cat sat on the mat" "task1" (Some 1300) sample_session))))
             "{}" ∅ eq_refl eq_refl).
    reflexivity.
  - apply (proj2 (proj2 (proj2 (proj2
             (analyzer_failures_wrapped failing_env 1 "the cat sat on the mat" "task1"
                (Some 1300) sample_session))))
             2 (Exn PlainException "Failed to analyze essay: Connection error."));
      [reflexivity | discriminate | reflexivity].
Defined.

(** ** CombinedScoreAggregator *)

Lemma filter_scores_In rows user_id task_type r :
  In r (filter_scores rows user_id task_type)
  <-> In r rows /\ scored_for user_id task_type r.
Proof.
  unfold filter_scores, scored_for. rewrite List.filter_In, andb_true_iff.
  rewrite Z.eqb_eq, String.eqb_eq. reflexivity.
Qed.

Lemma first_by_created_at_desc_Some rows t :
  first_by_created_at_desc rows = Some t ->
  In t rows /\ forall r, In r rows -> ws_created_at r <= ws_created_at t.
Proof.
  revert t. induction rows as [|r0 rows IH]; intros t; simpl; [discriminate|].
  destruct (first_by_created_at_desc rows) as [b|] eqn:Hb.
  - destruct (IH b eq_refl) as [Hin Hmax].
    destruct (Z.ltb_spec (ws_created_at r0) (ws_created_at b)); intros [= <-].
    + split; [now right|]. intros r [<-|Hr]; [lia | now apply Hmax].
    + split; [now left|]. intros r [<-|Hr]; [lia|]. specialize (Hmax r Hr). lia.
  - intros [= <-]. destruct rows; [|simpl in Hb; destruct (first_by_created_at_desc _);
      [destruct (_ <? _)|]; discriminate].
    split; [now left|]. intros r [<-|[]]. lia.
Qed.

Lemma first_by_created_at_desc_None rows :
  first_by_created_at_desc rows = None -> rows = [].
Proof.
  destruct rows as [|r rows]; [reflexivity|]. simpl.
  destruct (first_by_created_at_desc rows); [destruct (_ <? _)|]; discriminate.
Qed.

Lemma latest_score_Some s user_id task_type t :
  latest_score s user_id task_type = Some t ->
  most_recent (writing_scores (working s)) user_id task_type t.
Proof.
  unfold latest_score. intros H.
  apply first_by_created_at_desc_Some in H as [Hin Hmax].
  apply filter_scores_In in Hin as [Hin Hfor].
  split; [exact Hin|]. split; [exact Hfor|].
  intros r Hr Hrfor. apply Hmax. apply filter_scores_In. now split.
Qed.

Lemma latest_score_exists s user_id task_type r :
  In r (writing_scores (working s)) -> scored_for user_id task_type r ->
  exists t, latest_score s user_id task_type = Some t.
Proof.
  intros Hin Hfor. unfold latest_score.
  destruct (first_by_created_at_desc _) as [t|] eqn:E; [now exists t|].
  apply first_by_created_at_desc_None in E.
  assert (Hr : In r (filter_scores (writing_scores (working s)) user_id task_type))
    by (apply filter_scores_In; now split).
  rewrite E in Hr. destruct Hr.
Qed.

Lemma latest_score_None s user_id task_type :
  (forall r, In r (writing_scores (working s)) -> ~ scored_for user_id task_type r) ->
  latest_score s user_id task_type = None.
Proof.
  intros Hnone. destruct (latest_score s user_id task_type) as [t|] eqn:E; [|reflexivity].
  apply latest_score_Some in E as (Hin & Hfor & _). destruct (Hnone t Hin Hfor).
Qed.

(** What one run does for the selected pair. *)
Lemma combined_score_run user_id new_score s t1 t2 :
  latest_score s user_id "task1" = Some t1 ->
  latest_score s user_id "task2" = Some t2 ->
  calculate_combined_score user_id new_score s
  = match existing_combined s user_id (ws_id t1) (ws_id t2) with
    | Some _ => s
    | None =>
        session_commit
          (with_working s
             {| user_credits := user_credits (working s);
                writing_scores := writing_scores (working s);
                combined_writing_scores :=
                  combined_writing_scores (working s)
                  ++ [new_combined_row s user_id t1 t2] |})
    end.
Proof.
  intros H1 H2. unfold calculate_combined_score. rewrite H1, H2.
  destruct (existing_combined _ _ _ _); reflexivity.
Qed.

Lemma existing_combined_rows s user_id id1 id2 :
  existing_combined s user_id id1 id2 = None
  <-> rows_for_pair (combined_writing_scores (working s)) user_id id1 id2 = [].
Proof.
  unfold existing_combined, rows_for_pair.
  induction (combined_writing_scores (working s)) as [|c rows IH]; simpl; [easy|].
  destruct (_ && _); [easy | exact IH].
Qed.

Lemma find_app_None {A} (p : A -> bool) (l1 l2 : list A) :
  List.find p l1 = None -> List.find p (l1 ++ l2) = List.find p l2.
Proof.
  induction l1 as [|a l1 IH]; simpl; [reflexivity|].
  destruct (p a); [discriminate | exact IH].
Qed.

Lemma combined_score_idempotent user_id new_score new_score' s :
  calculate_combined_score user_id new_score' (calculate_combined_score user_id new_score s)
  = calculate_combined_score user_id new_score s.
Proof.
  destruct (latest_score s user_id "task1") as [t1|] eqn:H1.
  2: { assert (Hs : forall n, calculate_combined_score user_id n s = s)
         by (intros n; unfold calculate_combined_score; rewrite H1; reflexivity).
       now rewrite !Hs. }
  destruct (latest_score s user_id "task2") as [t2|] eqn:H2.
  2: { assert (Hs : forall n, calculate_combined_score user_id n s = s)
         by (intros n; unfold calculate_combined_score; rewrite H1, H2; reflexivity).
       now rewrite !Hs. }
  rewrite (combined_score_run user_id new_score s t1 t2 H1 H2).
  destruct (existing_combined s user_id (ws_id t1) (ws_id t2)) eqn:He.
  - rewrite (combined_score_run user_id new_score' s t1 t2 H1 H2), He. reflexivity.
  - match goal with |- calculate_combined_score _ _ ?s0 = _ => set (s1 := s0) end.
    assert (H1' : latest_score s1 user_id "task1" = Some t1) by exact H1.
    assert (H2' : latest_score s1 user_id "task2" = Some t2) by exact H2.
    rewrite (combined_score_run user_id new_score' s1 t1 t2 H1' H2').
    replace (existing_combined s1 user_id (ws_id t1) (ws_id t2))
      with (Some (new_combined_row s user_id t1 t2)); [reflexivity|].
    symmetry. unfold existing_combined, s1. simpl.
    rewrite find_app_None by exact He.
    simpl. rewrite !Z.eqb_refl. reflexivity.
Qed.

Lemma rows_for_pair_new s user_id t1 t2 :
  rows_for_pair (combined_writing_scores (working s)) user_id (ws_id t1) (ws_id t2) = [] ->
  rows_for_pair (combined_writing_scores (working s) ++ [new_combined_row s user_id t1 t2])
                user_id (ws_id t1) (ws_id t2)
  = [new_combined_row s user_id t1 t2].
Proof.
  intros Hnone. unfold rows_for_pair in *. rewrite List.filter_app, Hnone.
  simpl. rewrite !Z.eqb_refl. reflexivity.
Qed.

Lemma combined_score_fresh_pair user_id new_score s t1 t2 :
  latest_score s user_id "task1" = Some t1 ->
  latest_score s user_id "task2" = Some t2 ->
  rows_for_pair (combined_writing_scores (working s)) user_id (ws_id t1) (ws_id t2) = [] ->
  combined_writing_scores (working (calculate_combined_score user_id new_score s))
  = combined_writing_scores (working s) ++ [new_combined_row s user_id t1 t2]
  /\ committed (calculate_combined_score user_id new_score s)
     = working (calculate_combined_score user_id new_score s).
Proof.
  intros H1 H2 Hnone. rewrite (combined_score_run _ _ _ _ _ H1 H2).
  apply existing_combined_rows in Hnone. rewrite Hnone. split; reflexivity.
Qed.

Lemma combined_score_known_pair user_id new_score s t1 t2 :
  latest_score s user_id "task1" = Some t1 ->
  latest_score s user_id "task2" = Some t2 ->
  rows_for_pair (combined_writing_scores (working s)) user_id (ws_id t1) (ws_id t2) <> [] ->
  calculate_combined_score user_id new_score s = s.
Proof.
  intros H1 H2 Hsome. rewrite (combined_score_run _ _ _ _ _ H1 H2).
  destruct (existing_combined s user_id (ws_id t1) (ws_id t2)) eqn:He; [reflexivity|].
  apply existing_combined_rows in He. contradiction.
Qed.

(** C5.  For a user with at least one scored essay of each task
    variant, the aggregator pairs a most recently created task1 record
    with a most recently created task2 record and computes
    [round(task1.adjusted * 1/3 + task2.adjusted * 2/3, 1)] for them,
    stored in a new row unless the pair has one already; 6.5 and 7.0
    give 6.8.  When either variant is missing it does nothing. *)
Theorem combined_score_pairs_latest (user_id : Z) (new_score : WritingScore)
    (s : Session) :
  (forall r1 r2,
      In r1 (writing_scores (working s)) -> scored_for user_id "task1" r1 ->
      In r2 (writing_scores (working s)) -> scored_for user_id "task2" r2 ->
      exists t1 t2,
        most_recent (writing_scores (working s)) user_id "task1" t1
        /\ most_recent (writing_scores (working s)) user_id "task2" t2
        /\ cw_combined_score (new_combined_row s user_id t1 t2)
           = py_round (ws_adjusted_score t1 * 1 / 3 + ws_adjusted_score t2 * 2 / 3)%float 1
        /\ (rows_for_pair (combined_writing_scores (working s)) user_id
                          (ws_id t1) (ws_id t2) = [] ->
            combined_writing_scores
              (working (calculate_combined_score user_id new_score s))
            = combined_writing_scores (working s) ++ [new_combined_row s user_id t1 t2]
            /\ committed (calculate_combined_score user_id new_score s)
               = working (calculate_combined_score user_id new_score s))
        /\ (rows_for_pair (combined_writing_scores (working s)) user_id
                          (ws_id t1) (ws_id t2) <> [] ->
            calculate_combined_score user_id new_score s = s))
  /\ ((forall r, In r (writing_scores (working s)) -> ~ scored_for user_id "task1" r)
      \/ (forall r, In r (writing_scores (working s)) -> ~ scored_for user_id "task2" r) ->
      calculate_combined_score user_id new_score s = s)
  /\ combined_score_of 6.5 7 = 6.8%float.
Proof.
  split; [|split; [|reflexivity]].
  - intros r1 r2 Hin1 Hfor1 Hin2 Hfor2.
    destruct (latest_score_exists s user_id "task1" r1 Hin1 Hfor1) as [t1 H1].
    destruct (latest_score_exists s user_id "task2" r2 Hin2 Hfor2) as [t2 H2].
    exists t1, t2.
    split; [now apply latest_score_Some|]. split; [now apply latest_score_Some|].
    split; [reflexivity|]. split.
    + now apply combined_score_fresh_pair.
    + now apply combined_score_known_pair.
  - intros [Hnone|Hnone]; apply latest_score_None in Hnone;
      unfold calculate_combined_score; rewrite Hnone; [reflexivity|].
    destruct (latest_score s user_id "task1"); reflexivity.
Qed.

Lemma combined_score_pairs_latest_witness :
  exists t1 t2,
    most_recent (writing_scores (working paired_session)) 1 "task1" t1
    /\ most_recent (writing_scores (working paired_session)) 1 "task2" t2
    /\ ws_id t1 = 1 /\ ws_id t2 = 3
    /\ combined_writing_scores
         (working (calculate_combined_score 1 (stored_essay 3 1 "task2" 7 30)
                     paired_session))
       = [new_combined_row paired_session 1 t1 t2]
    /\ cw_combined_score (new_combined_row paired_session 1 t1 t2) = 6.8%float.
Proof.
  destruct (proj1 (combined_score_pairs_latest 1 (stored_essay 3 1 "task2" 7 30)
                     paired_session)
              (stored_essay 1 1 "task1" 6.5 10) (stored_essay 2 1 "task2" 5 20))
    as (t1 & t2 & Hm1 & Hm2 & _ & Hnew & _).
  - left. reflexivity.
  - split; reflexivity.
  - right. left. reflexivity.
  - split; reflexivity.
  - assert (Ht1 : t1 = stored_essay 1 1 "task1" 6.5 10).
    { destruct Hm1 as (Hin & [_ Hty] & _).
      destruct Hin as [<-|[<-|[<-|[]]]]; [reflexivity | discriminate Hty | discriminate Hty]. }
    assert (Ht2 : t2 = stored_essay 3 1 "task2" 7 30).
    { destruct Hm2 as (Hin & [_ Hty] & Hmax).
      destruct Hin as [<-|[<-|[<-|[]]]]; [discriminate Hty | | reflexivity].
      exfalso.
      specialize (Hmax (stored_essay 3 1 "task2" 7 30)
                       (or_intror (or_intror (or_introl eq_refl)))
                       (conj eq_refl eq_refl)).
      simpl in Hmax. lia. }
    exists t1, t2. subst t1 t2.
    split; [exact Hm1|]. split; [exact Hm2|]. split; [reflexivity|]. split; [reflexivity|].
    split; [|reflexivity].
    exact (proj1 (Hnew eq_refl)).
Defined.

Lemma combined_score_keeps_pairs_unique user_id new_score s :
  (forall u a b,
      (length (rows_for_pair (combined_writing_scores (working s)) u a b) <= 1)%nat) ->
  forall u a b,
    (length (rows_for_pair
               (combined_writing_scores
                  (working (calculate_combined_score user_id new_score s))) u a b)
     <= 1)%nat.
Proof.
  intros Huniq u a b.
  destruct (latest_score s user_id "task1") as [t1|] eqn:H1.
  2: { unfold calculate_combined_score. rewrite H1. apply Huniq. }
  destruct (latest_score s user_id "task2") as [t2|] eqn:H2.
  2: { unfold calculate_combined_score. rewrite H1, H2. apply Huniq. }
  destruct (rows_for_pair (combined_writing_scores (working s)) user_id
                          (ws_id t1) (ws_id t2)) as [|c rows] eqn:Hpair.
  - destruct (combined_score_fresh_pair user_id new_score s t1 t2 H1 H2 Hpair) as [-> _].
    unfold rows_for_pair in *. rewrite List.filter_app, length_app. simpl.
    destruct ((user_id =? u) && (ws_id t1 =? a) && (ws_id t2 =? b)) eqn:Hsame.
    + apply andb_true_iff in Hsame as [Hsame Hb]. apply andb_true_iff in Hsame as [Hu Ha].
      apply Z.eqb_eq in Hu, Ha, Hb. subst u a b. rewrite Hpair. simpl. lia.
    + specialize (Huniq u a b). simpl. lia.
  - rewrite (combined_score_known_pair user_id new_score s t1 t2 H1 H2)
      by (rewrite Hpair; discriminate).
    apply Huniq.
Qed.

(** C6.  The aggregator is idempotent per pair of record ids: run
    again, it changes nothing; if a CombinedScore row exists for the pair
    it selects, it does nothing; if none exists, one run appends a new
    row and leaves the old rows as they are, and after two runs the pair
    has exactly that one row.  A table with at most one row per pair and
    user keeps that property. *)
Theorem combined_score_once_per_pair (user_id : Z) (new_score new_score' : WritingScore)
    (s : Session) :
  calculate_combined_score user_id new_score'
    (calculate_combined_score user_id new_score s)
  = calculate_combined_score user_id new_score s
  /\ (forall t1 t2,
        latest_score s user_id "task1" = Some t1 ->
        latest_score s user_id "task2" = Some t2 ->
        (rows_for_pair (combined_writing_scores (working s)) user_id
                       (ws_id t1) (ws_id t2) <> [] ->
         calculate_combined_score user_id new_score s = s)
        /\ (rows_for_pair (combined_writing_scores (working s)) user_id
                          (ws_id t1) (ws_id t2) = [] ->
            combined_writing_scores
              (working (calculate_combined_score user_id new_score s))
            = combined_writing_scores (working s) ++ [new_combined_row s user_id t1 t2]
            /\ rows_for_pair
                 (combined_writing_scores
                    (working (calculate_combined_score user_id new_score'
                                (calculate_combined_score user_id new_score s))))
                 user_id (ws_id t1) (ws_id t2)
               = [new_combined_row s user_id t1 t2]))
  /\ ((forall u a b,
         (length (rows_for_pair (combined_writing_scores (working s)) u a b) <= 1)%nat) ->
      forall u a b,
        (length (rows_for_pair
                   (combined_writing_scores
                      (working (calculate_combined_score user_id new_score s))) u a b)
         <= 1)%nat).
Proof.
  split; [apply combined_score_idempotent|]. split.
  - intros t1 t2 H1 H2. split; [now apply combined_score_known_pair|].
    intros Hnone. rewrite combined_score_idempotent.
    destruct (combined_score_fresh_pair user_id new_score s t1 t2 H1 H2 Hnone) as [Hrows _].
    split; [exact Hrows|]. rewrite Hrows. now apply rows_for_pair_new.
  - apply combined_score_keeps_pairs_unique.
Qed.

Lemma combined_score_once_per_pair_witness :
  length
    (rows_for_pair
       (combined_writing_scores
          (working (calculate_combined_score 1 (stored_essay 3 1 "task2" 7 30)
                      (calculate_combined_score 1 (stored_essay 3 1 "task2" 7 30)
                         paired_session))))
       1 1 3) = 1%nat.
Proof.
  exact (f_equal (@length _)
           (proj2 (proj2 (proj1 (proj2 (combined_score_once_per_pair 1
                                          (stored_essay 3 1 "task2" 7 30)
                                          (stored_essay 3 1 "task2" 7 30) paired_session))
                            (stored_essay 1 1 "task1" 6.5 10)
                            (stored_essay 3 1 "task2" 7 30)
                            eq_refl eq_refl)
                     eq_refl))).
Defined.

(* ===================================================================== *)
(** * Further properties of the controller *)
(* ===================================================================== *)

(** ** Lookup of one score *)

Lemma get_score_Ok score_id user_id s r :
  get_score score_id user_id s = Ok r ->
  In r (writing_scores (working s)) /\ ws_id r = score_id /\ ws_user_id r = user_id.
Proof.
  unfold get_score.
  destruct (List.find _ _) as [r0|] eqn:Hf; [|discriminate].
  intros [= <-]. apply List.find_some in Hf as [Hin Hb].
  apply andb_true_iff in Hb as [Hi Hu].
  apply Z.eqb_eq in Hi, Hu. auto.
Qed.

Lemma get_score_Raise score_id user_id s e :
  get_score score_id user_id s = Raise e ->
  e = Exn ValueError "Score not found"
  /\ forall r, In r (writing_scores (working s)) ->
               ~ (ws_id r = score_id /\ ws_user_id r = user_id).
Proof.
  unfold get_score.
  destruct (List.find _ _) as [r0|] eqn:Hf; [discriminate|].
  intros [= <-]. split; [reflexivity|].
  intros r Hin [Hi Hu].
  pose proof (List.find_none _ _ Hf r Hin) as Hb. cbv beta in Hb.
  rewrite Hi, Hu, !Z.eqb_refl in Hb. discriminate.
Qed.

(** X3.  [get_score] returns only a stored essay that has the requested
    id and belongs to the requesting user; otherwise it raises the
    [ValueError] "Score not found".  An id that exists only for other
    users is answered like an id that does not exist. *)
Theorem get_score_owner_only (score_id user_id : Z) (s : Session) :
  (forall r, get_score score_id user_id s = Ok r ->
             In r (writing_scores (working s))
             /\ ws_id r = score_id /\ ws_user_id r = user_id)
  /\ (forall e, get_score score_id user_id s = Raise e ->
                e = Exn ValueError "Score not found")
  /\ ((forall r, In r (writing_scores (working s)) -> ws_id r = score_id ->
                 ws_user_id r <> user_id) ->
      get_score score_id user_id s = Raise (Exn ValueError "Score not found"))
  /\ ((exists r, In r (writing_scores (working s))
                 /\ ws_id r = score_id /\ ws_user_id r = user_id) ->
      exists r, get_score score_id user_id s = Ok r).
Proof.
  split; [intros r; apply get_score_Ok|].
  split; [intros e He; apply (get_score_Raise _ _ _ _ He)|].
  split.
  - intros Hother. destruct (get_score score_id user_id s) as [r|e] eqn:Hg.
    + apply get_score_Ok in Hg as (Hin & Hi & Hu). destruct (Hother r Hin Hi Hu).
    + apply get_score_Raise in Hg as [-> _]. reflexivity.
  - intros (r & Hin & Hi & Hu). destruct (get_score score_id user_id s) as [r'|e] eqn:Hg.
    + now exists r'.
    + apply get_score_Raise in Hg as [_ Hnone]. destruct (Hnone r Hin (conj Hi Hu)).
Qed.

Lemma get_score_owner_only_witness :
  get_score 3 2 paired_session = Raise (Exn ValueError "Score not found")
  /\ exists r, get_score 3 1 paired_session = Ok r.
Proof.
  split.
  - apply (proj1 (proj2 (proj2 (get_score_owner_only 3 2 paired_session)))).
    intros r [<-|[<-|[<-|[]]]] _; discriminate.
  - apply (proj2 (proj2 (proj2 (get_score_owner_only 3 1 paired_session)))).
    exists (stored_essay 3 1 "task2" 7 30).
    split; [right; right; left; reflexivity | split; reflexivity].
Defined.

(** ** Credits *)

(** X4.  [check_and_deduct_credits] either raises a [ValueError] and
    leaves the session as it was, or takes exactly one credit from the
    balance of this user, which was at least one and so does not become
    negative, commits, and changes no other balance and no stored row. *)
Theorem check_and_deduct_credits_effects (user_id : Z) (s : Session) :
  (forall s', check_and_deduct_credits user_id s = (Ok tt, s') ->
     exists c,
       user_credits (working s) !! user_id = Some c
       /\ 1 <= c
       /\ user_credits (working s') !! user_id = Some (c - 1)
       /\ (forall u, u <> user_id ->
                     user_credits (working s') !! u = user_credits (working s) !! u)
       /\ writing_scores (working s') = writing_scores (working s)
       /\ combined_writing_scores (working s') = combined_writing_scores (working s)
       /\ committed s' = working s')
  /\ (forall e s', check_and_deduct_credits user_id s = (Raise e, s') ->
        s' = s /\ is_ValueError e = true
        /\ (user_credits (working s) !! user_id = None
            \/ exists c, user_credits (working s) !! user_id = Some c /\ c < 1)).
Proof.
  unfold check_and_deduct_credits, CREDITS_PER_ANALYSIS.
  destruct (user_credits (working s) !! user_id) as [c|] eqn:Hc.
  - destruct (Z.ltb_spec c 1).
    + split; [discriminate|]. intros e s' [= <- <-].
      split; [reflexivity|]. split; [reflexivity|]. right. now exists c.
    + split; [|discriminate]. intros s' [= <-]. exists c.
      split; [reflexivity|]. split; [lia|]. simpl.
      split; [apply lookup_insert_eq|].
      split; [intros u Hu; now apply lookup_insert_ne|]. auto.
  - split; [discriminate|]. intros e s' [= <- <-]. auto.
Qed.

Lemma check_and_deduct_credits_effects_witness :
  exists c,
    user_credits (working sample_session) !! 1 = Some c
    /\ user_credits (working (check_and_deduct_credits 1 sample_session).2) !! 1
       = Some (c - 1).
Proof.
  destruct (proj1 (check_and_deduct_credits_effects 1 sample_session)
              (check_and_deduct_credits 1 sample_session).2 eq_refl)
    as (c & Hc & _ & Hc' & _).
  exists c. split; assumption.
Defined.

(** ** ScoringPipeline: what a run leaves behind *)

(** The session a successful run ends in, before the aggregator looks
    at it. *)
Lemma score_essay_Ok_session env user_id data s w s' :
  score_essay env user_id data s = (Ok w, s') ->
  exists c,
    user_credits (working s) !! user_id = Some c
    /\ CREDITS_PER_ANALYSIS <= c
    /\ ws_id w = new_id s (ws_id <$> writing_scores (working s))
    /\ ws_user_id w = user_id
    /\ ws_created_at w = now s
    /\ s' = calculate_combined_score user_id w
              (session_commit
                 (with_working (deducted user_id c s)
                    {| user_credits := user_credits (working (deducted user_id c s));
                       writing_scores := writing_scores (working s) ++ [w];
                       combined_writing_scores :=
                         combined_writing_scores (working s) |})).
Proof.
  unfold score_essay.
  destruct (score_essay_body env user_id data s) as [[w0|e] s0] eqn:Hbody;
    [|destruct (is_ValueError e); discriminate].
  intros [= -> ->]. revert Hbody.
  destruct data as [[[essay|] [task|] ts]|]; try discriminate.
  unfold score_essay_body, mbind, M_bind, check_and_deduct_credits, lift,
    save_and_combine.
  destruct (user_credits (working s) !! user_id) as [c|]; [|discriminate].
  destruct (Z.ltb_spec c CREDITS_PER_ANALYSIS); [discriminate|].
  fold (deducted user_id c s). simpl.
  repeat step_body; try discriminate.
  intros [= <- <-]. exists c. simpl. auto 10.
Qed.

Lemma combined_score_grows user_id new_score s :
  calculate_combined_score user_id new_score s = s
  \/ exists t1 t2,
       latest_score s user_id "task1" = Some t1
       /\ latest_score s user_id "task2" = Some t2
       /\ rows_for_pair (combined_writing_scores (working s)) user_id
                        (ws_id t1) (ws_id t2) = []
       /\ combined_writing_scores (working (calculate_combined_score user_id new_score s))
          = combined_writing_scores (working s) ++ [new_combined_row s user_id t1 t2].
Proof.
  destruct (latest_score s user_id "task1") as [t1|] eqn:H1.
  2: { left. unfold calculate_combined_score. now rewrite H1. }
  destruct (latest_score s user_id "task2") as [t2|] eqn:H2.
  2: { left. unfold calculate_combined_score. now rewrite H1, H2. }
  destruct (rows_for_pair (combined_writing_scores (working s)) user_id
                          (ws_id t1) (ws_id t2)) as [|c rows] eqn:Hpair.
  - right. exists t1, t2. split; [reflexivity|]. split; [reflexivity|].
    split; [exact Hpair|]. now apply combined_score_fresh_pair.
  - left. apply (combined_score_known_pair user_id new_score s t1 t2 H1 H2).
    rewrite Hpair. discriminate.
Qed.

(** X5.  A successful [score_essay] appends exactly the row it returns
    to the stored essays, stamped with the user, the clock and the key
    the database gave; takes exactly one credit from the user's balance;
    adds at most one combined score, for this user; leaves every row
    that was stored as it was; and ends with everything committed. *)
Theorem score_essay_persists (env : Env) (user_id : Z) (data : option Submission)
    (s s' : Session) (w : WritingScore) :
  score_essay env user_id data s = (Ok w, s') ->
  writing_scores (working s') = writing_scores (working s) ++ [w]
  /\ ws_user_id w = user_id
  /\ ws_created_at w = now s
  /\ ws_id w = new_id s (ws_id <$> writing_scores (working s))
  /\ (exists c, user_credits (working s) !! user_id = Some c /\ 1 <= c
                /\ user_credits (working s')
                   = <[user_id := c - 1]> (user_credits (working s)))
  /\ (combined_writing_scores (working s') = combined_writing_scores (working s)
      \/ exists row, cw_user_id row = user_id
                     /\ combined_writing_scores (working s')
                        = combined_writing_scores (working s) ++ [row])
  /\ committed s' = working s'.
Proof.
  intros Hrun.
  destruct (score_essay_Ok_session _ _ _ _ _ _ Hrun)
    as (c & Hc & Hle & Hid & Hu & Hat & ->).
  match goal with
  | |- context [calculate_combined_score ?u ?n ?s0] =>
      destruct (combined_score_keeps u n s0 eq_refl) as (Hcl & Hcr & Hws);
      destruct (combined_score_grows u n s0) as [Hsame|(t1 & t2 & _ & _ & _ & Hrows)]
  end.
  - rewrite Hsame. simpl. split; [reflexivity|]. repeat (split; [assumption|]).
    split; [exists c; auto|]. split; [now left | reflexivity].
  - split; [exact Hws|]. repeat (split; [assumption|]).
    split; [exists c; split; [exact Hc|]; split; [exact Hle | exact Hcr]|].
    split; [|exact Hcl].
    right. eexists. split; [|exact Hrows]. reflexivity.
Qed.

Lemma score_essay_persists_witness :
  writing_scores (working (score_essay sample_env 1 sample_submission sample_session).2)
  = [sample_row]
  /\ user_credits (working (score_essay sample_env 1 sample_submission sample_session).2)
       !! 1 = Some 1.
Proof.
  destruct (score_essay_persists sample_env 1 sample_submission sample_session
              (score_essay sample_env 1 sample_submission sample_session).2 sample_row)
    as (Hrows & _ & _ & _ & (c & Hc & _ & Hcr) & _).
  - vm_compute. reflexivity.
  - split; [exact Hrows|].
    rewrite Hcr. injection Hc as <-. reflexivity.
Defined.

(** X6.  After a successful [score_essay] the combined scores are up to
    date: the aggregator, run again, changes nothing, and if the user has
    essays of both variants the pair of their most recent ones has a
    combined score. *)
Theorem score_essay_leaves_combined (env : Env) (user_id : Z) (data : option Submission)
    (s s' : Session) (w : WritingScore) :
  score_essay env user_id data s = (Ok w, s') ->
  (forall new_score, calculate_combined_score user_id new_score s' = s')
  /\ (forall t1 t2,
        latest_score s' user_id "task1" = Some t1 ->
        latest_score s' user_id "task2" = Some t2 ->
        rows_for_pair (combined_writing_scores (working s')) user_id
                      (ws_id t1) (ws_id t2) <> []).
Proof.
  intros Hrun.
  destruct (score_essay_Ok_session _ _ _ _ _ _ Hrun) as (c & _ & _ & _ & _ & _ & ->).
  assert (Hfix : forall new_score,
             calculate_combined_score user_id new_score
               (calculate_combined_score user_id w
                  (session_commit
                     (with_working (deducted user_id c s)
                        {| user_credits := user_credits (working (deducted user_id c s));
                           writing_scores := writing_scores (working s) ++ [w];
                           combined_writing_scores :=
                             combined_writing_scores (working s) |})))
             = calculate_combined_score user_id w
                 (session_commit
                    (with_working (deducted user_id c s)
                       {| user_credits := user_credits (working (deducted user_id c s));
                          writing_scores := writing_scores (working s) ++ [w];
                          combined_writing_scores :=
                            combined_writing_scores (working s) |})))
    by (intros n; apply combined_score_idempotent).
  split; [exact Hfix|].
  intros t1 t2 H1 H2 Hnone.
  destruct (combined_score_fresh_pair user_id w _ t1 t2 H1 H2 Hnone) as [Hrows _].
  rewrite Hfix in Hrows.
  apply (f_equal (@length _)) in Hrows. rewrite length_app in Hrows. simpl in Hrows. lia.
Qed.

Lemma score_essay_leaves_combined_witness :
  calculate_combined_score 1 sample_row
    (score_essay sample_env 1 sample_submission sample_session).2
  = (score_essay sample_env 1 sample_submission sample_session).2.
Proof.
  apply (proj1 (score_essay_leaves_combined sample_env 1 sample_submission sample_session
                  (score_essay sample_env 1 sample_submission sample_session).2
                  sample_row ltac:(vm_compute; reflexivity))).
Defined.

(** X7.  An essay scored with success is found again: if the key the
    database gave the new row is not in use, [get_score] with that key
    and the user returns the row [score_essay] returned. *)
Theorem score_then_get_score (env : Env) (user_id : Z) (data : option Submission)
    (s s' : Session) (w : WritingScore) :
  score_essay env user_id data s = (Ok w, s') ->
  ~ In (ws_id w) (ws_id <$> writing_scores (working s)) ->
  get_score (ws_id w) user_id s' = Ok w.
Proof.
  intros Hrun Hfresh.
  destruct (score_essay_Ok_session _ _ _ _ _ _ Hrun) as (c & _ & _ & _ & Hu & _ & ->).
  unfold get_score.
  match goal with
  | |- context [calculate_combined_score ?u ?n ?s0] =>
      destruct (combined_score_keeps u n s0 eq_refl) as (_ & _ & ->)
  end.
  simpl. rewrite find_app_None.
  - simpl. rewrite Hu, !Z.eqb_refl. reflexivity.
  - destruct (List.find _ _) as [r|] eqn:Hf; [|reflexivity].
    apply List.find_some in Hf as [Hin Hb]. apply andb_true_iff in Hb as [Hi _].
    apply Z.eqb_eq in Hi. exfalso. apply Hfresh. rewrite <- Hi.
    apply in_map_iff. now exists r.
Qed.

Lemma score_then_get_score_witness :
  get_score 1 1 (score_essay sample_env 1 sample_submission sample_session).2
  = Ok sample_row.
Proof.
  apply (score_then_get_score sample_env 1 sample_submission sample_session
           (score_essay sample_env 1 sample_submission sample_session).2 sample_row).
  - vm_compute. reflexivity.
  - intros [].
Defined.

(** ** ScoringPipeline: the errors it raises *)

Lemma fault_not_ValueError {A} env f (e : exn) :
  @raise_fault A env f = Raise e -> is_ValueError e = false.
Proof. intros [= <-]. destruct f; reflexivity. Qed.

Lemma py_getitem_not_ValueError env v key e :
  py_getitem env v key = Raise e -> is_ValueError e = false.
Proof.
  destruct v; simpl; try apply fault_not_ValueError.
  destruct (_ !! _); [discriminate | apply fault_not_ValueError].
Qed.

Lemma py_float_not_ValueError env z e :
  py_float env z = Raise e -> is_ValueError e = false.
Proof.
  unfold py_float. destruct (int_overflows z); [apply fault_not_ValueError | discriminate].
Qed.

Lemma py_int_truediv_not_ValueError env a b e :
  py_int_truediv env a b = Raise e -> is_ValueError e = false.
Proof.
  unfold py_int_truediv. destruct (b =? 0); [apply fault_not_ValueError|].
  destruct (truediv_overflows a b); [apply fault_not_ValueError | discriminate].
Qed.

Lemma py_add_not_ValueError env a v e :
  py_add env a v = Raise e -> is_ValueError e = false.
Proof.
  unfold py_add. destruct (as_num v) as [b|]; [|apply fault_not_ValueError].
  destruct a as [x|x], b as [y|y]; simpl; try discriminate.
  - destruct (py_float env x) eqn:Hx; simpl; [discriminate|].
    intros [= <-]. now apply py_float_not_ValueError in Hx.
  - destruct (py_float env y) eqn:Hy; simpl; [discriminate|].
    intros [= <-]. now apply py_float_not_ValueError in Hy.
Qed.

Lemma py_sum_from_not_ValueError env values : forall acc e,
  py_sum_from env acc values = Raise e -> is_ValueError e = false.
Proof.
  induction values as [|v values IH]; intros acc e; simpl; [discriminate|].
  destruct (py_add env acc v) as [acc'|e0] eqn:Hadd; simpl.
  - apply IH.
  - intros [= <-]. now apply py_add_not_ValueError in Hadd.
Qed.

Lemma py_truediv_not_ValueError env a n e :
  py_truediv env a n = Raise e -> is_ValueError e = false.
Proof.
  unfold py_truediv. destruct a as [z|f]; [apply py_int_truediv_not_ValueError|].
  destruct (py_float env n) eqn:Hn; simpl.
  - destruct (n =? 0); [apply fault_not_ValueError | discriminate].
  - intros [= <-]. now apply py_float_not_ValueError in Hn.
Qed.

Lemma calculate_overall_score_not_ValueError env scores e :
  calculate_overall_score env scores = Raise e -> is_ValueError e = false.
Proof.
  unfold calculate_overall_score, py_sum.
  destruct (py_sum_from env (NInt 0) scores) as [total|e0] eqn:Hsum; simpl.
  - destruct (py_truediv env total _) eqn:Hdiv; simpl; [discriminate|].
    intros [= <-]. now apply py_truediv_not_ValueError in Hdiv.
  - intros [= <-]. now apply py_sum_from_not_ValueError in Hsum.
Qed.

Lemma calculate_time_penalty_not_ValueError env time_spent task_type e :
  calculate_time_penalty env time_spent task_type = Raise e -> is_ValueError e = false.
Proof.
  unfold calculate_time_penalty. destruct time_spent as [t|]; [|discriminate].
  destruct (t =? 0); [discriminate|].
  destruct (t <=? _); [discriminate|].
  destruct (py_int_truediv env _ 60) eqn:Hdiv; simpl; [discriminate|].
  intros [= <-]. now apply py_int_truediv_not_ValueError in Hdiv.
Qed.

Lemma analyze_essay_not_ValueError env essay task e :
  analyze_essay env essay task = Raise e -> is_ValueError e = false.
Proof. intros H. apply analyze_essay_Raise in H as [msg ->]. reflexivity. Qed.

(** Closes a branch of the [try] body that raised in a step which never
    raises a [ValueError]. *)
Ltac wrapped_branch :=
  match goal with
  | E : analyze_essay _ _ _ = Raise ?e |- _ =>
      rewrite (analyze_essay_not_ValueError _ _ _ _ E)
  | E : py_getitem _ _ _ = Raise ?e |- _ =>
      rewrite (py_getitem_not_ValueError _ _ _ _ E)
  | E : calculate_overall_score _ _ = Raise ?e |- _ =>
      rewrite (calculate_overall_score_not_ValueError _ _ _ E)
  | E : calculate_time_penalty _ _ _ = Raise ?e |- _ =>
      rewrite (calculate_time_penalty_not_ValueError _ _ _ _ E)
  end;
  intros [= <- _]; right; right; right; eexists; reflexivity.

(** X8.  Whatever goes wrong, [score_essay] raises one of four errors:
    the [ValueError] "Missing required fields", "User credits not found"
    or "Insufficient credits", or a plain exception whose message starts
    with "Failed to score essay: ". *)
Theorem score_essay_errors (env : Env) (user_id : Z) (data : option Submission)
    (s s' : Session) (e : exn) :
  score_essay env user_id data s = (Raise e, s') ->
  e = Exn ValueError "Missing required fields"
  \/ e = Exn ValueError "User credits not found"
  \/ e = Exn ValueError "Insufficient credits"
  \/ exists msg, e = Exn PlainException ("Failed to score essay: " ++ msg).
Proof.
  unfold score_essay, score_essay_body.
  destruct data as [[[essay|] [task|] ts]|];
    try (intros [= <- _]; left; reflexivity).
  unfold mbind, M_bind, check_and_deduct_credits, lift, save_and_combine.
  destruct (user_credits (working s) !! user_id) as [c|];
    [|intros [= <- _]; right; left; reflexivity].
  destruct (c <? CREDITS_PER_ANALYSIS);
    [intros [= <- _]; right; right; left; reflexivity|].
  simpl.
  repeat step_body; try wrapped_branch.
  discriminate.
Qed.

Lemma score_essay_errors_witness :
  score_essay failing_env 1 sample_submission sample_session
  = (Raise (Exn PlainException
              "Failed to score essay: Failed to analyze essay: Connection error."),
     deducted 1 2 sample_session)
  /\ exists msg,
       Exn PlainException "Failed to score essay: Failed to analyze essay: Connection error."
       = Exn PlainException ("Failed to score essay: " ++ msg).
Proof.
  assert (Hrun : score_essay failing_env 1 sample_submission sample_session
                 = (Raise (Exn PlainException
                      "Failed to score essay: Failed to analyze essay: Connection error."),
                    deducted 1 2 sample_session)) by reflexivity.
  split; [exact Hrun|].
  destruct (score_essay_errors _ _ _ _ _ _ Hrun) as [H|[H|[H|H]]];
    [discriminate H | discriminate H | discriminate H | exact H].
Defined.

(** ** TextPositionResolver: the whole answer *)

Lemma mapM_Ok {A B} (f : A -> result B) (l : list A) : forall l',
  mapM f l = Ok l' -> Forall2 (fun x y => f x = Ok y) l l'.
Proof.
  induction l as [|x l IH]; intros l'; simpl.
  - intros [= <-]. constructor.
  - destruct (f x) as [y|e] eqn:Hx; simpl; [|discriminate].
    destruct (mapM f l) as [k|e]; simpl; [|discriminate].
    intros [= <-]. constructor; [exact Hx | now apply IH].
Qed.

Lemma mapM_all_Ok {A B} (f : A -> result B) (l : list A) :
  (forall x, In x l -> exists y, f x = Ok y) -> exists l', mapM f l = Ok l'.
Proof.
  induction l as [|x l IH]; intros Hall; simpl; [now eexists|].
  destruct (Hall x (or_introl eq_refl)) as [y ->]. simpl.
  destruct IH as [k ->]; [intros z Hz; apply Hall; now right|].
  simpl. now eexists.
Qed.

Lemma mapM_first_Raise {A B} (f : A -> result B) (l1 l2 : list A) x e :
  (forall z, In z l1 -> exists y, f z = Ok y) -> f x = Raise e ->
  mapM f (l1 ++ x :: l2) = Raise e.
Proof.
  intros Hall Hx. induction l1 as [|z l1 IH]; simpl.
  - now rewrite Hx.
  - destruct (Hall z (or_introl eq_refl)) as [y ->]. simpl.
    rewrite IH; [reflexivity|]. intros z' Hz'. apply Hall. now right.
Qed.

Lemma highlight_correction_Ok env essay category x y :
  highlight_correction env essay category x = Ok y -> same_but_positions x y.
Proof.
  unfold highlight_correction. destruct x as [| | | | | |m]; try discriminate.
  assert (Hsame : same_but_positions (JObj m) (JObj m)) by (exists m, m; auto).
  destruct (_ && _); [|now intros [= <-]].
  destruct (default _ _); try discriminate.
  destruct (truthy _); intros [= <-]; [|exact Hsame].
  exists m, (<["positions" := JArr (find_all essay s 0 [])]> m).
  split; [reflexivity|]. split; [reflexivity|].
  intros key Hkey. now apply lookup_insert_ne.
Qed.

Lemma highlight_well_formed env essay category x :
  well_formed_entry x -> exists y, highlight_correction env essay category x = Ok y.
Proof.
  intros (m & -> & Hm). unfold highlight_correction.
  destruct Hm as [->|[o ->]]; simpl; [now eexists|].
  destruct (_ && _); [|now eexists].
  destruct (bool_decide _); simpl; now eexists.
Qed.

(** One round of the outer loop on a dict of corrections. *)
Lemma highlight_category_obj env essay (c : gmap string json) category :
  highlight_category env essay (JObj c) category
  = match c !! category with
    | None => Ok []
    | Some entries =>
        items ← py_iter env entries;
        mapM (highlight_correction env essay category) items
    end.
Proof.
  unfold highlight_category. simpl.
  destruct (c !! category); reflexivity.
Qed.

Lemma find_text_positions_Ok env essay corrections r :
  find_text_positions env essay corrections = Ok r ->
  exists g v st,
    highlight_category env essay corrections "grammar" = Ok g
    /\ highlight_category env essay corrections "vocabulary" = Ok v
    /\ highlight_category env essay corrections "structure" = Ok st
    /\ r = highlighted g v st.
Proof.
  unfold find_text_positions.
  destruct (highlight_category env essay corrections "grammar") as [g|]; [|discriminate].
  destruct (highlight_category env essay corrections "vocabulary") as [v|]; [|discriminate].
  destruct (highlight_category env essay corrections "structure") as [st|]; [|discriminate].
  intros [= <-]. now exists g, v, st.
Qed.

(** X9.  Whenever [find_text_positions] returns, its answer is a dict
    with exactly the keys grammar, vocabulary and structure, each holding
    a list; a category the corrections do not have comes out as the empty
    list, and any other key of the corrections is dropped. *)
Theorem find_text_positions_shape (env : Env) (essay : string) (corrections r : json) :
  find_text_positions env essay corrections = Ok r ->
  exists (out : gmap string json) g v st,
    r = JObj out
    /\ (forall key, is_Some (out !! key) <-> In key categories)
    /\ out !! "grammar" = Some (JArr g)
    /\ out !! "vocabulary" = Some (JArr v)
    /\ out !! "structure" = Some (JArr st)
    /\ (forall c : gmap string json,
          corrections = JObj c ->
          (c !! "grammar" = None -> g = [])
          /\ (c !! "vocabulary" = None -> v = [])
          /\ (c !! "structure" = None -> st = [])).
Proof.
  intros Hr. destruct (find_text_positions_Ok _ _ _ _ Hr) as (g & v & st & Hg & Hv & Hst & ->).
  eexists _, g, v, st. split; [reflexivity|]. split; [|split; [|split; [|split]]].
  - intros key. split.
    + intros Hk.
      destruct (String.eqb_spec key "grammar") as [->|Hn1]; [now left|].
      destruct (String.eqb_spec key "vocabulary") as [->|Hn2]; [right; now left|].
      destruct (String.eqb_spec key "structure") as [->|Hn3]; [right; right; now left|].
      rewrite !lookup_insert_ne, lookup_empty in Hk by congruence.
      destruct Hk as [? Hk]. discriminate Hk.
    + intros [<-|[<-|[<-|[]]]]; vm_compute; eauto.
  - reflexivity.
  - reflexivity.
  - reflexivity.
  - intros c ->. rewrite !highlight_category_obj in *.
    repeat split; intros Hnone; rewrite Hnone in *; congruence.
Qed.

Lemma find_text_positions_shape_witness :
  find_text_positions sample_env "the cat sat on the mat" sample_corrections
  = Ok sample_highlighted
  /\ exists (out : gmap string json) g,
       sample_highlighted = JObj out
       /\ out !! "grammar" = Some (JArr g)
       /\ out !! "vocabulary" = Some (JArr [])
       /\ out !! "structure" = Some (JArr [])
       /\ out !! "style" = None.
Proof.
  assert (Hr : find_text_positions sample_env "the cat sat on the mat" sample_corrections
               = Ok sample_highlighted) by (vm_compute; reflexivity).
  split; [exact Hr|].
  destruct (find_text_positions_shape sample_env _ _ _ Hr)
    as (out & g & v & st & Heq & Hkeys & Hg & Hv & Hst & Hmiss).
  destruct (Hmiss _ eq_refl) as (_ & Hv0 & Hst0).
  rewrite Hv0 in Hv by (vm_compute; reflexivity).
  rewrite Hst0 in Hst by (vm_compute; reflexivity).
  exists out, g. repeat split; try assumption.
  destruct (out !! "style") eqn:Hstyle; [|reflexivity].
  assert (Hin : In "style" categories) by (apply Hkeys; rewrite Hstyle; eauto).
  simpl in Hin. destruct Hin as [|[|[|[]]]]; discriminate.
Defined.

(** X10.  [find_text_positions] keeps every entry of every category it
    knows, in the order given: the list it answers for a category has one
    entry for each entry of the corrections, equal to it but for the key
    [positions]; structure entries come back as they are. *)
Theorem find_text_positions_entries (env : Env) (essay : string)
    (c out : gmap string json) (category : string) (entries : list json) :
  find_text_positions env essay (JObj c) = Ok (JObj out) ->
  In category categories ->
  c !! category = Some (JArr entries) ->
  exists entries',
    out !! category = Some (JArr entries')
    /\ Forall2 same_but_positions entries entries'
    /\ (category = "structure" -> entries' = entries).
Proof.
  intros Hr Hcat Hc.
  destruct (find_text_positions_Ok _ _ _ _ Hr) as (g & v & st & Hg & Hv & Hst & Hout).
  injection Hout as ->.
  rewrite highlight_category_obj in Hg, Hv, Hst.
  assert (Hall : forall l l', mapM (highlight_correction env essay category) l = Ok l' ->
                              Forall2 same_but_positions l l').
  { intros l l' Hl. apply mapM_Ok in Hl.
    eapply Forall2_impl; [exact Hl|]. intros x y. apply highlight_correction_Ok. }
  destruct Hcat as [<-|[<-|[<-|[]]]]; rewrite Hc in *; simpl in *.
  - exists g. split; [reflexivity|]. split; [now apply Hall | discriminate].
  - exists v. split; [reflexivity|]. split; [now apply Hall | discriminate].
  - exists st. split; [reflexivity|]. split; [now apply Hall|]. intros _.
    apply mapM_Ok in Hst. clear -Hst.
    induction Hst as [|x y l l' Hxy _ IH]; [reflexivity|].
    f_equal; [|exact IH].
    destruct x; try discriminate. rewrite highlight_structure in Hxy. congruence.
Qed.

Lemma find_text_positions_entries_witness :
  find_text_positions sample_env "the cat sat on the mat" sample_corrections
  = Ok sample_highlighted
  /\ exists entries',
       Forall2 same_but_positions
         [obj [("original", JStr "the"); ("type", JStr "article")]] entries'.
Proof.
  assert (Hr : find_text_positions sample_env "the cat sat on the mat" sample_corrections
               = Ok sample_highlighted) by (vm_compute; reflexivity).
  split; [exact Hr|].
  destruct (find_text_positions_entries sample_env _ _ _ "grammar"
              [obj [("original", JStr "the"); ("type", JStr "article")]] Hr)
    as (entries' & _ & Hsame & _).
  - left. reflexivity.
  - vm_compute. reflexivity.
  - exists entries'. exact Hsame.
Defined.

Lemma find_text_positions_returns env essay (c : gmap string json) :
  (forall category, In category categories ->
     c !! category = None
     \/ exists entries, c !! category = Some (JArr entries)
                        /\ Forall well_formed_entry entries) ->
  exists r, find_text_positions env essay (JObj c) = Ok r.
Proof.
  intros Hwf.
  assert (Hcat : forall category, In category categories ->
                   exists l, highlight_category env essay (JObj c) category = Ok l).
  { intros category Hin. rewrite highlight_category_obj.
    destruct (Hwf category Hin) as [->|(entries & -> & Hall)]; [now eexists|].
    simpl. apply mapM_all_Ok. intros x Hx. apply highlight_well_formed.
    rewrite List.Forall_forall in Hall. now apply Hall. }
  unfold find_text_positions.
  destruct (Hcat "grammar") as [g ->]; [now left|].
  destruct (Hcat "vocabulary") as [v ->]; [right; now left|].
  destruct (Hcat "structure") as [st ->]; [right; right; now left|].
  simpl. now eexists.
Qed.

(** X11.  On corrections that are a dict whose categories, where
    present, are lists of well-formed entries (objects whose [original]
    is missing or a string), [find_text_positions] always returns, and
    what it returns has, for each such list, a list of the same length. *)
Theorem find_text_positions_total (env : Env) (essay : string) (c : gmap string json) :
  (forall category, In category categories ->
     c !! category = None
     \/ exists entries, c !! category = Some (JArr entries)
                        /\ Forall well_formed_entry entries) ->
  exists out : gmap string json,
    find_text_positions env essay (JObj c) = Ok (JObj out)
    /\ forall category entries,
         In category categories -> c !! category = Some (JArr entries) ->
         exists entries', out !! category = Some (JArr entries')
                          /\ length entries' = length entries.
Proof.
  intros Hwf. destruct (find_text_positions_returns env essay c Hwf) as [r Hr].
  destruct (find_text_positions_Ok _ _ _ _ Hr) as (g & v & st & Hg & Hv & Hst & ->).
  eexists. split; [exact Hr|].
  intros category entries Hcat Hc.
  rewrite highlight_category_obj in Hg, Hv, Hst.
  destruct Hcat as [<-|[<-|[<-|[]]]]; rewrite Hc in *; simpl in *.
  - exists g. split; [reflexivity|]. apply mapM_Ok, Forall2_length in Hg. now symmetry.
  - exists v. split; [reflexivity|]. apply mapM_Ok, Forall2_length in Hv. now symmetry.
  - exists st. split; [reflexivity|]. apply mapM_Ok, Forall2_length in Hst. now symmetry.
Qed.

Lemma find_text_positions_total_witness :
  exists out : gmap string json,
    find_text_positions sample_env "the cat sat on the mat"
      (JObj (<["vocabulary" := JArr [JObj (<["original" := JStr "dog"]> ∅)]]> ∅))
    = Ok (JObj out).
Proof.
  destruct (find_text_positions_total sample_env "the cat sat on the mat"
              (<["vocabulary" := JArr [JObj (<["original" := JStr "dog"]> ∅)]]> ∅))
    as (out & Hout & _).
  - intros category [<-|[<-|[<-|[]]]].
    + left. reflexivity.
    + right. eexists. split; [reflexivity|].
      constructor; [|constructor].
      eexists. split; [reflexivity|]. right. eexists. reflexivity.
    + left. reflexivity.
  - exists out. exact Hout.
Defined.

(** X12.  What stops [find_text_positions]: in a grammar list whose
    earlier entries are well formed, an entry that is no object raises an
    [AttributeError] (it has no [get]), and an object whose [original] is
    truthy but no string raises a [TypeError] (it cannot be searched
    for).  In the structure list the latter is passed through. *)
Theorem find_text_positions_stops (env : Env) (essay : string) (c : gmap string json)
    (before after : list json) (x : json) :
  c !! "grammar" = Some (JArr (before ++ x :: after)) ->
  Forall well_formed_entry before ->
  ((forall m, x <> JObj m) ->
   find_text_positions env essay (JObj c)
   = Raise (Exn AttributeError (fault_str env (NoAttribute x "get"))))
  /\ (forall m v,
        x = JObj m -> m !! "original" = Some v -> truthy v = true ->
        (forall o, v <> JStr o) ->
        find_text_positions env essay (JObj c)
        = Raise (Exn TypeError (fault_str env (BadArgument "find" v)))
        /\ highlight_correction env essay "structure" x = Ok x).
Proof.
  intros Hc Hbefore.
  assert (Hstop : forall e, highlight_correction env essay "grammar" x = Raise e ->
                            find_text_positions env essay (JObj c) = Raise e).
  { intros e Hx. unfold find_text_positions.
    rewrite (highlight_category_obj env essay c "grammar"), Hc. simpl.
    rewrite (mapM_first_Raise _ before after x e); [reflexivity| |exact Hx].
    intros z Hz. apply highlight_well_formed.
    rewrite List.Forall_forall in Hbefore. now apply Hbefore. }
  split.
  - intros Hx. apply Hstop. destruct x; try reflexivity. now destruct (Hx m).
  - intros m v -> Hm Hv Hns. split; [|apply highlight_structure].
    apply Hstop. unfold highlight_correction. rewrite Hm. simpl. rewrite Hv. simpl.
    destruct v; try reflexivity. now destruct (Hns s).
Qed.

Lemma find_text_positions_stops_witness :
  find_text_positions sample_env "the cat sat on the mat"
    (JObj (<["grammar" := JArr [JObj ∅; JStr "the"]]> ∅))
  = Raise (Exn AttributeError (fault_str sample_env (NoAttribute (JStr "the") "get"))).
Proof.
  apply (find_text_positions_stops sample_env "the cat sat on the mat"
           (<["grammar" := JArr [JObj ∅; JStr "the"]]> ∅) [JObj ∅] [] (JStr "the")).
  - reflexivity.
  - constructor; [|constructor]. exists ∅. split; [reflexivity|]. left. reflexivity.
  - intros m. discriminate.
Defined.

(** ** TextPositionResolver: where the spans lie *)

Lemma substring_length s : forall i n,
  String.length (substring i n s) = Nat.min n (String.length s - i).
Proof.
  induction s as [|a s IH]; intros [|i] [|n]; simpl; try reflexivity.
  - now rewrite IH, Nat.sub_0_r.
  - apply IH.
  - apply IH.
Qed.

Lemma filter_seq_sorted (f : nat -> bool) n : forall a,
  StronglySorted lt (List.filter f (seq a n)).
Proof.
  induction n as [|n IH]; intros a; simpl; [constructor|].
  destruct (f a); [|apply IH].
  constructor; [apply IH|].
  apply List.Forall_forall. intros i Hi.
  apply List.filter_In in Hi as [Hi _]. apply in_seq in Hi. lia.
Qed.

(** X13.  The search loop of [find_text_positions], run from offset 0,
    reports one span for each offset at which the text lies wholly inside
    the essay, overlapping occurrences included, each once and in
    strictly increasing order; a span's text is the slice of the essay
    between its start and its end. *)
Theorem find_all_spans_lie_in_essay (essay original : string) :
  exists offsets : list nat,
    find_all essay original 0 []
    = List.map (fun i => position (Z.of_nat i) original) offsets
    /\ StronglySorted lt offsets
    /\ forall i, In i offsets
                 <-> (i + String.length original <= String.length essay)%nat
                     /\ substring i (String.length original) essay = original.
Proof.
  exists (occurrences_from essay original 0). split; [|split].
  - rewrite find_all_occurrences by lia. reflexivity.
  - apply filter_seq_sorted.
  - intros i. unfold occurrences_from. rewrite List.filter_In, in_seq, occurs_at_true.
    split.
    + intros [Hi Hsub]. split; [|exact Hsub].
      pose proof (substring_length essay i (String.length original)) as Hlen.
      rewrite Hsub in Hlen. lia.
    + intros [Hi Hsub]. split; [lia | exact Hsub].
Qed.

(** ** EssayAnalyzer: when it returns *)

Lemma has_all_required (m : gmap string json) :
  has_all m required_keys = true ->
  exists scores feedback corrections,
    m !! "scores" = Some scores /\ m !! "feedback" = Some feedback
    /\ m !! "corrections" = Some corrections.
Proof.
  unfold has_all, required_keys. simpl. rewrite !andb_true_iff, !bool_decide_eq_true.
  intros ([scores Hs] & [feedback Hf] & [corrections Hc] & _).
  now exists scores, feedback, corrections.
Qed.

(** An answer that is no object does not get through the validation. *)
Lemma parse_and_validate_not_obj env essay content v :
  json_loads env content = Ok v -> (forall m, v <> JObj m) ->
  exists e, parse_and_validate env essay content = Raise e.
Proof.
  intros Hj Hv. unfold parse_and_validate. rewrite Hj, bind_Ok.
  destruct v as [| | | | |l|m]; try (eexists; reflexivity).
  - destruct (all_in env required_keys (JStr s)) as [[|]|]; eexists; reflexivity.
  - destruct (all_in env required_keys (JArr l)) as [[|]|]; eexists; reflexivity.
  - now destruct (Hv m).
Qed.

Lemma parse_and_validate_Ok env essay content r :
  parse_and_validate env essay content = Ok r ->
  exists (m : gmap string json) scores feedback corrections highlighted,
    json_loads env content = Ok (JObj m)
    /\ m !! "scores" = Some scores
    /\ m !! "feedback" = Some feedback
    /\ m !! "corrections" = Some corrections
    /\ all_in env score_keys scores = Ok true
    /\ all_in env score_keys feedback = Ok true
    /\ find_text_positions env essay corrections = Ok highlighted
    /\ r = JObj (<["corrections" := highlighted]> m).
Proof.
  intros Hr.
  destruct (json_loads env content) as [v|e] eqn:Hj.
  2: { unfold parse_and_validate in Hr. rewrite Hj in Hr. discriminate. }
  assert (Hobj : exists m, v = JObj m).
  { destruct v as [| | | | | |m]; try
      (destruct (parse_and_validate_not_obj env essay content _ Hj) as [e He];
       [discriminate | congruence]).
    now exists m. }
  destruct Hobj as [m ->]. revert Hr.
  unfold parse_and_validate. rewrite Hj, bind_Ok, all_in_obj, bind_Ok.
  destruct (has_all m required_keys) eqn:Hreq; [|discriminate].
  destruct (has_all_required m Hreq) as (scores & feedback & corrections & Hs & Hf & Hc).
  cbn [negb py_getitem py_contains]. rewrite Hs, Hf, Hc, !bind_Ok.
  destruct (all_in env score_keys scores) as [[|]|] eqn:Hsk; try discriminate.
  rewrite bind_Ok. cbn [negb].
  destruct (all_in env score_keys feedback) as [[|]|] eqn:Hfk; try discriminate.
  rewrite !bind_Ok. cbn [negb].
  rewrite bool_decide_eq_true_2 by eauto. cbn [negb].
  destruct (find_text_positions env essay corrections) as [highlighted|] eqn:Hh;
    [|discriminate].
  rewrite bind_Ok. intros [= <-].
  exists m, scores, feedback, corrections, highlighted. auto 10.
Qed.

Lemma analyze_essay_Ok_intro env essay task content (m : gmap string json)
    scores feedback corrections highlighted :
  chat_completion env task essay = Ok content ->
  json_loads env content = Ok (JObj m) ->
  m !! "scores" = Some scores ->
  m !! "feedback" = Some feedback ->
  m !! "corrections" = Some corrections ->
  all_in env score_keys scores = Ok true ->
  all_in env score_keys feedback = Ok true ->
  find_text_positions env essay corrections = Ok highlighted ->
  analyze_essay env essay task = Ok (JObj (<["corrections" := highlighted]> m)).
Proof.
  intros Hc Hj Hs Hf Hco Hsk Hfk Hh.
  unfold analyze_essay, parse_and_validate.
  rewrite Hc, bind_Ok, Hj, bind_Ok, all_in_obj.
  assert (Hreq : has_all m required_keys = true).
  { unfold has_all, required_keys. simpl.
    rewrite !bool_decide_eq_true_2 by eauto. reflexivity. }
  rewrite Hreq, bind_Ok. cbn [negb py_getitem py_contains].
  rewrite Hs, Hf, Hco, !bind_Ok, Hsk, bind_Ok. cbn [negb].
  rewrite Hfk, !bind_Ok. cbn [negb].
  rewrite bool_decide_eq_true_2 by eauto. cbn [negb].
  rewrite Hh. reflexivity.
Qed.

(** X14.  [analyze_essay] returns exactly when the service answers, the
    answer parses to an object with [scores], [feedback] and
    [corrections], the four criteria are found in [scores] and in
    [feedback], and the resolver returns; what it returns is the parsed
    object with [corrections] replaced by the resolver's answer and every
    other key as parsed. *)
Theorem analyze_essay_returns (env : Env) (essay task : string) (r : json) :
  analyze_essay env essay task = Ok r
  <-> exists content (m : gmap string json) scores feedback corrections highlighted,
        chat_completion env task essay = Ok content
        /\ json_loads env content = Ok (JObj m)
        /\ m !! "scores" = Some scores
        /\ m !! "feedback" = Some feedback
        /\ m !! "corrections" = Some corrections
        /\ all_in env score_keys scores = Ok true
        /\ all_in env score_keys feedback = Ok true
        /\ find_text_positions env essay corrections = Ok highlighted
        /\ r = JObj (<["corrections" := highlighted]> m).
Proof.
  split.
  - unfold analyze_essay, try_except.
    destruct (chat_completion env task essay) as [content|] eqn:Hc; [|discriminate].
    rewrite bind_Ok.
    destruct (parse_and_validate env essay content) as [r0|e] eqn:Hp;
      [|unfold inner_handler; destruct (is_JSONDecodeError e); discriminate].
    intros [= <-]. apply parse_and_validate_Ok in Hp
      as (m & scores & feedback & corrections & highlighted & H).
    exists content, m, scores, feedback, corrections, highlighted. auto.
  - intros (content & m & scores & feedback & corrections & highlighted
            & Hc & Hj & Hs & Hf & Hco & Hsk & Hfk & Hh & ->).
    now apply (analyze_essay_Ok_intro env essay task content m scores feedback corrections).
Qed.

(** ** EssayAnalyzer: what the validation raises *)

Section Faults.

Context (env : Env).

Lemma raise_fault_is_fault {A} f e :
  arithmetic f = false -> @raise_fault A env f = Raise e -> is_fault env e.
Proof. intros Hf [= <-]. now exists f. Qed.

Lemma is_fault_not_ValueError e : is_fault env e -> is_ValueError e = false.
Proof. intros (f & _ & ->). destruct f; reflexivity. Qed.

Lemma is_fault_class e :
  is_fault env e ->
  exn_class_of e = TypeError \/ exn_class_of e = KeyError
  \/ exn_class_of e = AttributeError.
Proof. intros (f & Hf & ->). destruct f; try discriminate; simpl; auto. Qed.

Lemma py_contains_fault key v e : py_contains env key v = Raise e -> is_fault env e.
Proof. destruct v; simpl; try discriminate; (apply raise_fault_is_fault; reflexivity). Qed.

Lemma all_in_fault keys v e : all_in env keys v = Raise e -> is_fault env e.
Proof.
  induction keys as [|key keys IH]; simpl; [discriminate|].
  destruct (py_contains env key v) as [[|]|e0] eqn:Hc; simpl.
  - exact IH.
  - discriminate.
  - intros [= <-]. now apply py_contains_fault in Hc.
Qed.

Lemma py_getitem_fault v key e : py_getitem env v key = Raise e -> is_fault env e.
Proof.
  destruct v; simpl; try (apply raise_fault_is_fault; reflexivity).
  destruct (_ !! _); [discriminate | (apply raise_fault_is_fault; reflexivity)].
Qed.

Lemma py_setitem_fault v key x e : py_setitem env v key x = Raise e -> is_fault env e.
Proof. destruct v; simpl; try discriminate; (apply raise_fault_is_fault; reflexivity). Qed.

Lemma py_iter_fault v e : py_iter env v = Raise e -> is_fault env e.
Proof. destruct v; simpl; try discriminate; (apply raise_fault_is_fault; reflexivity). Qed.

Lemma highlight_correction_fault essay category x e :
  highlight_correction env essay category x = Raise e -> is_fault env e.
Proof.
  unfold highlight_correction. destruct x; try (apply raise_fault_is_fault; reflexivity).
  destruct (_ && _); [|discriminate].
  destruct (default _ _); try (apply raise_fault_is_fault; reflexivity).
  destruct (truthy _); discriminate.
Qed.

Lemma mapM_Raise {A B} (f : A -> result B) (l : list A) e :
  mapM f l = Raise e -> exists x, In x l /\ f x = Raise e.
Proof.
  induction l as [|x l IH]; simpl; [discriminate|].
  destruct (f x) as [y|e0] eqn:Hx; simpl.
  - destruct (mapM f l) as [k|e1]; simpl; [discriminate|].
    intros [= <-]. destruct (IH eq_refl) as (z & Hz & Hfz). exists z. auto.
  - intros [= <-]. exists x. auto.
Qed.

Lemma highlight_category_fault essay corrections category e :
  highlight_category env essay corrections category = Raise e -> is_fault env e.
Proof.
  unfold highlight_category.
  destruct (py_contains env category corrections) as [[|]|e0] eqn:Hc; simpl;
    [| discriminate | intros [= <-]; now apply py_contains_fault in Hc].
  destruct (py_getitem env corrections category) as [entries|e0] eqn:Hg; simpl;
    [| intros [= <-]; now apply py_getitem_fault in Hg].
  destruct (py_iter env entries) as [items|e0] eqn:Hi; simpl;
    [| intros [= <-]; now apply py_iter_fault in Hi].
  intros Hm. apply mapM_Raise in Hm as (x & _ & Hx).
  now apply highlight_correction_fault in Hx.
Qed.

Lemma find_text_positions_fault essay corrections e :
  find_text_positions env essay corrections = Raise e -> is_fault env e.
Proof.
  unfold find_text_positions.
  destruct (highlight_category env essay corrections "grammar") as [g|e0] eqn:Hg; simpl;
    [| intros [= <-]; now apply highlight_category_fault in Hg].
  destruct (highlight_category env essay corrections "vocabulary") as [v|e0] eqn:Hv; simpl;
    [| intros [= <-]; now apply highlight_category_fault in Hv].
  destruct (highlight_category env essay corrections "structure") as [st|e0] eqn:Hst; simpl;
    [discriminate | intros [= <-]; now apply highlight_category_fault in Hst].
Qed.

End Faults.

(** One step of a [try] body: the bind on an outcome that is known. *)
Ltac step := cbn [mbind result_bind negb].

(** X15.  Once the answer has parsed, the validation of [analyze_essay]
    raises one of three [ValueError]s (missing required keys, missing
    score keys, missing feedback keys) or an error of the interpreter
    itself.  The check of lines 186-187 never fires: "missing
    corrections" is not among them. *)
Theorem validation_errors (env : Env) (essay content : string) (v : json) (e : exn) :
  json_loads env content = Ok v ->
  parse_and_validate env essay content = Raise e ->
  (e = Exn ValueError "Invalid response format: missing required keys"
   \/ e = Exn ValueError "Invalid response format: missing score keys"
   \/ e = Exn ValueError "Invalid response format: missing feedback keys"
   \/ is_fault env e)
  /\ e <> Exn ValueError "Invalid response format: missing corrections".
Proof.
  intros Hj He.
  assert (Hcases :
            e = Exn ValueError "Invalid response format: missing required keys"
            \/ e = Exn ValueError "Invalid response format: missing score keys"
            \/ e = Exn ValueError "Invalid response format: missing feedback keys"
            \/ is_fault env e).
  { revert He. unfold parse_and_validate. rewrite Hj, bind_Ok.
    destruct (all_in env required_keys v) as [[|]|e0] eqn:Hreq; step;
      [| intros [= <-]; now left
       | intros [= <-]; right; right; right; now apply all_in_fault in Hreq].
    destruct (py_getitem env v "scores") as [scores|e0] eqn:Hs; step;
      [| intros [= <-]; right; right; right; now apply py_getitem_fault in Hs].
    destruct (all_in env score_keys scores) as [[|]|e0] eqn:Hsk; step;
      [| intros [= <-]; right; now left
       | intros [= <-]; right; right; right; now apply all_in_fault in Hsk].
    destruct (py_getitem env v "feedback") as [feedback|e0] eqn:Hf; step;
      [| intros [= <-]; right; right; right; now apply py_getitem_fault in Hf].
    destruct (all_in env score_keys feedback) as [[|]|e0] eqn:Hfk; step;
      [| intros [= <-]; right; right; now left
       | intros [= <-]; right; right; right; now apply all_in_fault in Hfk].
    assert (Hcorr : py_contains env "corrections" v = Ok true
                    \/ exists e0, py_contains env "corrections" v = Raise e0).
    { revert Hreq. unfold required_keys. cbn [all_in].
      destruct (py_contains env "scores" v) as [[|]|]; step; try discriminate.
      destruct (py_contains env "feedback" v) as [[|]|]; step; try discriminate.
      destruct (py_contains env "corrections" v) as [[|]|]; step; try discriminate;
        eauto. }
    destruct Hcorr as [->|[e0 Hc]]; step.
    2: { rewrite Hc. step. intros [= <-]. right; right; right.
         now apply py_contains_fault in Hc. }
    destruct (py_getitem env v "corrections") as [corrections|e0] eqn:Hco; step;
      [| intros [= <-]; right; right; right; now apply py_getitem_fault in Hco].
    destruct (find_text_positions env essay corrections) as [h|e0] eqn:Hh; step;
      [| intros [= <-]; right; right; right; now apply find_text_positions_fault in Hh].
    intros Hset. right; right; right. now apply py_setitem_fault in Hset. }
  split; [exact Hcases|].
  destruct Hcases as [->|[->|[->|Hf]]]; try discriminate.
  intros ->. apply is_fault_not_ValueError in Hf. discriminate.
Qed.

Lemma validation_errors_witness :
  parse_and_validate (fixed_env (Ok "{}") (Ok (obj []))) "essay" "{}"
  = Raise (Exn ValueError "Invalid response format: missing required keys")
  /\ Exn ValueError "Invalid response format: missing required keys"
     <> Exn ValueError "Invalid response format: missing corrections".
Proof.
  split; [reflexivity|].
  apply (validation_errors (fixed_env (Ok "{}") (Ok (obj []))) "essay" "{}" (obj []));
    reflexivity.
Defined.

(** ** Overall score: what it is computed from *)

Lemma py_add_Ok env a v a' : py_add env a v = Ok a' -> is_Some (as_num v).
Proof. unfold py_add. destruct (as_num v); [eauto | discriminate]. Qed.

Lemma py_sum_from_Ok env values : forall acc total,
  py_sum_from env acc values = Ok total -> Forall (fun v => is_Some (as_num v)) values.
Proof.
  induction values as [|v values IH]; intros acc total; simpl; [constructor|].
  destruct (py_add env acc v) as [acc'|] eqn:Hadd; simpl; [|discriminate].
  intros Hsum. constructor; [now apply py_add_Ok in Hadd | now apply IH in Hsum].
Qed.

Lemma calculate_overall_score_Ok env scores x :
  calculate_overall_score env scores = Ok x ->
  scores <> [] /\ Forall (fun v => is_Some (as_num v)) scores.
Proof.
  unfold calculate_overall_score, py_sum.
  destruct (py_sum_from env (NInt 0) scores) as [total|] eqn:Hsum; simpl; [|discriminate].
  intros Hdiv. split; [|now apply py_sum_from_Ok in Hsum].
  intros ->. injection Hsum as <-. discriminate Hdiv.
Qed.

(** X16.  [calculate_overall_score] returns only for a list that is not
    empty and holds numbers only (an [int], a [float] or a [bool]); so
    the four sub-scores of a row that [score_essay] stored are numbers,
    whatever the service answered. *)
Theorem stored_scores_are_numbers (env : Env) (user_id : Z) (data : option Submission)
    (s s' : Session) (w : WritingScore) :
  (forall scores x,
     calculate_overall_score env scores = Ok x ->
     scores <> [] /\ Forall (fun v => is_Some (as_num v)) scores)
  /\ (score_essay env user_id data s = (Ok w, s') ->
      is_Some (as_num (ws_task_achievement w))
      /\ is_Some (as_num (ws_coherence_cohesion w))
      /\ is_Some (as_num (ws_lexical_resource w))
      /\ is_Some (as_num (ws_grammatical_range w))).
Proof.
  split; [intros scores x; apply calculate_overall_score_Ok|].
  intros Hrun.
  destruct (score_essay_Ok _ _ _ _ _ _ Hrun) as (_ & _ & Hov & _).
  apply calculate_overall_score_Ok in Hov as [_ Hall].
  inversion Hall as [|? ? H1 Hall1]; subst.
  inversion Hall1 as [|? ? H2 Hall2]; subst.
  inversion Hall2 as [|? ? H3 Hall3]; subst.
  inversion Hall3 as [|? ? H4 _]; subst.
  auto.
Qed.

Lemma stored_scores_are_numbers_witness :
  is_Some (as_num (ws_task_achievement sample_row))
  /\ is_Some (as_num (ws_coherence_cohesion sample_row))
  /\ is_Some (as_num (ws_lexical_resource sample_row))
  /\ is_Some (as_num (ws_grammatical_range sample_row)).
Proof.
  apply (proj2 (stored_scores_are_numbers sample_env 1 sample_submission sample_session
                  (score_essay sample_env 1 sample_submission sample_session).2
                  sample_row)).
  vm_compute. reflexivity.
Defined.

(** ** Overall score: within the sub-scores *)

Lemma overall_within_checked :
  forallb (fun K => forallb (fun k =>
      let x := nearest_float (round_1_decimal (Qmake K 8)) in
      implb (4 * k <=? K) (int_truediv k 2 <=? x)%float
      && implb (K <=? 4 * k) (x <=? int_truediv k 2)%float
      && implb (K =? 4 * k) (Leibniz.eqb x (int_truediv k 2)))
    (List.map (fun k => 0 + Z.of_nat k) (seq 0 19)))
    (List.map (fun k => 0 + Z.of_nat k) (seq 0 73)) = true.
Proof. vm_compute. reflexivity. Qed.

(** X17.  For four sub-scores on the assessment scale the overall score
    is not below the smallest of them and not above the largest; four
    equal sub-scores give that score. *)
Theorem overall_score_within_scores (env : Env) (v1 v2 v3 v4 : json)
    (k1 k2 k3 k4 : Z) :
  on_scale v1 k1 -> on_scale v2 k2 -> on_scale v3 k3 -> on_scale v4 k4 ->
  exists x,
    calculate_overall_score env [v1; v2; v3; v4] = Ok x
    /\ (int_truediv (Z.min (Z.min k1 k2) (Z.min k3 k4)) 2 <=? x)%float = true
    /\ (x <=? int_truediv (Z.max (Z.max k1 k2) (Z.max k3 k4)) 2)%float = true
    /\ (k1 = k2 -> k2 = k3 -> k3 = k4 -> x = int_truediv k1 2).
Proof.
  intros H1 H2 H3 H4. eexists.
  split; [apply (overall_score_on_scale env _ _ _ _ k1 k2 k3 k4); assumption|].
  pose proof (proj1 H1) as B1. pose proof (proj1 H2) as B2.
  pose proof (proj1 H3) as B3. pose proof (proj1 H4) as B4.
  unfold overallScore.
  assert (Hchk : forall k, 0 <= k <= 18 ->
            let x := nearest_float (round_1_decimal (Qmake (k1 + k2 + k3 + k4) 8)) in
            implb (4 * k <=? k1 + k2 + k3 + k4) (int_truediv k 2 <=? x)%float
            && implb (k1 + k2 + k3 + k4 <=? 4 * k) (x <=? int_truediv k 2)%float
            && implb (k1 + k2 + k3 + k4 =? 4 * k) (Leibniz.eqb x (int_truediv k 2))
            = true).
  { intros k Hk.
    apply (forallb_range2 _ 73 19 overall_within_checked (k1 + k2 + k3 + k4) k); lia. }
  split; [|split].
  - specialize (Hchk (Z.min (Z.min k1 k2) (Z.min k3 k4)) ltac:(lia)). cbv zeta in Hchk.
    apply andb_true_iff in Hchk as [Hchk _]. apply andb_true_iff in Hchk as [Hlo _].
    destruct (Z.leb_spec (4 * Z.min (Z.min k1 k2) (Z.min k3 k4)) (k1 + k2 + k3 + k4));
      [exact Hlo | lia].
  - specialize (Hchk (Z.max (Z.max k1 k2) (Z.max k3 k4)) ltac:(lia)). cbv zeta in Hchk.
    apply andb_true_iff in Hchk as [Hchk _]. apply andb_true_iff in Hchk as [_ Hhi].
    destruct (Z.leb_spec (k1 + k2 + k3 + k4) (4 * Z.max (Z.max k1 k2) (Z.max k3 k4)));
      [exact Hhi | lia].
  - intros -> -> ->. specialize (Hchk k4 ltac:(lia)). cbv zeta in Hchk.
    apply andb_true_iff in Hchk as [_ Heq].
    destruct (Z.eqb_spec (k4 + k4 + k4 + k4) (4 * k4)); [|lia].
    now apply float_eqb_eq.
Qed.

Lemma overall_score_within_scores_witness :
  exists x,
    calculate_overall_score sample_env [JInt 6; JInt 7; JInt 6; JFloat 6.5] = Ok x
    /\ (int_truediv 12 2 <=? x)%float = true
    /\ (x <=? int_truediv 14 2)%float = true.
Proof.
  destruct (overall_score_within_scores sample_env
              (JInt 6) (JInt 7) (JInt 6) (JFloat 6.5) 12 14 12 13)
    as (x & Hx & Hlo & Hhi & _).
  - split; [lia|]. right. split; reflexivity.
  - split; [lia|]. right. split; reflexivity.
  - split; [lia|]. right. split; reflexivity.
  - split; [lia|]. left. reflexivity.
  - exists x. split; [exact Hx|]. split; [exact Hlo | exact Hhi].
Defined.

(** ** PenaltyCalculator: more words, or less time, never cost more *)

Lemma pairwise_nth {A} (rel : A -> A -> bool) (d : A) (l : list A) :
  pairwise rel l = true ->
  forall i j, (i <= j < length l)%nat -> rel (nth i l d) (nth j l d) = true.
Proof.
  induction l as [|x l IH]; simpl; [intros _ i j; lia|].
  intros H. apply andb_true_iff in H as [H Hrest]. apply andb_true_iff in H as [Hxx Hx].
  rewrite forallb_forall in Hx.
  intros [|i] [|j] Hij; try lia.
  - exact Hxx.
  - apply Hx. apply nth_In. lia.
  - apply IH; [exact Hrest | lia].
Qed.

Lemma pairwise_table {A} (rel : A -> A -> bool) (f : Z -> A) (lo : Z) (n : nat) :
  pairwise rel (List.map (fun k => f (lo + Z.of_nat k)) (seq 0 n)) = true ->
  forall z1 z2, lo <= z1 -> z1 <= z2 -> z2 < lo + Z.of_nat n -> rel (f z1) (f z2) = true.
Proof.
  intros H z1 z2 H1 H12 H2.
  pose proof (pairwise_nth rel (f lo) _ H (Z.to_nat (z1 - lo)) (Z.to_nat (z2 - lo))) as Hn.
  rewrite length_map, length_seq in Hn. specialize (Hn ltac:(lia)).
  rewrite !(nth_indep _ (f lo) (f (lo + Z.of_nat 0))) in Hn
    by (rewrite length_map, length_seq; lia).
  rewrite !(map_nth (fun k => f (lo + Z.of_nat k))) in Hn.
  rewrite !seq_nth in Hn by lia. simpl in Hn.
  now replace (lo + Z.of_nat (Z.to_nat (z1 - lo))) with z1 in Hn by lia;
      replace (lo + Z.of_nat (Z.to_nat (z2 - lo))) with z2 in Hn by lia.
Qed.

Lemma word_count_penalty_table :
  pairwise (fun x y => (y <=? x)%float)
    (List.map (fun k => calculate_word_count_penalty (0 + Z.of_nat k) "task1") (seq 0 251))
  && pairwise (fun x y => (y <=? x)%float)
       (List.map (fun k => calculate_word_count_penalty (0 + Z.of_nat k) "task2")
                 (seq 0 251)) = true.
Proof. vm_compute. reflexivity. Qed.

Lemma time_penalty_table :
  pairwise (fun x y => (x <=? y)%float)
    (List.map (fun k => py_min (int_truediv (0 + Z.of_nat k) 60 * 0.1) 1) (seq 0 3601))
  = true.
Proof. vm_compute. reflexivity. Qed.

Lemma penalties_by_variant task_type :
  (min_words task_type = 150 /\ time_limit task_type = 20
   /\ (forall w, calculate_word_count_penalty w task_type
                 = calculate_word_count_penalty w "task1"))
  \/ (min_words task_type = 250 /\ time_limit task_type = 40
      /\ (forall w, calculate_word_count_penalty w task_type
                    = calculate_word_count_penalty w "task2")).
Proof.
  unfold calculate_word_count_penalty, min_words, time_limit.
  destruct (String.eqb task_type "task1"); [left | right]; auto.
Qed.

(** Up to an hour over the limit the time penalty is the capped product
    for the seconds over, none below the limit. *)
Lemma time_penalty_within_hour env task_type t :
  t <= time_limit task_type * 60 + 3600 ->
  calculate_time_penalty env (Some t) task_type
  = Ok (py_min (int_truediv (Z.max 0 (t - time_limit task_type * 60)) 60 * 0.1) 1).
Proof.
  intros Ht. destruct (Z.le_gt_cases t (time_limit task_type * 60)) as [Hle|Hgt].
  - rewrite time_penalty_in_time by exact Hle.
    replace (Z.max 0 (t - time_limit task_type * 60)) with 0 by lia. reflexivity.
  - rewrite time_penalty_over by (pose proof DBL_OVERFLOW_lower; lia).
    replace (Z.max 0 (t - time_limit task_type * 60))
      with (t - time_limit task_type * 60) by lia.
    reflexivity.
Qed.

(** X18.  A longer essay never has a larger word-count penalty than a
    shorter one, and the penalty is never negative: for word counts
    [0 <= w1 <= w2], the penalty computed for [w2] is at most the one
    computed for [w1], whatever the task type. *)
Theorem word_count_penalty_monotone (task_type : string) (w1 w2 : Z) :
  0 <= w1 -> w1 <= w2 ->
  (calculate_word_count_penalty w2 task_type
   <=? calculate_word_count_penalty w1 task_type)%float = true
  /\ (0 <=? calculate_word_count_penalty w1 task_type)%float = true.
Proof.
  intros H0 H12.
  pose proof word_count_penalty_table as Htab. apply andb_true_iff in Htab as [T1 T2].
  pose proof (pairwise_table (fun x y => (y <=? x)%float)
                (fun w => calculate_word_count_penalty w "task1") 0 251 T1) as M1.
  pose proof (pairwise_table (fun x y => (y <=? x)%float)
                (fun w => calculate_word_count_penalty w "task2") 0 251 T2) as M2.
  cbv beta in M1, M2.
  assert (Hmono : forall a b, 0 <= a -> a <= b ->
            (calculate_word_count_penalty b task_type
             <=? calculate_word_count_penalty a task_type)%float = true).
  { intros a b Ha Hab.
    destruct (Z.le_gt_cases b 250) as [Hb|Hb].
    - destruct (penalties_by_variant task_type) as [(_ & _ & E)|(_ & _ & E)];
        rewrite !E; [apply M1 | apply M2]; simpl; lia.
    - rewrite (word_count_penalty_enough b task_type)
        by (destruct (penalties_by_variant task_type) as [(-> & _)|(-> & _)]; lia).
      destruct (Z.le_gt_cases a 250) as [Ha'|Ha'].
      + rewrite <- (word_count_penalty_enough 250 task_type)
          by (destruct (penalties_by_variant task_type) as [(-> & _)|(-> & _)]; lia).
        destruct (penalties_by_variant task_type) as [(_ & _ & E)|(_ & _ & E)];
          rewrite !E; [apply M1 | apply M2]; simpl; lia.
      + rewrite (word_count_penalty_enough a task_type)
          by (destruct (penalties_by_variant task_type) as [(-> & _)|(-> & _)]; lia).
        reflexivity. }
  split; [now apply Hmono|].
  rewrite <- (word_count_penalty_enough (Z.max w1 250) task_type)
    by (destruct (penalties_by_variant task_type) as [(-> & _)|(-> & _)]; lia).
  apply Hmono; lia.
Qed.

Lemma word_count_penalty_monotone_witness :
  (calculate_word_count_penalty 140 "task1"
   <=? calculate_word_count_penalty 90 "task1")%float = true
  /\ (0 <=? calculate_word_count_penalty 90 "task1")%float = true.
Proof. apply (word_count_penalty_monotone "task1" 90 140); lia. Defined.

(** X19.  Up to an hour over the limit, more time never gives a smaller
    time penalty, and the penalty is never negative: for times
    [t1 <= t2] of at most the limit plus 3600 seconds,
    [calculate_time_penalty] returns for both, the penalty for [t1] is at
    most the one for [t2], and so is the penalty 0 of a submission without
    a time. *)
Theorem time_penalty_monotone (env : Env) (task_type : string) (t1 t2 : Z) :
  t1 <= t2 -> t2 <= time_limit task_type * 60 + 3600 ->
  exists p1 p2,
    calculate_time_penalty env (Some t1) task_type = Ok p1
    /\ calculate_time_penalty env (Some t2) task_type = Ok p2
    /\ (p1 <=? p2)%float = true
    /\ calculate_time_penalty env None task_type = Ok 0%float
    /\ (0 <=? p2)%float = true.
Proof.
  intros H12 H2.
  pose proof (pairwise_table (fun x y => (x <=? y)%float)
                (fun d => py_min (int_truediv d 60 * 0.1) 1) 0 3601
                time_penalty_table) as M.
  cbv beta in M.
  eexists _, _.
  split; [apply time_penalty_within_hour; lia|].
  split; [apply time_penalty_within_hour; lia|].
  split; [apply M; simpl; lia|].
  split; [reflexivity|].
  change 0%float with (py_min (int_truediv 0 60 * 0.1) 1).
  apply M; simpl; lia.
Qed.

Lemma time_penalty_monotone_witness :
  exists p1 p2,
    calculate_time_penalty sample_env (Some 1300) "task1" = Ok p1
    /\ calculate_time_penalty sample_env (Some 1500) "task1" = Ok p2
    /\ (p1 <=? p2)%float = true.
Proof.
  destruct (time_penalty_monotone sample_env "task1" 1300 1500)
    as (p1 & p2 & H1 & H2 & Hle & _); [lia | vm_compute; discriminate|].
  exists p1, p2. auto.
Defined.

(** ** Word count (line 227) *)

Section Words.

#[local] Open Scope nat_scope.

Lemma append_not_empty word c : String.eqb (word ++ String c EmptyString) "" = false.
Proof. destruct word; reflexivity. Qed.

Lemma str_split_from_length s : forall word,
  length (str_split_from s word) = words_from s (negb (String.eqb word "")).
Proof.
  induction s as [|c s IH]; intros word; simpl.
  - destruct (String.eqb word ""); reflexivity.
  - destruct (is_space c).
    + destruct (String.eqb word ""); simpl; now rewrite IH.
    + now rewrite IH, append_not_empty.
Qed.

Lemma words_from_app a b c : forall in_word,
  is_space c = true ->
  words_from (a ++ String c b) in_word = words_from a in_word + words_from b false.
Proof.
  intros in_word Hc. revert in_word.
  induction a as [|x a IH]; intros in_word; simpl.
  - rewrite Hc. destruct in_word; reflexivity.
  - destruct (is_space x); rewrite IH; lia.
Qed.

Lemma words_from_blank s in_word :
  blank s = true -> words_from s in_word = if in_word then 1 else 0.
Proof.
  revert in_word. induction s as [|c s IH]; intros in_word; simpl; [reflexivity|].
  intros H. apply andb_true_iff in H as [-> Hs]. rewrite IH by exact Hs. lia.
Qed.

Lemma words_from_zero s : words_from s false = 0 -> blank s = true.
Proof.
  induction s as [|c s IH]; simpl; [reflexivity|].
  destruct (is_space c); simpl; [exact IH|].
  clear IH. assert (H : forall t, words_from t true <> 0).
  { induction t as [|x t IHt]; simpl; [lia|]. destruct (is_space x); [lia | exact IHt]. }
  intros H0. destruct (H s H0).
Qed.

Lemma words_from_lstrip s : words_from (str_lstrip s) false = words_from s false.
Proof.
  induction s as [|c s IH]; simpl; [reflexivity|].
  destruct (is_space c) eqn:Hc; [exact IH|]. simpl. now rewrite Hc.
Qed.

Lemma rev_app_append a : forall b c,
  String.rev_app a (b ++ c) = (String.rev_app a b ++ c)%string.
Proof.
  induction a as [|x a IH]; intros b c; simpl; [reflexivity|].
  apply (IH (String x b) c).
Qed.

Lemma rev_cons c s : String.rev (String c s) = (String.rev s ++ String c EmptyString)%string.
Proof. unfold String.rev. simpl. apply (rev_app_append s "" (String c "")). Qed.

Lemma rev_snoc s c : String.rev (s ++ String c EmptyString) = String c (String.rev s).
Proof.
  assert (H : forall acc, String.rev_app (s ++ String c EmptyString) acc
                         = String c (String.rev_app s acc)).
  { induction s as [|x s IH]; intros acc; simpl; [reflexivity|]. apply IH. }
  apply H.
Qed.

Lemma blank_app a b : blank (a ++ b) = blank a && blank b.
Proof.
  induction a as [|x a IH]; simpl; [reflexivity|]. now rewrite IH, andb_assoc.
Qed.

Lemma blank_rev s : blank (String.rev s) = blank s.
Proof.
  induction s as [|c s IH]; [reflexivity|].
  rewrite rev_cons, blank_app, IH. simpl. now rewrite andb_true_r, andb_comm.
Qed.

Lemma str_lstrip_app a b :
  str_lstrip (a ++ b) = if blank a then str_lstrip b else (str_lstrip a ++ b)%string.
Proof.
  induction a as [|x a IH]; simpl; [reflexivity|].
  destruct (is_space x); [exact IH | reflexivity].
Qed.

(** Trailing whitespace removed, as [str_strip] does it. *)
Lemma rstrip_cons c s :
  String.rev (str_lstrip (String.rev (String c s)))
  = if blank s then (if is_space c then EmptyString else String c EmptyString)
    else String c (String.rev (str_lstrip (String.rev s))).
Proof.
  rewrite rev_cons, str_lstrip_app, blank_rev.
  destruct (blank s).
  - simpl. destruct (is_space c); reflexivity.
  - apply rev_snoc.
Qed.

Lemma words_from_rstrip s : forall in_word,
  words_from (String.rev (str_lstrip (String.rev s))) in_word = words_from s in_word.
Proof.
  induction s as [|c s IH]; intros in_word; [reflexivity|].
  rewrite rstrip_cons. destruct (blank s) eqn:Hs.
  - destruct (is_space c) eqn:Hc; simpl; rewrite Hc, ?words_from_blank by exact Hs;
      [destruct in_word; reflexivity | reflexivity].
  - simpl. destruct (is_space c); now rewrite IH.
Qed.

Lemma count_words_words_from s : count_words s = Z.of_nat (words_from s false).
Proof.
  unfold count_words, str_split, str_strip.
  now rewrite str_split_from_length, words_from_rstrip, words_from_lstrip.
Qed.

End Words.

(** X20.  The word count of line 227 does not depend on [strip()]:
    splitting alone gives the same number.  Whitespace between two texts
    makes their counts add up, and the count is 0 exactly for a text of
    whitespace only. *)
Theorem count_words_whitespace :
  (forall s, count_words s = Z.of_nat (length (str_split s)))
  /\ (forall a b c, is_space c = true ->
                    count_words (a ++ String c b) = count_words a + count_words b)
  /\ (forall s, count_words s = 0 <-> blank s = true).
Proof.
  split; [|split].
  - intros s. rewrite count_words_words_from. unfold str_split.
    now rewrite str_split_from_length.
  - intros a b c Hc. rewrite !count_words_words_from, words_from_app by exact Hc. lia.
  - intros s. rewrite count_words_words_from. split.
    + intros H. apply words_from_zero. lia.
    + intros H. now rewrite words_from_blank.
Qed.

(** ** ScoringPipeline: what a failed run leaves behind *)

(** X21.  A run of [score_essay] that raises, started in a session with
    nothing pending, stores no essay and no combined score, leaves
    nothing pending, and changes no balance but, possibly, that of the
    user, which then is one credit lower: the credit taken before the
    analysis is not given back. *)
Theorem score_essay_failure_stores_nothing (env : Env) (user_id : Z)
    (data : option Submission) (s s' : Session) (e : exn) :
  committed s = working s ->
  score_essay env user_id data s = (Raise e, s') ->
  writing_scores (working s') = writing_scores (working s)
  /\ combined_writing_scores (working s') = combined_writing_scores (working s)
  /\ committed s' = working s'
  /\ (forall u, u <> user_id ->
                user_credits (working s') !! u = user_credits (working s) !! u)
  /\ (user_credits (working s') !! user_id = user_credits (working s) !! user_id
      \/ exists c, user_credits (working s) !! user_id = Some c /\ 1 <= c
                   /\ user_credits (working s') !! user_id = Some (c - 1)).
Proof.
  intros Hclean Hrun.
  assert (Hroll : s' = session_rollback s \/
                  exists c, user_credits (working s) !! user_id = Some c
                            /\ CREDITS_PER_ANALYSIS <= c /\ s' = deducted user_id c s).
  { assert (Hmiss : data = None
                    \/ (exists d, data = Some d
                                  /\ (sub_essay_text d = None \/ sub_task_type d = None))
                    \/ exists essay task ts, data = submission essay task ts).
    { destruct data as [[[essay|] [task|] ts]|]; [| | | |now left].
      - right; right. now exists essay, task, ts.
      - right; left. eexists. split; [reflexivity|]. now right.
      - right; left. eexists. split; [reflexivity|]. now left.
      - right; left. eexists. split; [reflexivity|]. now left. }
    destruct Hmiss as [Hnone|[Hnone|(essay & task & ts & ->)]];
      [left; rewrite score_essay_missing in Hrun by (now left); congruence
      |left; rewrite score_essay_missing in Hrun by (now right); congruence|].
    destruct (user_credits (working s) !! user_id) as [c|] eqn:Hc.
    - destruct (Z.lt_ge_cases c CREDITS_PER_ANALYSIS) as [Hlt|Hge].
      + left. rewrite (score_essay_insufficient _ _ _ _ _ _ _ Hc Hlt) in Hrun. congruence.
      + right. exists c. split; [reflexivity|]. split; [exact Hge|].
        exact (score_essay_fails_after_deduction _ _ _ _ _ _ _ _ _ Hc Hge Hrun).
    - left. rewrite (score_essay_no_ledger _ _ _ _ _ _ Hc) in Hrun. congruence. }
  destruct Hroll as [->|(c & Hc & Hge & ->)]; simpl.
  - rewrite Hclean. auto 10.
  - split; [reflexivity|]. split; [reflexivity|]. split; [reflexivity|].
    split; [intros u Hu; now apply lookup_insert_ne|].
    right. exists c. split; [exact Hc|]. split; [exact Hge|]. apply lookup_insert_eq.
Qed.

Lemma score_essay_failure_stores_nothing_witness :
  writing_scores (working (score_essay failing_env 1 sample_submission sample_session).2)
  = []
  /\ user_credits (working (score_essay failing_env 1 sample_submission sample_session).2)
       !! 1 = Some 1.
Proof.
  destruct (score_essay_failure_stores_nothing failing_env 1 sample_submission
              sample_session
              (score_essay failing_env 1 sample_submission sample_session).2
              (Exn PlainException
                 "Failed to score essay: Failed to analyze essay: Connection error.")
              eq_refl eq_refl)
    as (Hrows & _ & _ & _ & Hbal).
  split; [exact Hrows|].
  destruct Hbal as [Hbal|(c & Hc & _ & Hbal)].
  - vm_compute in Hbal. discriminate Hbal.
  - rewrite Hbal. injection Hc as <-. reflexivity.
Defined.

(** ** CombinedScoreAggregator: what it touches *)

(** X22.  [calculate_combined_score] touches neither the ledger nor the
    stored essays and never looks at the row it is given.  It appends at
    most one combined score; the row it appends belongs to the user, is
    stamped with the clock, refers to a stored task1 essay and a stored
    task2 essay of that user, and is committed. *)
Theorem combined_score_frame (user_id : Z) (new_score : WritingScore) (s : Session) :
  user_credits (working (calculate_combined_score user_id new_score s))
  = user_credits (working s)
  /\ writing_scores (working (calculate_combined_score user_id new_score s))
     = writing_scores (working s)
  /\ (forall other, calculate_combined_score user_id other s
                    = calculate_combined_score user_id new_score s)
  /\ (calculate_combined_score user_id new_score s = s
      \/ exists row t1 t2,
           combined_writing_scores (working (calculate_combined_score user_id new_score s))
           = combined_writing_scores (working s) ++ [row]
           /\ committed (calculate_combined_score user_id new_score s)
              = working (calculate_combined_score user_id new_score s)
           /\ cw_user_id row = user_id
           /\ cw_created_at row = now s
           /\ In t1 (writing_scores (working s)) /\ scored_for user_id "task1" t1
           /\ In t2 (writing_scores (working s)) /\ scored_for user_id "task2" t2
           /\ cw_task1_score_id row = ws_id t1
           /\ cw_task2_score_id row = ws_id t2).
Proof.
  split; [|split; [|split; [reflexivity|]]].
  - unfold calculate_combined_score.
    destruct (latest_score s user_id "task1"); [|reflexivity].
    destruct (latest_score s user_id "task2"); [|reflexivity].
    destruct (existing_combined _ _ _ _); reflexivity.
  - unfold calculate_combined_score.
    destruct (latest_score s user_id "task1"); [|reflexivity].
    destruct (latest_score s user_id "task2"); [|reflexivity].
    destruct (existing_combined _ _ _ _); reflexivity.
  - destruct (combined_score_grows user_id new_score s)
      as [Hsame|(t1 & t2 & H1 & H2 & Hnone & Hrows)]; [now left|].
    right. exists (new_combined_row s user_id t1 t2), t1, t2.
    split; [exact Hrows|].
    split; [exact (proj2 (combined_score_fresh_pair _ new_score _ _ _ H1 H2 Hnone))|].
    apply latest_score_Some in H1 as (Hin1 & Hfor1 & _).
    apply latest_score_Some in H2 as (Hin2 & Hfor2 & _).
    auto 10.
Qed.

(** ** ScoringPipeline: when it returns *)

(** X23.  [score_essay] returns when the request has both fields, the
    time spent, if given, is over the limit by less than the double
    range allows in minutes ([DBL_OVERFLOW * 60] seconds), the user holds
    at least one credit, and the service answers in the form the prompt
    asks for: an object whose [scores] are four sub-scores on the
    assessment scale, whose [feedback] has a text for each criterion and
    whose [corrections] are lists of well-formed entries.  The row it
    then returns carries the overall score of the four sub-scores. *)
Theorem score_essay_returns (env : Env) (user_id : Z) (essay task : string)
    (ts : option Z) (s : Session) (c : Z) (content : string)
    (m sc fb co : gmap string json) (v1 v2 v3 v4 : json) (k1 k2 k3 k4 : Z) :
  (forall t, ts = Some t -> t - time_limit task * 60 < DBL_OVERFLOW * 60) ->
  user_credits (working s) !! user_id = Some c ->
  CREDITS_PER_ANALYSIS <= c ->
  chat_completion env task essay = Ok content ->
  json_loads env content = Ok (JObj m) ->
  m !! "scores" = Some (JObj sc) ->
  m !! "feedback" = Some (JObj fb) ->
  m !! "corrections" = Some (JObj co) ->
  sc !! "task_achievement" = Some v1 -> on_scale v1 k1 ->
  sc !! "coherence_cohesion" = Some v2 -> on_scale v2 k2 ->
  sc !! "lexical_resource" = Some v3 -> on_scale v3 k3 ->
  sc !! "grammatical_range" = Some v4 -> on_scale v4 k4 ->
  (forall key, In key score_keys -> exists text, fb !! key = Some (JStr text)) ->
  (forall category, In category categories ->
     co !! category = None
     \/ exists entries, co !! category = Some (JArr entries)
                        /\ Forall well_formed_entry entries) ->
  exists w s',
    score_essay env user_id (submission essay task ts) s = (Ok w, s')
    /\ ws_overall_score w = nearest_float (overallScore k1 k2 k3 k4)
    /\ ws_task_achievement w = v1 /\ ws_coherence_cohesion w = v2
    /\ ws_lexical_resource w = v3 /\ ws_grammatical_range w = v4.
Proof.
  intros Hts Hc Hle Hchat Hj Hs Hf Hco H1 S1 H2 S2 H3 S3 H4 S4 Hfb Hwf.
  destruct (time_penalty_returns env ts task Hts) as [time_penalty Htp].
  destruct (find_text_positions_returns env essay co Hwf) as [h Hh].
  assert (Hsk : all_in env score_keys (JObj sc) = Ok true).
  { rewrite all_in_obj. unfold has_all, score_keys. simpl.
    rewrite !bool_decide_eq_true_2 by eauto. reflexivity. }
  destruct (Hfb "task_achievement") as [f1 F1]; [now left|].
  destruct (Hfb "coherence_cohesion") as [f2 F2]; [right; now left|].
  destruct (Hfb "lexical_resource") as [f3 F3]; [right; right; now left|].
  destruct (Hfb "grammatical_range") as [f4 F4]; [right; right; right; now left|].
  assert (Hfk : all_in env score_keys (JObj fb) = Ok true).
  { rewrite all_in_obj. unfold has_all, score_keys. simpl.
    rewrite !bool_decide_eq_true_2 by eauto. reflexivity. }
  pose proof (analyze_essay_Ok_intro env essay task content m _ _ _ h
                Hchat Hj Hs Hf Hco Hsk Hfk Hh) as Han.
  pose proof (overall_score_on_scale env v1 v2 v3 v4 k1 k2 k3 k4 S1 S2 S3 S4) as Hov.
  unfold score_essay, score_essay_body, submission, mbind, M_bind,
    check_and_deduct_credits, lift, save_and_combine.
  rewrite Hc. destruct (Z.ltb_spec c CREDITS_PER_ANALYSIS); [lia|].
  rewrite Han. cbn [py_getitem].
  rewrite !lookup_insert_ne by discriminate.
  rewrite Hs. cbn [py_getitem]. rewrite H1, H2, H3, H4. cbn [py_getitem].
  rewrite Hov, Htp. cbn [py_getitem].
  rewrite Hf. cbn [py_getitem].
  rewrite F1, F2, F3, F4. cbn [py_getitem]. rewrite lookup_insert_eq.
  cbn [session_add_writing_score]. eexists _, _. split; [reflexivity|].
  simpl. auto 10.
Qed.

Lemma score_essay_returns_witness :
  exists w s',
    score_essay sample_env 1 sample_submission sample_session = (Ok w, s')
    /\ ws_overall_score w = nearest_float (overallScore 12 14 12 13).
Proof.
  destruct (score_essay_returns sample_env 1 "the cat sat on the mat" "task1" (Some 1300)
              sample_session 2 "{...}"
              (list_to_map
                 [("scores", obj [("task_achievement", JInt 6);
                                  ("coherence_cohesion", JInt 7);
                                  ("lexical_resource", JInt 6);
                                  ("grammatical_range", JFloat 6.5)]);
                  ("feedback", obj [("task_achievement", JStr "Covers the task.");
                                    ("coherence_cohesion", JStr "Clear paragraphs.");
                                    ("lexical_resource", JStr "Adequate range.");
                                    ("grammatical_range", JStr "Mostly accurate.")]);
                  ("corrections", obj [("grammar", JArr [obj [("original", JStr "the");
                                                              ("correction", JStr "a")]]);
                                       ("vocabulary", JArr []);
                                       ("structure", JArr [])])])
              (list_to_map [("task_achievement", JInt 6);
                            ("coherence_cohesion", JInt 7);
                            ("lexical_resource", JInt 6);
                            ("grammatical_range", JFloat 6.5)])
              (list_to_map [("task_achievement", JStr "Covers the task.");
                            ("coherence_cohesion", JStr "Clear paragraphs.");
                            ("lexical_resource", JStr "Adequate range.");
                            ("grammatical_range", JStr "Mostly accurate.")])
              (list_to_map [("grammar", JArr [obj [("original", JStr "the");
                                                   ("correction", JStr "a")]]);
                            ("vocabulary", JArr []);
                            ("structure", JArr [])])
              (JInt 6) (JInt 7) (JInt 6) (JFloat 6.5) 12 14 12 13)
    as (w & s' & Hrun & Hov & _);
    try reflexivity; try (split; [lia|]; (left; reflexivity) || (right; split; reflexivity)).
  - intros t [= <-]. apply Z.ltb_lt. vm_compute. reflexivity.
  - unfold CREDITS_PER_ANALYSIS. lia.
  - intros key [<-|[<-|[<-|[<-|[]]]]]; eexists; reflexivity.
  - intros category [<-|[<-|[<-|[]]]]; right; eexists; (split; [reflexivity|]).
    + constructor; [|constructor]. eexists. split; [reflexivity|].
      right. eexists. reflexivity.
    + constructor.
    + constructor.
  - exists w, s'. split; [exact Hrun | exact Hov].
Defined.

(** ** CombinedScoreAggregator: the weighted score stays in range *)

Lemma combined_between_checked :
  forallb (fun i => forallb (fun j =>
      let x := combined_score_of (int_truediv i 10) (int_truediv j 10) in
      (int_truediv (Z.min i j) 10 <=? x)%float
      && (x <=? int_truediv (Z.max i j) 10)%float
      && implb (i =? j) (Leibniz.eqb x (int_truediv i 10)))
    (List.map (fun k => 0 + Z.of_nat k) (seq 0 91)))
    (List.map (fun k => 0 + Z.of_nat k) (seq 0 91)) = true.
Proof. vm_compute. reflexivity. Qed.

(** X24.  For two adjusted scores that are tenths between 0 and 9, the
    combined score (one third task 1, two thirds task 2, rounded to one
    decimal) is not below the smaller and not above the larger of them,
    and two equal scores combine to that score. *)
Theorem combined_score_between (i j : Z) :
  0 <= i <= 90 -> 0 <= j <= 90 ->
  (int_truediv (Z.min i j) 10
   <=? combined_score_of (int_truediv i 10) (int_truediv j 10))%float = true
  /\ (combined_score_of (int_truediv i 10) (int_truediv j 10)
      <=? int_truediv (Z.max i j) 10)%float = true
  /\ (i = j -> combined_score_of (int_truediv i 10) (int_truediv j 10)
               = int_truediv i 10).
Proof.
  intros Hi Hj.
  pose proof (forallb_range2 _ 91 91 combined_between_checked i j
                ltac:(lia) ltac:(lia)) as H.
  cbv beta zeta in H.
  apply andb_true_iff in H as [H Heq]. apply andb_true_iff in H as [Hlo Hhi].
  split; [exact Hlo|]. split; [exact Hhi|].
  intros ->. rewrite Z.eqb_refl in Heq. now apply float_eqb_eq.
Qed.

Lemma combined_score_between_witness :
  (int_truediv (Z.min 65 70) 10
   <=? combined_score_of (int_truediv 65 10) (int_truediv 70 10))%float = true
  /\ (combined_score_of (int_truediv 65 10) (int_truediv 70 10)
      <=? int_truediv (Z.max 65 70) 10)%float = true.
Proof.
  split; [apply (proj1 (combined_score_between 65 70 ltac:(lia) ltac:(lia)))
         |apply (proj1 (proj2 (combined_score_between 65 70 ltac:(lia) ltac:(lia))))].
Defined.
